(** * fluids.flow_meter: differential-pressure flow meters

    A shallow embedding of [fluids/flow_meter.py] and the properties its
    specification states about it.

    Conventions of the embedding.
    - A Python [float] is a real number ([R]).  Rounding, overflow, infinities
      and NaN are not modelled; a statement about a computed value is a
      statement about the exact real value of the formula the code evaluates.
      Where the rounding decides a property -- the two conversions between the
      discharge coefficient and the loss coefficient, whose subtraction
      cancels -- the functions are embedded a second time over the binary64
      numbers of the machine, in [Module Binary64].
    - A float operation that Python refuses raises the exception Python raises:
      division by zero is [ZeroDivisionError], [math.log10] and [math.acos]
      outside their domain are [ValueError], arithmetic on [None] is
      [TypeError], reading a local variable that was never assigned is
      [UnboundLocalError]; [RuntimeError] is what a root finder raises when
      it does not converge; [OverflowError] is what [x ** 2] raises in
      binary64 arithmetic when the square leaves the range.
    - A negative base raised to a non-integral power leaves the real line
      (Python 3 continues with a complex number): the model stops there with
      the outcome [Complex] and says nothing about what follows.
    - An argument that may hold Python's [None] (the optional arguments of the
      solver and of the pressure-drop dispatcher, and the parameters of the
      functions they are handed to) has type [option]; [None] is Python's
      [None].  [need] is the point where the code first computes with it.
    - [scipy.optimize.newton], [scipy.optimize.brenth] are parameters of the
      solver; [numpy.interp] and [scipy.constants.inch] are modelled from their
      documentation. *)

From Stdlib Require Import Reals Lra Lia ZArith Factorial String List Bool.
From Stdlib Require Import FunctionalExtensionality.
From Stdlib Require Floats.
Import ListNotations.

Open Scope R_scope.

(** ** Outcomes of a Python computation *)

(** What an [Exception] instance carries as its only argument. *)
Inductive payload : Type :=
| Message (s : string)
| NotImplemented.

Inductive exn : Type :=
| Exception (a : payload)
| TypeError
| ZeroDivisionError
| ValueError
| UnboundLocalError
| RuntimeError
| OverflowError.

Inductive result (A : Type) : Type :=
| Ok (a : A)
| Raise (e : exn)
| Complex.

Arguments Ok {A} a.
Arguments Raise {A} e.
Arguments Complex {A}.

Definition bind {A B : Type} (c : result A) (k : A -> result B) : result B :=
  match c with
  | Ok a => k a
  | Raise e => Raise e
  | Complex => Complex
  end.

Declare Scope py_scope.
Delimit Scope py_scope with py.
Notation "x <- c ;; k" := (bind c (fun x => k))
  (at level 61, c at next level, right associativity) : py_scope.
Notation "' ( x , y ) <- c ;; k" := (bind c (fun '(x, y) => k))
  (at level 61, x name, y name, c at next level, right associativity) : py_scope.
Open Scope py_scope.

(** The message of an exception, when it carries one. *)
Definition exn_message (e : exn) : option string :=
  match e with
  | Exception (Message s) => Some s
  | _ => None
  end.

Definition is_Ok {A : Type} (c : result A) : bool :=
  match c with Ok _ => true | _ => false end.

Definition fails {A : Type} (c : result A) : bool :=
  match c with Raise _ => true | _ => false end.

(** ** Float primitives *)

(** First arithmetic use of a value that may be [None]. *)
Definition need (x : option R) : result R :=
  match x with
  | Some v => Ok v
  | None => Raise TypeError
  end.

(** [x / y] *)
Definition fdiv (x y : R) : result R :=
  if Req_dec_T y 0 then Raise ZeroDivisionError else Ok (x / y).

(** [x ** y] with a float exponent [y]. *)
Definition fpow (x y : R) : result R :=
  if Req_dec_T y 0 then Ok 1
  else if Rlt_dec 0 x then Ok (Rpower x y)
  else if Req_dec_T x 0 then
         (if Rlt_dec y 0 then Raise ZeroDivisionError else Ok 0)
  else if Req_dec_T (frac_part y) 0 then Ok (powerRZ x (Int_part y))
  else Complex.

(** [x ** 0.5]: the square root, as [fpow] computes it. *)
Definition fsqrt (x : R) : result R := fpow x 0.5.

(** [math.log10] *)
Definition log10 (x : R) : result R :=
  if Rlt_dec 0 x then Ok (ln x / ln 10) else Raise ValueError.

(** [math.acos] *)
Definition py_acos (x : R) : result R :=
  if Rle_dec (-1) x then
    if Rle_dec x 1 then Ok (acos x) else Raise ValueError
  else Raise ValueError.

(** [pi] of the [math] module. *)
Definition pi : R := PI.

(** [scipy.constants.inch]: one inch in metres. *)
Definition inch : R := 0.0254.

(** ** Meter types *)

Open Scope string_scope.

Definition ISO_5167_ORIFICE := "ISO 5167 orifice".
Definition LONG_RADIUS_NOZZLE := "long radius nozzle".
Definition ISA_1932_NOZZLE := "ISA 1932 nozzle".
Definition VENTURI_NOZZLE := "venuri nozzle".
Definition AS_CAST_VENTURI_TUBE := "as cast convergent venturi tube".
Definition MACHINED_CONVERGENT_VENTURI_TUBE := "machined convergent venturi tube".
Definition ROUGH_WELDED_CONVERGENT_VENTURI_TUBE :=
  "rough welded convergent venturi tube".
Definition CONE_METER := "cone meter".
Definition WEDGE_METER := "wedge meter".

Definition meter_types : list string :=
  [ISO_5167_ORIFICE; LONG_RADIUS_NOZZLE; ISA_1932_NOZZLE; VENTURI_NOZZLE;
   AS_CAST_VENTURI_TUBE; MACHINED_CONVERGENT_VENTURI_TUBE;
   ROUGH_WELDED_CONVERGENT_VENTURI_TUBE; CONE_METER; WEDGE_METER].

Close Scope string_scope.

(** [a == b] on a value that may be [None] and a string literal. *)
Definition eq_str (a : option string) (b : string) : bool :=
  match a with
  | Some s => String.eqb s b
  | None => false
  end.

(** ** Generic orifice-equation primitives *)

Definition orifice_discharge (D : R) (Do P1 P2 : option R) (rho C : R)
    (expansibility : R) : result R :=
  P1 <- need P1 ;; P2 <- need P2 ;;
  let dP := P1 - P2 in
  Do <- need Do ;;
  beta <- fdiv Do D ;;
  num <- fsqrt (2 * dP * rho) ;;
  den <- fsqrt (1.0 - beta ^ 4) ;;
  q <- fdiv ((pi * Do * Do / 4) * C * num) den ;;
  Ok (q * expansibility).

(** The default of the keyword argument [expansibility]. *)
Definition expansibility_default : R := 1.0.

Definition orifice_expansibility (D : R) (Do P1 P2 : option R) (k : R)
    : result R :=
  Do <- need Do ;;
  beta <- fdiv Do D ;;
  P2 <- need P2 ;; P1 <- need P1 ;;
  tau <- fdiv P2 P1 ;;
  e <- fdiv 1 k ;;
  p <- fpow tau e ;;
  Ok (1.0 - (0.351 + 0.256 * beta ^ 4 + 0.93 * beta ^ 8) * (1.0 - p)).

Definition orifice_expansibility_1989 (D : R) (Do P1 P2 : option R) (k : R)
    : result R :=
  Do <- need Do ;;
  r <- fdiv Do D ;;
  P1 <- need P1 ;; P2 <- need P2 ;;
  q <- fdiv ((0.41 + 0.35 * r ^ 4) * (P1 - P2)) (k * P1) ;;
  Ok (1.0 - q).

Definition discharge_coefficient_to_K (D Do C : R) : result R :=
  beta <- fdiv Do D ;;
  let beta2 := beta * beta in
  let beta4 := beta2 * beta2 in
  s <- fsqrt (1.0 - beta4 * (1.0 - C * C)) ;;
  q <- fdiv s (C * beta2) ;;
  Ok ((q - 1.0) ^ 2).

Definition K_to_discharge_coefficient (D Do K : R) : result R :=
  beta <- fdiv Do D ;;
  let beta2 := beta * beta in
  let beta4 := beta2 * beta2 in
  root_K <- fsqrt K ;;
  let common_term := 2.0 * root_K * beta4 + K * beta4 in
  a <- fdiv (- beta4) common_term ;;
  b <- fdiv 1.0 common_term ;;
  fsqrt (a + b).

Definition dP_orifice (D Do P1 P2 : R) (C : option R) : result R :=
  beta <- fdiv Do D ;;
  let beta2 := beta * beta in
  let beta4 := beta2 * beta2 in
  let dP := P1 - P2 in
  C <- need C ;;
  s1 <- fsqrt (1.0 - beta4 * (1.0 - C * C)) ;;
  s2 <- fsqrt (1.0 - beta4 * (1.0 - C * C)) ;;
  q <- fdiv (s1 - C * beta2) (s2 + C * beta2) ;;
  Ok (q * dP).

Definition nozzle_expansibility (D : R) (Do P1 P2 : option R) (k : R)
    : result R :=
  Do <- need Do ;;
  beta <- fdiv Do D ;;
  let beta2 := beta * beta in
  let beta4 := beta2 * beta2 in
  P2 <- need P2 ;; P1 <- need P1 ;;
  tau <- fdiv P2 P1 ;;
  e1 <- fdiv 2.0 k ;;
  p1 <- fpow tau e1 ;;
  term1 <- fdiv (k * p1) (k - 1.0) ;;
  e2 <- fdiv 2.0 k ;;
  p2 <- fpow tau e2 ;;
  term2 <- fdiv (1.0 - beta4) (1.0 - beta4 * p2) ;;
  e3 <- fdiv (k - 1.0) k ;;
  p3 <- fpow tau e3 ;;
  term3 <- fdiv (1.0 - p3) (1.0 - tau) ;;
  fsqrt (term1 * term2 * term3).

(** ** Reynolds number of the pipe flow, as each coefficient function
    recomputes it *)

Definition pipe_Reynolds (D rho mu m : R) : result R :=
  let A_pipe := pi / 4 * D * D in
  v <- fdiv m (A_pipe * rho) ;;
  fdiv (rho * v * D) mu.

(** ** Flow-nozzle discharge coefficients *)

Definition C_long_radius_nozzle (D : R) (Do : option R) (rho mu m : R)
    : result R :=
  Re_D <- pipe_Reynolds D rho mu m ;;
  Do <- need Do ;;
  beta <- fdiv Do D ;;
  b <- fsqrt beta ;;
  r <- fdiv 1e6 Re_D ;;
  s <- fsqrt r ;;
  Ok (0.9965 - 0.00653 * b * s).

Definition C_ISA_1932_nozzle (D : R) (Do : option R) (rho mu m : R)
    : result R :=
  Re_D <- pipe_Reynolds D rho mu m ;;
  Do <- need Do ;;
  beta <- fdiv Do D ;;
  b1 <- fpow beta 4.1 ;;
  b2 <- fpow beta 4.15 ;;
  r <- fdiv 1e6 Re_D ;;
  s <- fpow r 1.15 ;;
  Ok (0.9900 - 0.2262 * b1 - (0.00175 * beta ^ 2 - 0.0033 * b2) * s).

Definition C_venturi_nozzle (D : R) (Do : option R) : result R :=
  Do <- need Do ;;
  beta <- fdiv Do D ;;
  b <- fpow beta 4.5 ;;
  Ok (0.9858 - 0.198 * b).

(** ** Cone meter *)

Definition diameter_ratio_cone_meter (D : R) (Dc : option R) : result R :=
  Dc <- need Dc ;;
  D_ratio <- fdiv Dc D ;;
  fsqrt (1.0 - D_ratio * D_ratio).

Definition cone_meter_expansibility_Stewart (D : R) (Dc P1 P2 : option R)
    (k : R) : result R :=
  P1 <- need P1 ;; P2 <- need P2 ;;
  let dP := P1 - P2 in
  beta <- diameter_ratio_cone_meter D Dc ;;
  q <- fdiv ((0.649 + 0.696 * beta ^ 4) * dP) (k * P1) ;;
  Ok (1.0 - q).

Definition dP_cone_meter (D Dc P1 P2 : R) : result R :=
  let dP := P1 - P2 in
  beta <- diameter_ratio_cone_meter D (Some Dc) ;;
  Ok ((1.09 - 0.813 * beta) * dP).

(** ** Wedge meter *)

Definition diameter_ratio_wedge_meter (D : R) (H : option R) : result R :=
  H <- need H ;;
  H_D <- fdiv H D ;;
  let t0 := 1.0 - 2.0 * H_D in
  t1 <- py_acos t0 ;;
  let t2 := 2.0 * t0 in
  t3 <- fsqrt (H_D - H_D * H_D) ;;
  let t4 := t1 - t2 * t3 in
  q <- fdiv 1 pi ;;
  fsqrt (q * t4).

Definition C_wedge_meter_Miller (D : R) (H : option R) : result R :=
  beta <- diameter_ratio_wedge_meter D H ;;
  if Rle_dec D (0.7 * inch) then
    Ok (0.7883 + 0.107 * (1 - beta * beta))
  else if Rle_dec D (1.4 * inch) then
    Ok (0.6143 + 0.718 * (1 - beta * beta))
  else
    Ok (0.5433 + 0.2453 * (1 - beta * beta)).

(** ** Orifice-plate discharge coefficient: Reader-Harris/Gallagher *)

Open Scope string_scope.

(** The tap parameters [(L1, L2_prime)] selected by [taps]. *)
Definition tap_parameters (D : R) (taps : option string) : result (R * R) :=
  if eq_str taps "corner" then Ok (0.0, 0.0)
  else if eq_str taps "D" || eq_str taps "D/2" then Ok (1.0, 0.47)
  else if eq_str taps "flange" then
    L <- fdiv 0.0254 D ;; Ok (L, L)
  else Raise (Exception (Message "Unsupported tap location")).

Close Scope string_scope.

Definition C_Reader_Harris_Gallagher (D : R) (Do : option R) (rho mu m : R)
    (taps : option string) : result R :=
  let A_pipe := pi / 4 * D * D in
  v <- fdiv m (A_pipe * rho) ;;
  Re_D <- fdiv (rho * v * D) mu ;;
  Do <- need Do ;;
  beta <- fdiv Do D ;;
  '(L1, L2_prime) <- tap_parameters D taps ;;
  let beta2 := beta * beta in
  let beta4 := beta2 * beta2 in
  let beta8 := beta4 * beta4 in
  a <- fdiv (19000.0 * beta) Re_D ;;
  A <- fpow a 0.8 ;;
  M2_prime <- fdiv (2 * L2_prime) (1.0 - beta) ;;
  up <- fdiv ((0.043 + 0.080 * exp (- 1e1 * L1) - 0.123 * exp (- 7.0 * L1))
              * (1.0 - 0.11 * A) * beta4) (1.0 - beta4) ;;
  let delta_C_upstream := up in
  M11 <- fpow M2_prime 1.1 ;;
  b13 <- fpow beta 1.3 ;;
  r <- fdiv 3700 Re_D ;;
  lg <- log10 r ;;
  let delta_C_downstream :=
    - 0.031 * (M2_prime - 0.8 * M11) * b13 * (1.0 + 8 * Rmax lg 0.0) in
  c <- fdiv (1e6 * beta) Re_D ;;
  c07 <- fpow c 0.7 ;;
  b35 <- fpow beta 3.5 ;;
  d <- fdiv 1e6 Re_D ;;
  d03 <- fpow d 0.3 ;;
  let C_inf_C_s :=
    0.5961 + 0.0261 * beta2 - 0.216 * beta8 + 0.000521 * c07
    + (0.0188 + 0.0063 * A) * b35
      * Rmax d03 (22.7 - 4700.0 * (Re_D / 1e6)) in
  let C := C_inf_C_s + delta_C_upstream + delta_C_downstream in
  if Rlt_dec D 0.07112 then
    let delta_C_diameter := 0.011 * (0.75 - beta) * Rmax (2.8 - D / 0.0254) 0.0 in
    Ok (C + delta_C_diameter)
  else Ok C.

(** ** Venturi tube pressure drop *)

Definition venturi_tube_betas : list R :=
  [0.299160; 0.299470; 0.312390; 0.319010; 0.326580; 0.337290;
   0.342020; 0.347060; 0.359030; 0.365960; 0.372580; 0.384870;
   0.385810; 0.401250; 0.405350; 0.415740; 0.424250; 0.434010;
   0.447880; 0.452590; 0.471810; 0.473090; 0.493540; 0.499240;
   0.516530; 0.523800; 0.537630; 0.548060; 0.556840; 0.573890;
   0.582350; 0.597820; 0.601560; 0.622650; 0.626490; 0.649480;
   0.650990; 0.668700; 0.675870; 0.688550; 0.693180; 0.706180;
   0.713330; 0.723510; 0.749540; 0.749650].

Definition venturi_tube_dP_high : list R :=
  [0.164534; 0.164504; 0.163591; 0.163508; 0.163439; 0.162652;
   0.162224; 0.161866; 0.161238; 0.160786; 0.160295; 0.159280;
   0.159193; 0.157776; 0.157467; 0.156517; 0.155323; 0.153835;
   0.151862; 0.151154; 0.147840; 0.147613; 0.144052; 0.143050;
   0.140107; 0.138981; 0.136794; 0.134737; 0.132847; 0.129303;
   0.127637; 0.124758; 0.124006; 0.119269; 0.118449; 0.113605;
   0.113269; 0.108995; 0.107109; 0.103688; 0.102529; 0.099567;
   0.097791; 0.095055; 0.087681; 0.087648].

Definition venturi_tube_dP_low : list R :=
  [0.089232; 0.089218; 0.088671; 0.088435; 0.088206; 0.087853;
   0.087655; 0.087404; 0.086693; 0.086241; 0.085813; 0.085142;
   0.085102; 0.084446; 0.084202; 0.083301; 0.082470; 0.081650;
   0.080582; 0.080213; 0.078509; 0.078378; 0.075989; 0.075226;
   0.072700; 0.071598; 0.069562; 0.068128; 0.066986; 0.064658;
   0.063298; 0.060872; 0.060378; 0.057879; 0.057403; 0.054091;
   0.053879; 0.051726; 0.050931; 0.049362; 0.048675; 0.046522;
   0.045381; 0.043840; 0.039913; 0.039896].

Definition D_bound_venturi_tube : list R := [0.065; 0.5].

(** [numpy.interp] at a scalar [x], modelled from its documentation: the
    piecewise linear interpolant through the points [(xp, fp)], [xp]
    increasing, with [fp[0]] returned left of [xp[0]] and [fp[-1]] right of
    [xp[-1]].  [interp_from x x0 y0 pts] is the interpolant at an [x] that is
    not left of the point [(x0, y0)], [pts] being the points after it. *)
Fixpoint interp_from (x x0 y0 : R) (pts : list (R * R)) : R :=
  match pts with
  | [] => y0
  | (x1, y1) :: rest =>
      if Rlt_dec x x1 then (y1 - y0) / (x1 - x0) * (x - x0) + y0
      else interp_from x x1 y1 rest
  end.

Definition interp (x : R) (xp fp : list R) : result R :=
  if negb (Nat.eqb (length xp) (length fp)) then Raise ValueError
  else
    match combine xp fp with
    | [] => Raise ValueError
    | (x0, y0) :: rest =>
        if Rlt_dec x x0 then Ok y0 else Ok (interp_from x x0 y0 rest)
    end.

Definition dP_venturi_tube (D Do P1 P2 : R) : result R :=
  beta <- fdiv Do D ;;
  epsilon_D65 <- interp beta venturi_tube_betas venturi_tube_dP_high ;;
  epsilon_D500 <- interp beta venturi_tube_betas venturi_tube_dP_low ;;
  epsilon <- interp D D_bound_venturi_tube [epsilon_D65; epsilon_D500] ;;
  Ok (epsilon * (P1 - P2)).

(** ** Meter-type dispatch and the unified solver *)

Definition CONE_METER_C : R := 0.82.
Definition ROUGH_WELDED_CONVERGENT_VENTURI_TUBE_C : R := 0.985.
Definition MACHINED_CONVERGENT_VENTURI_TUBE_C : R := 0.995.
Definition AS_CAST_VENTURI_TUBE_C : R := 0.984.

(** The helper returns the pair [(epsilon, C)], in this order. *)
Definition _differential_pressure_C_epsilon (D : R) (D2 : option R) (m : R)
    (P1 P2 : option R) (rho mu k : R) (meter_type : string)
    (taps : option string) : result (R * R) :=
  if String.eqb meter_type ISO_5167_ORIFICE then
    C <- C_Reader_Harris_Gallagher D D2 rho mu m taps ;;
    epsilon <- orifice_expansibility D D2 P1 P2 k ;;
    Ok (epsilon, C)
  else if String.eqb meter_type LONG_RADIUS_NOZZLE then
    epsilon <- nozzle_expansibility D D2 P1 P2 k ;;
    C <- C_long_radius_nozzle D D2 rho mu m ;;
    Ok (epsilon, C)
  else if String.eqb meter_type ISA_1932_NOZZLE then
    epsilon <- nozzle_expansibility D D2 P1 P2 k ;;
    C <- C_ISA_1932_nozzle D D2 rho mu m ;;
    Ok (epsilon, C)
  else if String.eqb meter_type VENTURI_NOZZLE then
    epsilon <- nozzle_expansibility D D2 P1 P2 k ;;
    C <- C_venturi_nozzle D D2 ;;
    Ok (epsilon, C)
  else if String.eqb meter_type AS_CAST_VENTURI_TUBE then
    epsilon <- nozzle_expansibility D D2 P1 P2 k ;;
    Ok (epsilon, AS_CAST_VENTURI_TUBE_C)
  else if String.eqb meter_type MACHINED_CONVERGENT_VENTURI_TUBE then
    epsilon <- nozzle_expansibility D D2 P1 P2 k ;;
    Ok (epsilon, MACHINED_CONVERGENT_VENTURI_TUBE_C)
  else if String.eqb meter_type ROUGH_WELDED_CONVERGENT_VENTURI_TUBE then
    epsilon <- nozzle_expansibility D D2 P1 P2 k ;;
    Ok (epsilon, ROUGH_WELDED_CONVERGENT_VENTURI_TUBE_C)
  else if String.eqb meter_type CONE_METER then
    epsilon <- cone_meter_expansibility_Stewart D D2 P1 P2 k ;;
    Ok (epsilon, CONE_METER_C)
  else if String.eqb meter_type WEDGE_METER then
    epsilon <- orifice_expansibility_1989 D D2 P1 P2 k ;;
    C <- C_wedge_meter_Miller D D2 ;;
    Ok (epsilon, C)
  else Raise UnboundLocalError.

(** The residual [to_solve] that every branch of the solver defines: the
    branches differ only in which of [m], [D2], [P2], [P1] is the trial
    value.  The helper's pair is unpacked as [(C, epsilon)]. *)
Definition to_solve (D : R) (D2 : option R) (m : R) (P1 P2 : option R)
    (rho mu k : R) (meter_type : string) (taps : option string) : result R :=
  '(C, epsilon) <-
     _differential_pressure_C_epsilon D D2 m P1 P2 rho mu k meter_type taps ;;
  m_calc <- orifice_discharge D D2 P1 P2 rho C epsilon ;;
  Ok (m - m_calc).

(** [o * c] for an [o] that may be [None]. *)
Definition mul_opt (o : option R) (c : R) : result R :=
  v <- need o ;; Ok (v * c).

Open Scope string_scope.

Section Solver.

(** [scipy.optimize.newton f x0] and [scipy.optimize.brenth f a b]. *)
Variable newton : (R -> result R) -> R -> result R.
Variable brenth : (R -> result R) -> R -> R -> result R.

Definition differential_pressure_meter_solver (D rho mu k : R)
    (D2 P1 P2 m : option R) (meter_type : string) (taps : option string)
    : result R :=
  match m with
  | None =>
      newton (fun m => to_solve D D2 m P1 P2 rho mu k meter_type taps) 2.81
  | Some m =>
      match D2 with
      | None =>
          brenth (fun D2 =>
                    to_solve D (Some D2) m P1 P2 rho mu k meter_type taps)
                 (D * (1 - 1e-9)) (D * 5e-3)
      | Some _ =>
          match P2 with
          | None =>
              a <- mul_opt P1 (1 - 1e-9) ;;
              b <- mul_opt P1 0.7 ;;
              brenth (fun P2 =>
                        to_solve D D2 m P1 (Some P2) rho mu k meter_type taps)
                     a b
          | Some P2v =>
              match P1 with
              | None =>
                  brenth (fun P1 =>
                            to_solve D D2 m (Some P1) P2 rho mu k meter_type
                                     taps)
                         (P2v * (1 + 1e-9)) (P2v * 1.4)
              | Some _ =>
                  Raise (Exception (Message
                    "Solver is capable of solving for one of P2, D2, or m only."))
              end
          end
      end
  end.

End Solver.

Close Scope string_scope.

Definition differential_pressure_meter_dP (D D2 P1 P2 : R) (C : option R)
    (meter_type : string) : result R :=
  if String.eqb meter_type ISO_5167_ORIFICE then
    dP <- dP_orifice D D2 P1 P2 C ;; Ok dP
  else if String.eqb meter_type LONG_RADIUS_NOZZLE then
    dP <- dP_orifice D D2 P1 P2 C ;; Ok dP
  else if String.eqb meter_type ISA_1932_NOZZLE then
    dP <- dP_orifice D D2 P1 P2 C ;; Ok dP
  else if String.eqb meter_type VENTURI_NOZZLE then
    Raise (Exception NotImplemented)
  else if String.eqb meter_type AS_CAST_VENTURI_TUBE then
    dP <- dP_venturi_tube D D2 P1 P2 ;; Ok dP
  else if String.eqb meter_type MACHINED_CONVERGENT_VENTURI_TUBE then
    dP <- dP_venturi_tube D D2 P1 P2 ;; Ok dP
  else if String.eqb meter_type ROUGH_WELDED_CONVERGENT_VENTURI_TUBE then
    dP <- dP_venturi_tube D D2 P1 P2 ;; Ok dP
  else if String.eqb meter_type CONE_METER then
    dP <- dP_cone_meter D D2 P1 P2 ;; Ok dP
  else if String.eqb meter_type WEDGE_METER then
    Raise (Exception NotImplemented)
  else Raise UnboundLocalError.

(** ** Notions of the specification *)

(** The four quantities the solver can be asked for. *)
Inductive unknown : Type :=
| Unknown_m
| Unknown_D2
| Unknown_P2
| Unknown_P1.

(** The first absent argument in the priority order [m], [D2], [P2], [P1]. *)
Definition first_absent (m D2 P2 P1 : option R) : option unknown :=
  match m, D2, P2, P1 with
  | None, _, _, _ => Some Unknown_m
  | Some _, None, _, _ => Some Unknown_D2
  | Some _, Some _, None, _ => Some Unknown_P2
  | Some _, Some _, Some _, None => Some Unknown_P1
  | Some _, Some _, Some _, Some _ => None
  end.

Definition absent (o : option R) : nat :=
  match o with None => 1 | Some _ => 0 end.

Definition absent_count (m D2 P2 P1 : option R) : nat :=
  (absent m + absent D2 + absent P2 + absent P1)%nat.

Section SolveFor.

Variable newton : (R -> result R) -> R -> result R.
Variable brenth : (R -> result R) -> R -> R -> result R.

(** Solving for one named unknown, the other arguments as they were given:
    the derivative-based finder seeded at 2.81 for [m], the bracketed finder
    on [D(1-1e-9), 5e-3 D] for [D2], on [P1(1-1e-9), 0.7 P1] for [P2] and on
    [P2(1+1e-9), 1.4 P2] for [P1]. *)
Definition solve_for (u : unknown) (D rho mu k : R) (D2 P1 P2 m : option R)
    (meter_type : string) (taps : option string) : result R :=
  match u with
  | Unknown_m =>
      newton (fun x => to_solve D D2 x P1 P2 rho mu k meter_type taps) 2.81
  | Unknown_D2 =>
      mv <- need m ;;
      brenth (fun x => to_solve D (Some x) mv P1 P2 rho mu k meter_type taps)
             (D * (1 - 1e-9)) (D * 5e-3)
  | Unknown_P2 =>
      mv <- need m ;;
      a <- mul_opt P1 (1 - 1e-9) ;;
      b <- mul_opt P1 0.7 ;;
      brenth (fun x => to_solve D D2 mv P1 (Some x) rho mu k meter_type taps)
             a b
  | Unknown_P1 =>
      mv <- need m ;;
      a <- mul_opt P2 (1 + 1e-9) ;;
      b <- mul_opt P2 1.4 ;;
      brenth (fun x => to_solve D D2 mv (Some x) P2 rho mu k meter_type taps)
             a b
  end.

End SolveFor.

(** A root finder that evaluates nothing and answers its starting point; it
    stands for the external finders where a closed example needs one. *)
Definition newton_stub (f : R -> result R) (x0 : R) : result R := Ok x0.
Definition brenth_stub (f : R -> result R) (a b : R) : result R := Ok a.

(** An exception names a meter type when its message contains the tag. *)
Definition names_meter_type (e : exn) (meter_type : string) : bool :=
  match exn_message e with
  | Some s =>
      match String.index 0 meter_type s with
      | Some _ => true
      | None => false
      end
  | None => false
  end.

(** The tap locations the orifice coefficient accepts. *)
Definition supported_taps : list (option string) :=
  [Some "corner"; Some "D"; Some "D/2"; Some "flange"]%string.

(** The expansibility formula and the source of the discharge coefficient
    that the dispatch table of the specification gives each meter type. *)
Definition expansibility_of (meter_type : string) (D : R) (D2 P1 P2 : option R)
    (k : R) : result R :=
  if String.eqb meter_type ISO_5167_ORIFICE then
    orifice_expansibility D D2 P1 P2 k
  else if String.eqb meter_type CONE_METER then
    cone_meter_expansibility_Stewart D D2 P1 P2 k
  else if String.eqb meter_type WEDGE_METER then
    orifice_expansibility_1989 D D2 P1 P2 k
  else nozzle_expansibility D D2 P1 P2 k.

Definition coefficient_of (meter_type : string) (D : R) (D2 : option R)
    (rho mu m : R) (taps : option string) : result R :=
  if String.eqb meter_type ISO_5167_ORIFICE then
    C_Reader_Harris_Gallagher D D2 rho mu m taps
  else if String.eqb meter_type LONG_RADIUS_NOZZLE then
    C_long_radius_nozzle D D2 rho mu m
  else if String.eqb meter_type ISA_1932_NOZZLE then
    C_ISA_1932_nozzle D D2 rho mu m
  else if String.eqb meter_type VENTURI_NOZZLE then
    C_venturi_nozzle D D2
  else if String.eqb meter_type AS_CAST_VENTURI_TUBE then Ok 0.984
  else if String.eqb meter_type MACHINED_CONVERGENT_VENTURI_TUBE then Ok 0.995
  else if String.eqb meter_type ROUGH_WELDED_CONVERGENT_VENTURI_TUBE then
    Ok 0.985
  else if String.eqb meter_type CONE_METER then Ok 0.82
  else C_wedge_meter_Miller D D2.

(** The residual with the helper's pair unpacked in the order the helper
    builds it: the expansibility first, the discharge coefficient second. *)
Definition to_solve_ordered (D : R) (D2 : option R) (m : R) (P1 P2 : option R)
    (rho mu k : R) (meter_type : string) (taps : option string) : result R :=
  '(epsilon, C) <-
     _differential_pressure_C_epsilon D D2 m P1 P2 rho mu k meter_type taps ;;
  m_calc <- orifice_discharge D D2 P1 P2 rho C epsilon ;;
  Ok (m - m_calc).

(** Strictly increasing sample points, as [numpy.interp] expects them. *)
Fixpoint increasing (l : list R) : Prop :=
  match l with
  | [] => True
  | x :: l' =>
      match l' with
      | [] => True
      | y :: _ => x < y /\ increasing l'
      end
  end.

(** [x ^ y] for a base [x >= 0] and an exponent [y > 0]: [0 ^ y = 0]. *)
Definition rpow (x y : R) : R :=
  if Req_dec_T x 0 then 0 else Rpower x y.

(** The terms of the Reader-Harris/Gallagher equation as the specification
    writes them, in [beta], the pipe Reynolds number and the tap parameters. *)
Definition Reynolds_D (D rho mu m : R) : R :=
  rho * (m / (pi / 4 * D * D * rho)) * D / mu.

Definition RHG_A (beta Re_D : R) : R := rpow (19000 * beta / Re_D) 0.8.

Definition RHG_upstream (L1 beta Re_D : R) : R :=
  (0.043 + 0.080 * exp (- 10 * L1) - 0.123 * exp (- 7 * L1))
  * (1 - 0.11 * RHG_A beta Re_D) * beta ^ 4 / (1 - beta ^ 4).

Definition RHG_downstream (L2_prime beta Re_D : R) : R :=
  let M2_prime := 2 * L2_prime / (1 - beta) in
  - 0.031 * (M2_prime - 0.8 * rpow M2_prime 1.1) * rpow beta 1.3
  * (1 + 8 * Rmax (ln (3700 / Re_D) / ln 10) 0).

Definition RHG_slope_factor (Re_D : R) : R :=
  Rmax (rpow (1e6 / Re_D) 0.3) (22.7 - 4700 * (Re_D / 1e6)).

Definition RHG_C_inf_C_s (beta Re_D : R) : R :=
  0.5961 + 0.0261 * beta ^ 2 - 0.216 * beta ^ 8
  + 0.000521 * rpow (1e6 * beta / Re_D) 0.7
  + (0.0188 + 0.0063 * RHG_A beta Re_D) * rpow beta 3.5
    * RHG_slope_factor Re_D.

Definition RHG_small_diameter (D beta : R) : R :=
  0.011 * (0.75 - beta) * Rmax (2.8 - D / 0.0254) 0.

(** ** Further functions of the module *)

Definition velocity_of_approach_factor (D Do : R) : result R :=
  r <- fdiv Do D ;;
  fpow (1.0 - r ^ 4) (- 0.5).

Definition flow_coefficient (D Do C : R) : result R :=
  r <- fdiv Do D ;;
  p <- fpow (1.0 - r ^ 4) (- 0.5) ;;
  Ok (C * p).






Section OrificeDischarge.

Variable newton : (R -> result R) -> R -> result R.

(** The residual [to_solve] of [Reader_Harris_Gallagher_discharge]. *)
Definition RHG_to_solve (D Do P1 P2 rho mu k : R) (taps : option string)
    (m : R) : result R :=
  C <- C_Reader_Harris_Gallagher D (Some Do) rho mu m taps ;;
  epsilon <- orifice_expansibility D (Some Do) (Some P1) (Some P2) k ;;
  m_calc <- orifice_discharge D (Some Do) (Some P1) (Some P2) rho C epsilon ;;
  Ok (m - m_calc).

Definition Reader_Harris_Gallagher_discharge (D Do P1 P2 rho mu k : R)
    (taps : option string) : result R :=
  newton (RHG_to_solve D Do P1 P2 rho mu k taps) 2.81.

End OrificeDischarge.

(** The defaults of the keyword argument [taps]: ['corner'] for
    [C_Reader_Harris_Gallagher] and [Reader_Harris_Gallagher_discharge],
    [None] for [differential_pressure_meter_solver] and its helper. *)
Definition taps_default_orifice : option string := Some "corner"%string.
Definition taps_default_solver : option string := None.

(** The value of the Reader-Harris/Gallagher equation for given tap
    parameters, from the terms above. *)
Definition RHG_value (D beta Re_D L1 L2_prime : R) : R :=
  let C := RHG_C_inf_C_s beta Re_D + RHG_upstream L1 beta Re_D
           + RHG_downstream L2_prime beta Re_D in
  if Rlt_dec D 0.07112 then C + RHG_small_diameter D beta else C.

(** ** The coefficient conversions in binary64 arithmetic *)

(** Python's [float] is the binary64 format of IEEE 754 and its [+], [-],
    [*], [/] are the correctly rounded operations, which are those of the
    primitive floats.  [x ** 0.5] and [x ** 2] go through the C library's
    [pow]; they are taken here as the correctly rounded square root and
    product, from which [pow] differs by at most one unit in the last
    place.  The special cases are those of [float.__pow__]. *)
Module Binary64.

Import PrimFloat SpecFloat FloatOps.
Set Warnings "-inexact-float".
Local Open Scope float_scope.

(** [x / y] *)
Definition fdiv (x y : float) : result float :=
  if y =? 0 then Raise ZeroDivisionError else Ok (x / y).

(** [x ** 0.5] *)
Definition pow_half (x : float) : result float :=
  if is_infinity x then Ok infinity
  else if x <? 0 then Complex
  else Ok (abs (sqrt x)).

(** [x ** 2] *)
Definition pow_2 (x : float) : result float :=
  let y := x * x in
  if is_infinity y && negb (is_infinity x) then Raise OverflowError
  else Ok y.

Definition discharge_coefficient_to_K (D Do C : float) : result float :=
  beta <- fdiv Do D ;;
  let beta2 := beta * beta in
  let beta4 := beta2 * beta2 in
  s <- pow_half (1.0 - beta4 * (1.0 - C * C)) ;;
  q <- fdiv s (C * beta2) ;;
  pow_2 (q - 1.0).

Definition K_to_discharge_coefficient (D Do K : float) : result float :=
  beta <- fdiv Do D ;;
  let beta2 := beta * beta in
  let beta4 := beta2 * beta2 in
  root_K <- pow_half K ;;
  let common_term := 2.0 * root_K * beta4 + K * beta4 in
  a <- fdiv (- beta4) common_term ;;
  b <- fdiv 1.0 common_term ;;
  pow_half (a + b).

(** The real number a finite binary64 number stands for. *)
Definition to_R (x : float) : R :=
  match Prim2SF x with
  | S754_finite s m e => IZR (if s then Z.neg m else Z.pos m) * powerRZ 2 e
  | _ => 0
  end.

End Binary64.

(** * Properties *)

(** ** The error monad and the float primitives *)

Lemma bind_ret {A : Type} (c : result A) : (x <- c ;; Ok x) = c.
Proof. destruct c; reflexivity. Qed.

Lemma fdiv_ok (x y : R) : y <> 0 -> fdiv x y = Ok (x / y).
Proof.
  intros Hy. unfold fdiv. destruct (Req_dec_T y 0) as [E | _]; [contradiction | reflexivity].
Qed.

Lemma fdiv_zero (x : R) : fdiv x 0 = Raise ZeroDivisionError.
Proof.
  unfold fdiv. destruct (Req_dec_T 0 0) as [_ | N]; [reflexivity | now elim N].
Qed.

Lemma fpow_pos (x y : R) : 0 < x -> fpow x y = Ok (Rpower x y).
Proof.
  intros Hx. unfold fpow.
  destruct (Req_dec_T y 0) as [-> | _].
  - now rewrite Rpower_O.
  - destruct (Rlt_dec 0 x) as [_ | N]; [reflexivity | contradiction].
Qed.

Lemma fpow_zero (y : R) : 0 < y -> fpow 0 y = Ok 0.
Proof.
  intros Hy. unfold fpow.
  destruct (Req_dec_T y 0) as [E | _]; [lra |].
  destruct (Rlt_dec 0 0) as [L | _]; [lra |].
  destruct (Req_dec_T 0 0) as [_ | N]; [| now elim N].
  destruct (Rlt_dec y 0) as [L | _]; [lra | reflexivity].
Qed.

Lemma fsqrt_ok (x : R) : 0 <= x -> fsqrt x = Ok (sqrt x).
Proof.
  intros [Hx | <-]; unfold fsqrt.
  - rewrite fpow_pos by assumption.
    replace 0.5 with (/ 2) by lra. now rewrite Rpower_sqrt.
  - rewrite fpow_zero by lra. now rewrite sqrt_0.
Qed.

Lemma log10_ok (x : R) : 0 < x -> log10 x = Ok (ln x / ln 10).
Proof.
  intros Hx. unfold log10. destruct (Rlt_dec 0 x); [reflexivity | contradiction].
Qed.

Lemma py_acos_ok (x : R) : -1 <= x <= 1 -> py_acos x = Ok (acos x).
Proof.
  intros [H1 H2]. unfold py_acos.
  destruct (Rle_dec (-1) x); [| contradiction].
  destruct (Rle_dec x 1); [reflexivity | contradiction].
Qed.

Lemma pi_pos : 0 < pi.
Proof. exact PI_RGT_0. Qed.

Lemma pipe_area_nonzero (D rho : R) :
  D <> 0 -> rho <> 0 -> pi / 4 * D * D * rho <> 0.
Proof.
  intros HD Hrho H. pose proof pi_pos as Hpi.
  apply Rmult_integral in H as [H | H]; [| contradiction].
  apply Rmult_integral in H as [H | H]; [| contradiction].
  apply Rmult_integral in H as [H | H]; [| contradiction].
  lra.
Qed.

(** ** Solver: which unknown is solved for *)

(** C1, as the code has it.  With [m], [D2], [P2] and [P1] all supplied the
    solver raises its own [Exception].  Otherwise it takes the branch of the
    first absent argument in the order [m], [D2], [P2], [P1], whatever the
    other arguments and the meter type are, and hands the residual in that
    unknown to the root finder; the bracket of the [P2] branch is computed
    from [P1], so with both [P2] and [P1] absent that branch raises
    [TypeError] before the root finder is called. *)
Theorem solver_first_absent_wins :
  forall (newton : (R -> result R) -> R -> result R)
         (brenth : (R -> result R) -> R -> R -> result R)
         (D rho mu k : R) (D2 P1 P2 m : option R)
         (meter_type : string) (taps : option string),
    differential_pressure_meter_solver newton brenth D rho mu k D2 P1 P2 m
      meter_type taps
    = match first_absent m D2 P2 P1 with
      | None =>
          Raise (Exception (Message
            "Solver is capable of solving for one of P2, D2, or m only."))
      | Some u =>
          solve_for newton brenth u D rho mu k D2 P1 P2 m meter_type taps
      end
    /\ forall mv d2 : R,
        differential_pressure_meter_solver newton brenth D rho mu k (Some d2)
          None None (Some mv) meter_type taps = Raise TypeError.
Proof.
  intros newton brenth D rho mu k D2 P1 P2 m meter_type taps.
  split.
  - destruct m as [mv |], D2 as [d2 |], P2 as [p2 |], P1 as [p1 |];
      reflexivity.
  - reflexivity.
Qed.

(** With [P2] and [P1] both left out the call raises, whatever the root
    finders do. *)
Lemma solver_two_absent_raises :
  absent_count (Some 7.702338) (Some 0.05) None None = 2%nat
  /\ fails (differential_pressure_meter_solver newton_stub brenth_stub
              0.07366 999.1 0.0011 1.33 (Some 0.05) None None (Some 7.702338)
              ISO_5167_ORIFICE (Some "D"%string)) = true.
Proof. split; reflexivity. Qed.

(** Whichever branch is taken, the residual computes with [D2], [P1] and
    [P2]: with one of them still [None] it returns no value at any trial
    point. *)
Lemma residual_needs_every_argument (D : R) (D2 : option R) (m : R)
    (P1 P2 : option R) (rho mu k : R) (meter_type : string)
    (taps : option string) :
  D2 = None \/ P1 = None \/ P2 = None ->
  is_Ok (to_solve D D2 m P1 P2 rho mu k meter_type taps) = false.
Proof.
  intros H. unfold to_solve.
  destruct (_differential_pressure_C_epsilon _ _ _ _ _ _ _ _ _ _)
    as [[a b] | e |]; cbn [bind]; try reflexivity.
  unfold orifice_discharge.
  destruct P1 as [p1 |]; [| reflexivity].
  destruct P2 as [p2 |]; [| reflexivity].
  destruct D2 as [d2 |]; [| reflexivity].
  destruct H as [H | [H | H]]; discriminate H.
Qed.

(** ** Pressure-drop dispatch *)

Lemma meter_type_tags_distinct : NoDup meter_types.
Proof.
  unfold meter_types.
  repeat (constructor; [cbn; intuition discriminate |]).
  constructor.
Qed.

(** A tag outside the nine falls through every branch: [dP] is never
    assigned. *)
Lemma dP_unknown_meter_type (D D2 P1 P2 : R) (C : option R) (t : string) :
  ~ In t meter_types ->
  differential_pressure_meter_dP D D2 P1 P2 C t = Raise UnboundLocalError.
Proof.
  intros Ht. unfold differential_pressure_meter_dP.
  repeat match goal with
  | |- context [String.eqb t ?c] =>
      destruct (String.eqb_spec t c) as [-> | _];
      [exfalso; apply Ht; cbn; tauto |]
  end.
  reflexivity.
Qed.

(** C2, as the code has it.  The dispatcher hands the three orifice-formula
    types to [dP_orifice], the three venturi tubes to [dP_venturi_tube] and
    the cone meter to [dP_cone_meter] and returns what they return; of the
    nine meter types the venturi nozzle and the wedge meter are the two it
    refuses itself, and it refuses both with the same bare [Exception] whose
    only argument is the constant [NotImplemented]: there is no message and
    nothing in it tells the one meter type from the other. *)
Theorem dP_dispatch_table :
  forall (D D2 P1 P2 : R) (C : option R),
    differential_pressure_meter_dP D D2 P1 P2 C ISO_5167_ORIFICE
      = dP_orifice D D2 P1 P2 C
    /\ differential_pressure_meter_dP D D2 P1 P2 C LONG_RADIUS_NOZZLE
      = dP_orifice D D2 P1 P2 C
    /\ differential_pressure_meter_dP D D2 P1 P2 C ISA_1932_NOZZLE
      = dP_orifice D D2 P1 P2 C
    /\ differential_pressure_meter_dP D D2 P1 P2 C AS_CAST_VENTURI_TUBE
      = dP_venturi_tube D D2 P1 P2
    /\ differential_pressure_meter_dP D D2 P1 P2 C
         MACHINED_CONVERGENT_VENTURI_TUBE
      = dP_venturi_tube D D2 P1 P2
    /\ differential_pressure_meter_dP D D2 P1 P2 C
         ROUGH_WELDED_CONVERGENT_VENTURI_TUBE
      = dP_venturi_tube D D2 P1 P2
    /\ differential_pressure_meter_dP D D2 P1 P2 C CONE_METER
      = dP_cone_meter D D2 P1 P2
    /\ differential_pressure_meter_dP D D2 P1 P2 C VENTURI_NOZZLE
      = Raise (Exception NotImplemented)
    /\ differential_pressure_meter_dP D D2 P1 P2 C WEDGE_METER
      = Raise (Exception NotImplemented)
    /\ exn_message (Exception NotImplemented) = None.
Proof.
  intros D D2 P1 P2 C.
  unfold differential_pressure_meter_dP; cbn [String.eqb Ascii.eqb Bool.eqb
    ISO_5167_ORIFICE LONG_RADIUS_NOZZLE ISA_1932_NOZZLE VENTURI_NOZZLE
    AS_CAST_VENTURI_TUBE MACHINED_CONVERGENT_VENTURI_TUBE
    ROUGH_WELDED_CONVERGENT_VENTURI_TUBE CONE_METER WEDGE_METER].
  repeat split; try apply bind_ret.
Qed.

(** The refusal for the venturi nozzle is not an error that names the meter
    type. *)
Lemma dP_refusal_does_not_name_meter_type :
  ~ exists e : exn,
      differential_pressure_meter_dP 0.07366 0.05 200000 183000 (Some 0.61)
        VENTURI_NOZZLE = Raise e
      /\ names_meter_type e VENTURI_NOZZLE = true.
Proof.
  intros [e [He Hn]].
  change (Raise (A := R) (Exception NotImplemented) = Raise e) in He.
  injection He as <-. discriminate Hn.
Qed.


(** ** The helper's pair and the residual of the solver *)

Lemma bind_Ok_inv {A B : Type} (c : result A) (k : A -> result B) (b : B) :
  bind c k = Ok b -> exists a, c = Ok a /\ k a = Ok b.
Proof.
  destruct c as [a | e |]; cbn; intros H; try discriminate.
  now exists a.
Qed.

(** The discharge equation sees its coefficient and its expansibility only
    through their product. *)
Lemma orifice_discharge_swap (D : R) (Do P1 P2 : option R) (rho a b : R) :
  orifice_discharge D Do P1 P2 rho a b = orifice_discharge D Do P1 P2 rho b a.
Proof.
  unfold orifice_discharge.
  destruct P1 as [p1 |], P2 as [p2 |], Do as [d |]; cbn [need bind];
    try reflexivity.
  destruct (fdiv d D) as [beta | e |]; cbn [bind]; try reflexivity.
  destruct (fsqrt (2 * (p1 - p2) * rho)) as [num | e |]; cbn [bind];
    try reflexivity.
  destruct (fsqrt (1.0 - beta ^ 4)) as [den | e |]; cbn [bind];
    try reflexivity.
  unfold fdiv. destruct (Req_dec_T den 0) as [_ | Hden]; cbn [bind];
    [reflexivity |].
  f_equal. field. exact Hden.
Qed.

Ltac split_meter_type t :=
  repeat match goal with
  | |- context [String.eqb t ?c] => destruct (String.eqb_spec t c) as [-> | ?]
  | H : context [String.eqb t ?c] |- _ =>
      destruct (String.eqb_spec t c) as [-> | ?]
  end.

Ltac invert_binds :=
  repeat match goal with
  | H : bind _ _ = Ok _ |- _ =>
      let v := fresh "v" in
      let Hv := fresh "Hv" in
      apply bind_Ok_inv in H as [v [Hv H]]
  | H : Ok _ = Ok _ |- _ => injection H as H; subst
  | H : (_, _) = (_, _) |- _ => injection H as H; subst
  end.

Lemma helper_pair_order (D : R) (D2 : option R) (m : R) (P1 P2 : option R)
    (rho mu k : R) (meter_type : string) (taps : option string) (a b : R) :
  _differential_pressure_C_epsilon D D2 m P1 P2 rho mu k meter_type taps
    = Ok (a, b) ->
  expansibility_of meter_type D D2 P1 P2 k = Ok a
  /\ coefficient_of meter_type D D2 rho mu m taps = Ok b.
Proof.
  unfold _differential_pressure_C_epsilon, expansibility_of, coefficient_of.
  intros H.
  split_meter_type meter_type; cbn [String.eqb Ascii.eqb Bool.eqb
    ISO_5167_ORIFICE LONG_RADIUS_NOZZLE ISA_1932_NOZZLE VENTURI_NOZZLE
    AS_CAST_VENTURI_TUBE MACHINED_CONVERGENT_VENTURI_TUBE
    ROUGH_WELDED_CONVERGENT_VENTURI_TUBE CONE_METER WEDGE_METER] in *;
    try discriminate; invert_binds;
    unfold AS_CAST_VENTURI_TUBE_C, MACHINED_CONVERGENT_VENTURI_TUBE_C,
      ROUGH_WELDED_CONVERGENT_VENTURI_TUBE_C, CONE_METER_C in *;
    repeat match goal with
    | H : ?x = _ :> R |- _ => subst x
    | H : _ = ?x :> R |- _ => subst x
    end;
    auto.
Qed.

Lemma to_solve_swaps (D : R) (D2 : option R) (m : R) (P1 P2 : option R)
    (rho mu k : R) (meter_type : string) (taps : option string) :
  to_solve D D2 m P1 P2 rho mu k meter_type taps
  = (p <- _differential_pressure_C_epsilon D D2 m P1 P2 rho mu k meter_type
            taps ;;
     m_calc <- orifice_discharge D D2 P1 P2 rho (fst p) (snd p) ;;
     Ok (m - m_calc)).
Proof.
  unfold to_solve.
  destruct (_differential_pressure_C_epsilon _ _ _ _ _ _ _ _ _ _)
    as [[a b] | e |]; reflexivity.
Qed.

Lemma to_solve_ordered_eq (D : R) (D2 : option R) (m : R) (P1 P2 : option R)
    (rho mu k : R) (meter_type : string) (taps : option string) :
  to_solve D D2 m P1 P2 rho mu k meter_type taps
  = to_solve_ordered D D2 m P1 P2 rho mu k meter_type taps.
Proof.
  unfold to_solve, to_solve_ordered.
  destruct (_differential_pressure_C_epsilon _ _ _ _ _ _ _ _ _ _)
    as [[a b] | e |]; cbn [bind]; [| reflexivity | reflexivity].
  now rewrite orifice_discharge_swap.
Qed.

(** C10.  When the helper returns a pair, its first component is the
    expansibility of the meter type and its second the discharge
    coefficient.  The residual binds the first component to [C] and the
    second to [epsilon], so the discharge equation receives the expansibility
    as its coefficient and the coefficient as its expansibility; the residual
    is nevertheless equal, in every case and error cases included, to the
    residual that unpacks the pair in the helper's order, because
    [orifice_discharge] is unchanged when its [C] and [expansibility]
    arguments are exchanged. *)
Theorem swapped_unpacking_is_harmless :
  (forall (D : R) (D2 : option R) (m : R) (P1 P2 : option R) (rho mu k : R)
          (meter_type : string) (taps : option string) (a b : R),
      _differential_pressure_C_epsilon D D2 m P1 P2 rho mu k meter_type taps
        = Ok (a, b) ->
      expansibility_of meter_type D D2 P1 P2 k = Ok a
      /\ coefficient_of meter_type D D2 rho mu m taps = Ok b
      /\ to_solve D D2 m P1 P2 rho mu k meter_type taps
         = (m_calc <- orifice_discharge D D2 P1 P2 rho a b ;; Ok (m - m_calc))
      /\ to_solve D D2 m P1 P2 rho mu k meter_type taps
         = (m_calc <- orifice_discharge D D2 P1 P2 rho b a ;; Ok (m - m_calc)))
  /\ (forall (D : R) (D2 : option R) (m : R) (P1 P2 : option R) (rho mu k : R)
             (meter_type : string) (taps : option string),
        to_solve D D2 m P1 P2 rho mu k meter_type taps
        = to_solve_ordered D D2 m P1 P2 rho mu k meter_type taps)
  /\ (forall (D : R) (Do P1 P2 : option R) (rho a b : R),
        orifice_discharge D Do P1 P2 rho a b
        = orifice_discharge D Do P1 P2 rho b a).
Proof.
  split; [| split].
  - intros D D2 m P1 P2 rho mu k meter_type taps a b H.
    destruct (helper_pair_order _ _ _ _ _ _ _ _ _ _ _ _ H) as [Ha Hb].
    repeat split; try assumption.
    + rewrite to_solve_swaps, H. reflexivity.
    + rewrite to_solve_swaps, H. cbn [bind fst snd].
      now rewrite orifice_discharge_swap.
  - exact to_solve_ordered_eq.
  - exact orifice_discharge_swap.
Qed.

(** Evaluation of the float primitives where their side conditions are
    linear facts. *)
Ltac py_eval :=
  repeat first
    [ progress cbn [bind need fst snd]
    | rewrite fdiv_ok by lra
    | rewrite fsqrt_ok by lra
    | rewrite log10_ok by lra
    | rewrite py_acos_ok by lra ].

Lemma swapped_unpacking_is_harmless_witness :
  let a := 1.0 - (0.649 + 0.696 * sqrt (1.0 - 0.9 / 1 * (0.9 / 1)) ^ 4)
                 * (1e6 - 8.5e5) / (1.2 * 1e6) in
  _differential_pressure_C_epsilon 1 (Some 0.9) 2.81 (Some 1e6) (Some 8.5e5)
    1.2 1.8e-5 1.2 CONE_METER None = Ok (a, 0.82)
  /\ expansibility_of CONE_METER 1 (Some 0.9) (Some 1e6) (Some 8.5e5) 1.2
     = Ok a
  /\ coefficient_of CONE_METER 1 (Some 0.9) 1.2 1.8e-5 2.81 None = Ok 0.82.
Proof.
  intros a.
  assert (H : _differential_pressure_C_epsilon 1 (Some 0.9) 2.81 (Some 1e6)
                (Some 8.5e5) 1.2 1.8e-5 1.2 CONE_METER None = Ok (a, 0.82)).
  { unfold _differential_pressure_C_epsilon; cbn [String.eqb Ascii.eqb
      Bool.eqb ISO_5167_ORIFICE LONG_RADIUS_NOZZLE ISA_1932_NOZZLE
      VENTURI_NOZZLE AS_CAST_VENTURI_TUBE MACHINED_CONVERGENT_VENTURI_TUBE
      ROUGH_WELDED_CONVERGENT_VENTURI_TUBE CONE_METER].
    unfold cone_meter_expansibility_Stewart, diameter_ratio_cone_meter.
    py_eval. reflexivity. }
  split; [exact H |].
  destruct (proj1 swapped_unpacking_is_harmless _ _ _ _ _ _ _ _ _ _ _ _ H)
    as [Ha [Hb _]].
  split; assumption.
Defined.

(** ** Linear interpolation with clamped ends *)

Lemma increasing_tail (x : R) (l : list R) :
  increasing (x :: l) -> increasing l.
Proof.
  destruct l as [| y l]; [trivial | intros [_ H]; exact H].
Qed.

Lemma increasing_head_lt (x : R) (l : list R) :
  increasing (x :: l) -> forall y, In y l -> x < y.
Proof.
  revert x. induction l as [| z l IH]; intros x H y Hy; [contradiction |].
  destruct H as [Hxz Hl]. destruct Hy as [<- | Hy]; [exact Hxz |].
  apply Rlt_trans with z; [exact Hxz | now apply IH].
Qed.

Lemma last_cons {A : Type} (l : list A) (a d : A) :
  last (a :: l) d = last l a.
Proof.
  revert a d. induction l as [| b l IH]; intros a d; [reflexivity |].
  change (last (a :: b :: l) d) with (last (b :: l) d).
  now rewrite !IH.
Qed.

(** Right of every sample point the interpolant is the last sample value. *)
Lemma interp_from_right (x : R) (pts : list (R * R)) :
  Forall (fun p => fst p <= x) pts ->
  forall x0 y0, interp_from x x0 y0 pts = snd (last pts (x0, y0)).
Proof.
  induction 1 as [| [x1 y1] rest Hx1 _ IH]; intros x0 y0; [reflexivity |].
  cbn [interp_from]. cbn [fst] in Hx1.
  destruct (Rlt_dec x x1) as [L | _]; [lra |].
  rewrite IH. now rewrite last_cons.
Qed.

(** Between two neighbouring sample points the interpolant is the chord. *)
Lemma interp_from_segment (x xa ya xb yb : R) (post : list (R * R)) :
  xa <= x < xb ->
  forall pre x0 y0 pts,
    (x0, y0) :: pts = pre ++ (xa, ya) :: (xb, yb) :: post ->
    increasing (x0 :: map fst pts) ->
    interp_from x x0 y0 pts = (yb - ya) / (xb - xa) * (x - xa) + ya.
Proof.
  intros [Hxa Hxb]. induction pre as [| q pre IH]; intros x0 y0 pts E Hinc.
  - cbn in E. injection E as E1 E2 E3. subst x0 y0 pts. cbn [interp_from].
    destruct (Rlt_dec x xb) as [_ | N]; [reflexivity | contradiction].
  - cbn in E. injection E as _ E.
    destruct pts as [| [x1 y1] rest].
    { destruct pre; discriminate E. }
    cbn [interp_from].
    assert (Hx1 : x1 <= xa).
    { destruct pre as [| q' pre'].
      - cbn in E. injection E as E1 _ _. lra.
      - cbn in E. injection E as _ E'.
        apply increasing_tail in Hinc. cbn [map fst] in Hinc.
        left. apply (increasing_head_lt _ _ Hinc).
        rewrite E'. rewrite map_app. apply in_or_app. right. now left. }
    destruct (Rlt_dec x x1) as [L | _]; [lra |].
    apply IH; [exact E | exact (increasing_tail _ _ Hinc)].
Qed.

Lemma venturi_tube_betas_increasing : increasing venturi_tube_betas.
Proof. unfold venturi_tube_betas. cbn. repeat split; lra. Qed.

Lemma venturi_tables_length :
  length venturi_tube_betas = 46%nat
  /\ length venturi_tube_dP_high = 46%nat
  /\ length venturi_tube_dP_low = 46%nat.
Proof. repeat split; reflexivity. Qed.

Lemma interp_cons (x x0 y0 : R) (xp fp : list R) :
  length xp = length fp ->
  interp x (x0 :: xp) (y0 :: fp)
  = Ok (if Rlt_dec x x0 then y0 else interp_from x x0 y0 (combine xp fp)).
Proof.
  intros Hlen. unfold interp. cbn [length combine].
  rewrite Hlen, Nat.eqb_refl. cbn [negb].
  destruct (Rlt_dec x x0); reflexivity.
Qed.

(** The diameter stage: two sample points, [0.065] and [0.5]. *)
Lemma interp_D_stage (D e65 e500 : R) :
  interp D D_bound_venturi_tube [e65; e500]
  = Ok (if Rlt_dec D 0.065 then e65
        else if Rlt_dec D 0.5 then
               (e500 - e65) / (0.5 - 0.065) * (D - 0.065) + e65
        else e500).
Proof.
  unfold D_bound_venturi_tube. rewrite interp_cons by reflexivity.
  reflexivity.
Qed.

Lemma interp_D_stage_low (D e65 e500 : R) :
  D <= 0.065 -> interp D D_bound_venturi_tube [e65; e500] = Ok e65.
Proof.
  intros HD. rewrite interp_D_stage.
  destruct (Rlt_dec D 0.065) as [_ | N]; [reflexivity |].
  destruct (Rlt_dec D 0.5) as [_ | N']; [| lra].
  f_equal. replace D with 0.065 by lra. lra.
Qed.

Lemma interp_D_stage_high (D e65 e500 : R) :
  0.5 <= D -> interp D D_bound_venturi_tube [e65; e500] = Ok e500.
Proof.
  intros HD. rewrite interp_D_stage.
  destruct (Rlt_dec D 0.065) as [L | _]; [lra |].
  destruct (Rlt_dec D 0.5) as [L | _]; [lra | reflexivity].
Qed.

(** The beta stage, left of the first and right of the last table entry. *)
Lemma interp_beta_stage_low (beta y0 : R) (fp : list R) :
  length fp = 45%nat ->
  beta <= 0.29916 ->
  interp beta venturi_tube_betas (y0 :: fp) = Ok y0.
Proof.
  intros Hlen Hb. unfold venturi_tube_betas.
  rewrite interp_cons by (symmetry; exact Hlen).
  destruct (Rlt_dec beta 0.299160) as [_ | N]; [reflexivity |].
  do 2 (destruct fp as [| ? fp]; [discriminate Hlen |]).
  cbn [combine interp_from].
  destruct (Rlt_dec beta 0.299470) as [_ | N']; [| lra].
  f_equal. replace beta with 0.299160 by lra. lra.
Qed.

Lemma interp_beta_stage_high (beta : R) (fp : list R) :
  length fp = 46%nat ->
  0.74965 <= beta ->
  interp beta venturi_tube_betas fp = Ok (last fp 0).
Proof.
  intros Hlen Hb.
  destruct fp as [| y0 fp]; [discriminate Hlen |].
  injection Hlen as Hlen.
  unfold venturi_tube_betas. rewrite interp_cons by (symmetry; exact Hlen).
  destruct (Rlt_dec beta 0.299160) as [L | _]; [lra |].
  rewrite interp_from_right.
  - f_equal.
    repeat (destruct fp as [| ? fp]; [discriminate Hlen |]).
    destruct fp; [reflexivity | discriminate Hlen].
  - repeat (destruct fp as [| ? fp]; [discriminate Hlen |]).
    cbn [combine]. repeat (constructor; [cbn [fst]; lra |]). constructor.
Qed.

Lemma map_fst_combine (xp fp : list R) :
  length xp = length fp -> map fst (combine xp fp) = xp.
Proof.
  revert fp. induction xp as [| x xp IH]; intros [| y fp] Hlen;
    try discriminate Hlen; [reflexivity |].
  cbn. f_equal. apply IH. now injection Hlen.
Qed.

(** Between two neighbouring sample points [interp] is the chord through
    them. *)
Lemma interp_chord (x : R) (xp fp : list R) (pre post : list (R * R))
    (xa ya xb yb : R) :
  length xp = length fp ->
  increasing xp ->
  combine xp fp = pre ++ (xa, ya) :: (xb, yb) :: post ->
  xa <= x < xb ->
  interp x xp fp = Ok ((yb - ya) / (xb - xa) * (x - xa) + ya).
Proof.
  intros Hlen Hinc E Hx.
  destruct xp as [| x0 xp]; [destruct pre; discriminate E |].
  destruct fp as [| y0 fp]; [discriminate Hlen |].
  injection Hlen as Hlen. cbn [combine] in E.
  rewrite interp_cons by exact Hlen.
  assert (Hx0 : x0 <= xa).
  { destruct pre as [| q pre].
    - cbn in E. injection E as E1 _ _. lra.
    - cbn in E. injection E as _ E'. left.
      apply (increasing_head_lt _ _ Hinc).
      rewrite <- (map_fst_combine xp fp Hlen), E', map_app.
      apply in_or_app. right. now left. }
  destruct (Rlt_dec x x0) as [L | _]; [lra |].
  f_equal. apply (interp_from_segment x xa ya xb yb post Hx pre); [exact E |].
  now rewrite map_fst_combine.
Qed.

(** C7.  [dP_venturi_tube] returns the loss ratio times [P1 - P2]; the loss
    ratio is looked up in two stages, against [beta = Do/D] in the 46-point
    tables and then against [D] between the sample points [0.065] and [0.5],
    linearly between the two.  Both stages clamp: for [D <= 0.065] the
    diameter stage gives its value at [0.065] (the high-loss curve), for
    [D >= 0.5] its value at [0.5] (the low-loss curve); for [beta <= 0.29916]
    the beta stage gives the first table entries, its values at [0.29916],
    and for [beta >= 0.74965] the last ones, its values at [0.74965]; between
    two neighbouring table entries it is the chord through them. *)
Theorem venturi_lookup_clamps :
  forall D Do P1 P2 : R,
    D <> 0 ->
    exists e65 e500 eps : R,
      interp (Do / D) venturi_tube_betas venturi_tube_dP_high = Ok e65
      /\ interp (Do / D) venturi_tube_betas venturi_tube_dP_low = Ok e500
      /\ interp D D_bound_venturi_tube [e65; e500] = Ok eps
      /\ dP_venturi_tube D Do P1 P2 = Ok (eps * (P1 - P2))
      /\ (D <= 0.065 ->
          eps = e65 /\ interp 0.065 D_bound_venturi_tube [e65; e500] = Ok e65)
      /\ (0.5 <= D ->
          eps = e500 /\ interp 0.5 D_bound_venturi_tube [e65; e500] = Ok e500)
      /\ (0.065 <= D < 0.5 ->
          eps = (e500 - e65) / (0.5 - 0.065) * (D - 0.065) + e65)
      /\ (Do / D <= 0.29916 ->
          e65 = 0.164534 /\ e500 = 0.089232
          /\ interp 0.29916 venturi_tube_betas venturi_tube_dP_high = Ok e65
          /\ interp 0.29916 venturi_tube_betas venturi_tube_dP_low = Ok e500)
      /\ (0.74965 <= Do / D ->
          e65 = 0.087648 /\ e500 = 0.039896
          /\ interp 0.74965 venturi_tube_betas venturi_tube_dP_high = Ok e65
          /\ interp 0.74965 venturi_tube_betas venturi_tube_dP_low = Ok e500)
      /\ (forall pre post xa ya xb yb,
            combine venturi_tube_betas venturi_tube_dP_high
              = pre ++ (xa, ya) :: (xb, yb) :: post ->
            xa <= Do / D < xb ->
            e65 = (yb - ya) / (xb - xa) * (Do / D - xa) + ya)
      /\ (forall pre post xa ya xb yb,
            combine venturi_tube_betas venturi_tube_dP_low
              = pre ++ (xa, ya) :: (xb, yb) :: post ->
            xa <= Do / D < xb ->
            e500 = (yb - ya) / (xb - xa) * (Do / D - xa) + ya).
Proof.
  intros D Do P1 P2 HD.
  destruct (interp (Do / D) venturi_tube_betas venturi_tube_dP_high)
    as [e65 | |] eqn:E65;
    try (unfold venturi_tube_betas, venturi_tube_dP_high in E65;
         rewrite interp_cons in E65 by reflexivity; discriminate E65).
  destruct (interp (Do / D) venturi_tube_betas venturi_tube_dP_low)
    as [e500 | |] eqn:E500;
    try (unfold venturi_tube_betas, venturi_tube_dP_low in E500;
         rewrite interp_cons in E500 by reflexivity; discriminate E500).
  pose proof (interp_D_stage D e65 e500) as ED.
  set (eps := if Rlt_dec D 0.065 then e65
              else if Rlt_dec D 0.5 then
                     (e500 - e65) / (0.5 - 0.065) * (D - 0.065) + e65
              else e500) in ED.
  exists e65, e500, eps.
  split; [reflexivity |]. split; [reflexivity |]. split; [exact ED |].
  split.
  { unfold dP_venturi_tube. rewrite fdiv_ok by exact HD. cbn [bind].
    rewrite E65, E500. cbn [bind]. rewrite ED. reflexivity. }
  split.
  { intros HD65. split.
    - rewrite interp_D_stage_low in ED by exact HD65. now injection ED.
    - apply interp_D_stage_low. lra. }
  split.
  { intros HD500. split.
    - rewrite interp_D_stage_high in ED by exact HD500. now injection ED.
    - apply interp_D_stage_high. lra. }
  split.
  { intros [H1 H2]. unfold eps.
    destruct (Rlt_dec D 0.065) as [L | _]; [lra |].
    destruct (Rlt_dec D 0.5) as [_ | N]; [reflexivity | lra]. }
  split.
  { intros Hb.
    unfold venturi_tube_dP_high in E65. unfold venturi_tube_dP_low in E500.
    rewrite interp_beta_stage_low in E65 by (reflexivity || exact Hb).
    rewrite interp_beta_stage_low in E500 by (reflexivity || exact Hb).
    injection E65 as <-. injection E500 as <-.
    repeat split.
    - unfold venturi_tube_dP_high.
      apply interp_beta_stage_low; [reflexivity | lra].
    - unfold venturi_tube_dP_low.
      apply interp_beta_stage_low; [reflexivity | lra]. }
  split.
  { intros Hb.
    rewrite interp_beta_stage_high in E65 by (reflexivity || exact Hb).
    rewrite interp_beta_stage_high in E500 by (reflexivity || exact Hb).
    injection E65 as <-. injection E500 as <-.
    repeat split.
    - apply interp_beta_stage_high; [reflexivity | lra].
    - apply interp_beta_stage_high; [reflexivity | lra]. }
  split.
  - intros pre post xa ya xb yb E Hx.
    rewrite (interp_chord (Do / D) venturi_tube_betas venturi_tube_dP_high
               pre post xa ya xb yb eq_refl venturi_tube_betas_increasing
               E Hx) in E65.
    now injection E65.
  - intros pre post xa ya xb yb E Hx.
    rewrite (interp_chord (Do / D) venturi_tube_betas venturi_tube_dP_low
               pre post xa ya xb yb eq_refl venturi_tube_betas_increasing
               E Hx) in E500.
    now injection E500.
Qed.

Lemma venturi_lookup_clamps_witness :
  0.05 <> 0
  /\ dP_venturi_tube 0.05 0.01 200000 183000
     = Ok (0.164534 * (200000 - 183000)).
Proof.
  assert (H0 : 0.05 <> 0) by lra.
  split; [exact H0 |].
  destruct (venturi_lookup_clamps 0.05 0.01 200000 183000 H0)
    as [e65 [e500 [eps [_ [_ [_ [HdP [Hlow [_ [_ [Hbeta _]]]]]]]]]]].
  destruct Hlow as [Heps _]; [lra |].
  destruct Hbeta as [He65 _]; [lra |].
  rewrite HdP, Heps, He65. reflexivity.
Defined.

(** ** Discharge coefficient and loss coefficient *)

Lemma ratio_pos_nonzero (x y : R) : 0 < x / y -> y <> 0.
Proof.
  intros H ->. unfold Rdiv in H. rewrite Rinv_0, Rmult_0_r in H. lra.
Qed.

(** C3.  Over the reals, on [0 < Do/D < 1] and [0 < C < 1] the conversion to
    a loss coefficient returns a positive [K], and the conversion back
    returns [C] exactly. *)
Theorem K_round_trip :
  forall D Do C : R,
    0 < Do / D < 1 ->
    0 < C < 1 ->
    exists K : R,
      discharge_coefficient_to_K D Do C = Ok K
      /\ 0 < K
      /\ K_to_discharge_coefficient D Do K = Ok C.
Proof.
  intros D Do C [Hb0 Hb1] [HC0 HC1].
  pose proof (ratio_pos_nonzero _ _ Hb0) as HD.
  set (beta := Do / D) in *.
  assert (Hb2 : 0 < beta * beta < 1) by nra.
  set (beta2 := beta * beta) in *.
  assert (Hb4 : 0 < beta2 * beta2 < 1) by nra.
  set (beta4 := beta2 * beta2) in *.
  set (X := 1.0 - beta4 * (1.0 - C * C)).
  assert (HX : 0 < X) by (unfold X; nra).
  set (s := sqrt X).
  assert (Hs2 : s * s = X) by (apply sqrt_sqrt; lra).
  assert (Hs : 0 < s) by (apply sqrt_lt_R0; exact HX).
  assert (Hcb : 0 < C * beta2) by nra.
  assert (Hgt : C * beta2 < s).
  { apply Rnot_le_lt. intros Hle.
    assert (Hsq : s * s <= (C * beta2) * (C * beta2)) by nra.
    replace (C * beta2 * (C * beta2)) with (C * C * beta4) in Hsq
      by (unfold beta4; ring).
    rewrite Hs2 in Hsq. unfold X in Hsq. lra. }
  set (q := s / (C * beta2)).
  assert (Hq : 1 < q).
  { unfold q. apply Rmult_lt_reg_r with (C * beta2); [exact Hcb |].
    unfold Rdiv. rewrite Rmult_assoc, Rinv_l by lra. lra. }
  assert (Hqq : q * q * (C * C * beta4) = X).
  { unfold q, beta4. rewrite <- Hs2. field. lra. }
  exists ((q - 1.0) ^ 2).
  split; [| split].
  - unfold discharge_coefficient_to_K.
    rewrite fdiv_ok by exact HD. cbn [bind].
    fold beta beta2 beta4 X. rewrite fsqrt_ok by lra. cbn [bind].
    fold s. rewrite fdiv_ok by lra. reflexivity.
  - apply pow_lt. lra.
  - unfold K_to_discharge_coefficient.
    rewrite fdiv_ok by exact HD. cbn [bind].
    fold beta beta2 beta4.
    assert (HK : 0 <= (q - 1.0) ^ 2) by (apply pow_le; lra).
    rewrite fsqrt_ok by exact HK. cbn [bind].
    rewrite sqrt_pow2 by lra.
    assert (Hcommon : 2.0 * (q - 1.0) * beta4 + (q - 1.0) ^ 2 * beta4
                      = (1 - beta4) / (C * C)).
    { assert (E : (2.0 * (q - 1.0) * beta4 + (q - 1.0) ^ 2 * beta4) * (C * C)
                  = 1 - beta4).
      { replace ((2.0 * (q - 1.0) * beta4 + (q - 1.0) ^ 2 * beta4) * (C * C))
          with (q * q * (C * C * beta4) - beta4 * (C * C)) by lra.
        rewrite Hqq. unfold X. lra. }
      apply Rmult_eq_reg_r with (C * C); [| nra].
      rewrite E. field. lra. }
    assert (Hcpos : 0 < (1 - beta4) / (C * C)).
    { apply Rdiv_lt_0_compat; nra. }
    rewrite Hcommon.
    rewrite !fdiv_ok by lra. cbn [bind].
    replace 1.0 with 1 by lra.
    replace (- beta4 / ((1 - beta4) / (C * C))
             + 1 / ((1 - beta4) / (C * C))) with (C * C)
      by (field; split; lra).
    rewrite fsqrt_ok by nra. f_equal. apply sqrt_square. lra.
Qed.

Lemma K_round_trip_witness :
  (0 < 0.05 / 0.07366 < 1 /\ 0 < 0.61512 < 1)
  /\ exists K : R,
       discharge_coefficient_to_K 0.07366 0.05 0.61512 = Ok K
       /\ 0 < K
       /\ K_to_discharge_coefficient 0.07366 0.05 K = Ok 0.61512.
Proof.
  assert (H1 : 0 < 0.05 / 0.07366 < 1) by lra.
  assert (H2 : 0 < 0.61512 < 1) by lra.
  split; [split; assumption |].
  exact (K_round_trip 0.07366 0.05 0.61512 H1 H2).
Defined.

(** ** Orifice expansibility *)

Lemma exp_monotone (x y : R) : x <= y -> exp x <= exp y.
Proof.
  intros [H | ->]; [left; now apply exp_increasing | right; reflexivity].
Qed.

(** A base in [(0, 1]] raised to an exponent in [[0, 1]] stays between the
    base and [1]. *)
Lemma Rpower_unit_interval (x y : R) :
  0 < x <= 1 -> 0 <= y <= 1 -> x <= Rpower x y <= 1.
Proof.
  intros [Hx0 Hx1] [Hy0 Hy1].
  assert (Hln : ln x <= 0).
  { rewrite <- ln_1. destruct Hx1 as [Hlt | ->]; [| lra].
    left. now apply ln_increasing. }
  unfold Rpower. split.
  - rewrite <- (exp_ln x Hx0) at 1. apply exp_monotone. nra.
  - rewrite <- exp_0. apply exp_monotone. nra.
Qed.

Lemma Rpower_one_base (y : R) : Rpower 1 y = 1.
Proof. unfold Rpower. now rewrite ln_1, Rmult_0_r, exp_0. Qed.

Lemma pow4_unit (b : R) : 0 < b < 1 -> 0 < b ^ 4 < 1.
Proof.
  intros [H0 H1]. assert (H2 : 0 < b * b < 1) by nra.
  replace (b ^ 4) with ((b * b) * (b * b)) by ring. nra.
Qed.

Lemma pow8_unit (b : R) : 0 < b < 1 -> 0 < b ^ 8 < 1.
Proof.
  intros H. pose proof (pow4_unit b H) as H4.
  replace (b ^ 8) with (b ^ 4 * b ^ 4) by ring. nra.
Qed.

(** C9.  On [0 < Do/D < 1], [k >= 1], [P1 > 0] and [0.8 P1 <= P2 <= P1] the
    function returns [1 - (0.351 + 0.256 beta^4 + 0.93 beta^8)
    (1 - (P2/P1)^(1/k))]; the value lies in [(0, 1]], and it is [1] when
    [P2 = P1]. *)
Theorem orifice_expansibility_range :
  forall D Do P1 P2 k : R,
    0 < Do / D < 1 ->
    1 <= k ->
    0 < P1 ->
    0.80 * P1 <= P2 <= P1 ->
    exists eps : R,
      orifice_expansibility D (Some Do) (Some P1) (Some P2) k = Ok eps
      /\ eps = 1 - (0.351 + 0.256 * (Do / D) ^ 4 + 0.93 * (Do / D) ^ 8)
                   * (1 - Rpower (P2 / P1) (1 / k))
      /\ 0 < eps <= 1
      /\ (P2 = P1 -> eps = 1).
Proof.
  intros D Do P1 P2 k Hb Hk HP1 [HP2l HP2u].
  pose proof (ratio_pos_nonzero _ _ (proj1 Hb)) as HD.
  pose proof (pow4_unit _ Hb) as Hb4.
  pose proof (pow8_unit _ Hb) as Hb8.
  assert (Htau : 0.80 <= P2 / P1 <= 1).
  { split.
    - apply Rmult_le_reg_r with P1; [exact HP1 |].
      unfold Rdiv. rewrite Rmult_assoc, Rinv_l by lra. lra.
    - apply Rmult_le_reg_r with P1; [exact HP1 |].
      unfold Rdiv. rewrite Rmult_assoc, Rinv_l by lra. lra. }
  assert (He : 0 < 1 / k <= 1).
  { split.
    - apply Rdiv_lt_0_compat; lra.
    - apply Rmult_le_reg_r with k; [lra |].
      unfold Rdiv. rewrite Rmult_assoc, Rinv_l by lra. lra. }
  assert (Hp : P2 / P1 <= Rpower (P2 / P1) (1 / k) <= 1).
  { apply Rpower_unit_interval; lra. }
  set (p := Rpower (P2 / P1) (1 / k)) in *.
  set (b4 := (Do / D) ^ 4) in *. set (b8 := (Do / D) ^ 8) in *.
  exists (1 - (0.351 + 0.256 * b4 + 0.93 * b8) * (1 - p)).
  split; [| split; [reflexivity | split]].
  - unfold orifice_expansibility. cbn [need bind].
    rewrite (fdiv_ok Do D) by exact HD. cbn [bind].
    rewrite (fdiv_ok P2 P1) by lra. cbn [bind].
    rewrite (fdiv_ok 1 k) by lra. cbn [bind].
    rewrite fpow_pos by lra. cbn [bind].
    fold p b4 b8. f_equal. lra.
  - assert (Hc : 0 < 0.351 + 0.256 * b4 + 0.93 * b8 < 1.537) by lra.
    assert (Hq : 0 <= 1 - p <= 0.2) by lra.
    split; nra.
  - intros ->. unfold p.
    replace (P1 / P1) with 1 by (field; lra).
    rewrite Rpower_one_base. lra.
Qed.

Lemma orifice_expansibility_range_witness :
  (0 < 0.0222 / 0.0739 < 1 /\ 1 <= 1.4 /\ 0 < 1e5
   /\ 0.80 * 1e5 <= 9.9e4 <= 1e5)
  /\ exists eps : R,
       orifice_expansibility 0.0739 (Some 0.0222) (Some 1e5) (Some 9.9e4) 1.4
         = Ok eps
       /\ 0 < eps <= 1.
Proof.
  assert (H1 : 0 < 0.0222 / 0.0739 < 1) by lra.
  assert (H2 : 1 <= 1.4) by lra.
  assert (H3 : 0 < 1e5) by lra.
  assert (H4 : 0.80 * 1e5 <= 9.9e4 <= 1e5) by lra.
  split; [repeat split; lra |].
  destruct (orifice_expansibility_range 0.0739 0.0222 1e5 9.9e4 1.4 H1 H2 H3 H4)
    as [eps [He [_ [Hr _]]]].
  exists eps. split; assumption.
Defined.

(** ** The Reader-Harris/Gallagher coefficient *)

Lemma fpow_rpow (x y : R) : 0 <= x -> 0 < y -> fpow x y = Ok (rpow x y).
Proof.
  intros [Hx | <-] Hy; unfold rpow.
  - rewrite fpow_pos by exact Hx.
    destruct (Req_dec_T x 0) as [E | _]; [lra | reflexivity].
  - rewrite fpow_zero by exact Hy.
    destruct (Req_dec_T 0 0) as [_ | N]; [reflexivity | now elim N].
Qed.

Lemma tap_parameters_nonneg (D : R) (taps : option string) (L1 L2 : R) :
  0 < D -> tap_parameters D taps = Ok (L1, L2) -> 0 <= L2.
Proof.
  intros HD. unfold tap_parameters.
  destruct (eq_str taps "corner").
  { intros H. injection H as _ <-. lra. }
  destruct (eq_str taps "D" || eq_str taps "D/2")%bool.
  { intros H. injection H as _ <-. lra. }
  destruct (eq_str taps "flange"); [| discriminate].
  rewrite fdiv_ok by lra. cbn [bind]. intros H. injection H as _ <-.
  left. apply Rdiv_lt_0_compat; lra.
Qed.

Lemma pipe_area_pos (D rho : R) :
  0 < D -> 0 < rho -> 0 < pi / 4 * D * D * rho.
Proof.
  intros HD Hrho. pose proof pi_pos as Hpi.
  assert (H4 : 0 < pi / 4) by lra.
  assert (H5 : 0 < pi / 4 * D) by (apply Rmult_lt_0_compat; assumption).
  assert (H6 : 0 < pi / 4 * D * D) by (apply Rmult_lt_0_compat; assumption).
  apply Rmult_lt_0_compat; assumption.
Qed.

Lemma Reynolds_D_pos (D rho mu m : R) :
  0 < D -> 0 < rho -> 0 < mu -> 0 < m -> 0 < Reynolds_D D rho mu m.
Proof.
  intros HD Hrho Hmu Hm. unfold Reynolds_D.
  pose proof (pipe_area_pos D rho HD Hrho) as HA.
  assert (Hv : 0 < m / (pi / 4 * D * D * rho))
    by (apply Rdiv_lt_0_compat; assumption).
  apply Rdiv_lt_0_compat; [| exact Hmu].
  apply Rmult_lt_0_compat; [| exact HD].
  apply Rmult_lt_0_compat; assumption.
Qed.

(** C4.  For a pipe flow with [D], [rho], [mu], [m] positive, [0 < Do < D]
    and a supported tap location, the function returns the sum
    [C_inf_Cs + dC_upstream + dC_downstream] of the specification's terms --
    the downstream term with the factor [1 + 8 max(log10(3700/Re_D), 0)], the
    slope term with the factor [max((1e6/Re_D)^0.3, 22.7 - 4700 Re_D/1e6)] --
    to which [0.011 (0.75 - beta) max(2.8 - D/0.0254, 0)] is added exactly
    when [D < 0.07112]. *)
Theorem Reader_Harris_Gallagher_terms :
  forall (D Do rho mu m : R) (taps : option string) (L1 L2_prime : R),
    0 < D -> 0 < Do < D -> 0 < rho -> 0 < mu -> 0 < m ->
    tap_parameters D taps = Ok (L1, L2_prime) ->
    let beta := Do / D in
    let Re_D := Reynolds_D D rho mu m in
    let C := RHG_C_inf_C_s beta Re_D + RHG_upstream L1 beta Re_D
             + RHG_downstream L2_prime beta Re_D in
    C_Reader_Harris_Gallagher D (Some Do) rho mu m taps
    = Ok (if Rlt_dec D 0.07112 then C + RHG_small_diameter D beta else C)
    /\ (D < 0.07112 ->
        C_Reader_Harris_Gallagher D (Some Do) rho mu m taps
        = Ok (C + 0.011 * (0.75 - beta) * Rmax (2.8 - D / 0.0254) 0))
    /\ (0.07112 <= D ->
        C_Reader_Harris_Gallagher D (Some Do) rho mu m taps = Ok C).
Proof.
  intros D Do rho mu m taps L1 L2 HD [HDo0 HDo1] Hrho Hmu Hm Htaps beta Re_D C.
  assert (Hmain : C_Reader_Harris_Gallagher D (Some Do) rho mu m taps
    = Ok (if Rlt_dec D 0.07112 then C + RHG_small_diameter D beta else C)).
  { pose proof (Reynolds_D_pos D rho mu m HD Hrho Hmu Hm) as HRe.
    pose proof (pipe_area_pos D rho HD Hrho) as HA.
    pose proof (tap_parameters_nonneg D taps L1 L2 HD Htaps) as HL2.
    assert (Hb : 0 < beta < 1).
    { unfold beta. split.
      - apply Rdiv_lt_0_compat; lra.
      - apply Rmult_lt_reg_r with D; [exact HD |].
        unfold Rdiv. rewrite Rmult_assoc, Rinv_l by lra. lra. }
    pose proof (pow4_unit beta Hb) as Hb4.
    unfold C_Reader_Harris_Gallagher.
    rewrite (fdiv_ok m) by lra. cbn [bind].
    rewrite (fdiv_ok _ mu) by lra. cbn [bind need].
    rewrite (fdiv_ok Do D) by lra. cbn [bind].
    rewrite Htaps. cbn [bind].
    fold beta. change (rho * (m / (pi / 4 * D * D * rho)) * D / mu) with Re_D.
    fold Re_D in HRe.
    assert (Ha : 0 < 19000.0 * beta / Re_D)
      by (apply Rdiv_lt_0_compat; lra).
    rewrite (fdiv_ok _ Re_D) by lra. cbn [bind].
    rewrite (fpow_rpow _ 0.8) by lra. cbn [bind].
    rewrite (fdiv_ok _ (1.0 - beta)) by lra. cbn [bind].
    replace (beta * beta * (beta * beta)) with (beta ^ 4) by ring.
    rewrite (fdiv_ok _ (1.0 - beta ^ 4)) by lra. cbn [bind].
    assert (HM : 0 <= 2 * L2 / (1.0 - beta)).
    { apply Rmult_le_pos; [lra |]. left. apply Rinv_0_lt_compat. lra. }
    rewrite (fpow_rpow _ 1.1) by lra. cbn [bind].
    rewrite (fpow_rpow beta 1.3) by lra. cbn [bind].
    assert (Hr : 0 < 3700 / Re_D) by (apply Rdiv_lt_0_compat; lra).
    rewrite (fdiv_ok 3700 Re_D) by lra. cbn [bind].
    rewrite log10_ok by exact Hr. cbn [bind].
    rewrite (fdiv_ok (1e6 * beta) Re_D) by lra. cbn [bind].
    assert (Hc : 0 < 1e6 * beta / Re_D) by (apply Rdiv_lt_0_compat; lra).
    rewrite (fpow_rpow _ 0.7) by lra. cbn [bind].
    rewrite (fpow_rpow beta 3.5) by lra. cbn [bind].
    rewrite (fdiv_ok 1e6 Re_D) by lra. cbn [bind].
    assert (Hd : 0 < 1e6 / Re_D) by (apply Rdiv_lt_0_compat; lra).
    rewrite (fpow_rpow _ 0.3) by lra. cbn [bind].
    assert (HC : 0.5961 + 0.0261 * (beta * beta)
                 - 0.216 * (beta ^ 4 * beta ^ 4)
                 + 0.000521 * rpow (1e6 * beta / Re_D) 0.7
                 + (0.0188 + 0.0063 * rpow (19000.0 * beta / Re_D) 0.8)
                   * rpow beta 3.5
                   * Rmax (rpow (1e6 / Re_D) 0.3)
                          (22.7 - 4700.0 * (Re_D / 1e6))
                 + (0.043 + 0.080 * exp (- 1e1 * L1)
                    - 0.123 * exp (- 7.0 * L1))
                   * (1.0 - 0.11 * rpow (19000.0 * beta / Re_D) 0.8)
                   * beta ^ 4 / (1.0 - beta ^ 4)
                 + - 0.031
                   * (2 * L2 / (1.0 - beta)
                      - 0.8 * rpow (2 * L2 / (1.0 - beta)) 1.1)
                   * rpow beta 1.3
                   * (1.0 + 8 * Rmax (ln (3700 / Re_D) / ln 10) 0.0)
                 = C).
    { unfold C, RHG_C_inf_C_s, RHG_upstream, RHG_downstream,
        RHG_slope_factor, RHG_A.
      replace 19000.0 with 19000 by lra. replace 1.0 with 1 by lra.
      replace 0.0 with 0 by lra. replace 4700.0 with 4700 by lra.
      replace (- 1e1) with (- 10) by lra. replace (- 7.0) with (- 7) by lra.
      replace (beta ^ 4 * beta ^ 4) with (beta ^ 8) by ring.
      replace (beta * beta) with (beta ^ 2) by ring.
      reflexivity. }
    rewrite HC.
    destruct (Rlt_dec D 0.07112); [| reflexivity].
    unfold RHG_small_diameter. replace 0.0 with 0 by lra. reflexivity. }
  split; [exact Hmain |]. split.
  - intros HDs. rewrite Hmain.
    destruct (Rlt_dec D 0.07112) as [_ | N]; [reflexivity | contradiction].
  - intros HDl. rewrite Hmain.
    destruct (Rlt_dec D 0.07112) as [L | _]; [lra | reflexivity].
Qed.

Lemma flange_taps (D : R) :
  D <> 0 ->
  tap_parameters D (Some "flange"%string) = Ok (0.0254 / D, 0.0254 / D).
Proof.
  intros HD. unfold tap_parameters; cbn. now rewrite fdiv_ok.
Qed.

Lemma Reader_Harris_Gallagher_terms_witness :
  let D := 0.07391 in
  let beta := 0.0222 / D in
  let Re_D := Reynolds_D D 1.165 1.85e-5 0.12 in
  (0 < D /\ 0 < 0.0222 < D /\ 0 < 1.165 /\ 0 < 1.85e-5 /\ 0 < 0.12
   /\ tap_parameters D (Some "flange"%string) = Ok (0.0254 / D, 0.0254 / D))
  /\ C_Reader_Harris_Gallagher D (Some 0.0222) 1.165 1.85e-5 0.12
       (Some "flange"%string)
     = Ok (RHG_C_inf_C_s beta Re_D + RHG_upstream (0.0254 / D) beta Re_D
           + RHG_downstream (0.0254 / D) beta Re_D).
Proof.
  intros D beta Re_D.
  assert (H1 : 0 < D) by (unfold D; lra).
  assert (H2 : 0 < 0.0222 < D) by (unfold D; lra).
  assert (H3 : 0 < 1.165) by lra.
  assert (H4 : 0 < 1.85e-5) by lra.
  assert (H5 : 0 < 0.12) by lra.
  assert (H6 : tap_parameters D (Some "flange"%string)
               = Ok (0.0254 / D, 0.0254 / D))
    by (apply flange_taps; lra).
  split; [repeat split; assumption || lra |].
  apply (Reader_Harris_Gallagher_terms D 0.0222 1.165 1.85e-5 0.12
           (Some "flange"%string) (0.0254 / D) (0.0254 / D) H1 H2 H3 H4 H5 H6).
  unfold D. lra.
Defined.

(** ** Tap locations of the orifice coefficient *)

Lemma C_Reader_Harris_Gallagher_value
    (D Do rho mu m : R) (taps : option string) (L1 L2_prime : R) :
  0 < D -> 0 < Do < D -> 0 < rho -> 0 < mu -> 0 < m ->
  tap_parameters D taps = Ok (L1, L2_prime) ->
  C_Reader_Harris_Gallagher D (Some Do) rho mu m taps
  = Ok (RHG_value D (Do / D) (Reynolds_D D rho mu m) L1 L2_prime).
Proof.
  intros HD [HDo0 HDo1] Hrho Hmu Hm Htaps.
  set (beta := Do / D). set (Re_D := Reynolds_D D rho mu m).
  pose proof (Reynolds_D_pos D rho mu m HD Hrho Hmu Hm) as HRe.
  pose proof (pipe_area_pos D rho HD Hrho) as HA.
  pose proof (tap_parameters_nonneg D taps L1 L2_prime HD Htaps) as HL2.
  assert (Hb : 0 < beta < 1).
  { unfold beta. split.
    - apply Rdiv_lt_0_compat; lra.
    - apply Rmult_lt_reg_r with D; [exact HD |].
      unfold Rdiv. rewrite Rmult_assoc, Rinv_l by lra. lra. }
  pose proof (pow4_unit beta Hb) as Hb4.
  unfold C_Reader_Harris_Gallagher.
  rewrite (fdiv_ok m) by lra. cbn [bind].
  rewrite (fdiv_ok _ mu) by lra. cbn [bind need].
  rewrite (fdiv_ok Do D) by lra. cbn [bind].
  rewrite Htaps. cbn [bind].
  fold beta. change (rho * (m / (pi / 4 * D * D * rho)) * D / mu) with Re_D.
  fold Re_D in HRe.
  assert (Ha : 0 < 19000.0 * beta / Re_D) by (apply Rdiv_lt_0_compat; lra).
  rewrite (fdiv_ok _ Re_D) by lra. cbn [bind].
  rewrite (fpow_rpow _ 0.8) by lra. cbn [bind].
  rewrite (fdiv_ok _ (1.0 - beta)) by lra. cbn [bind].
  replace (beta * beta * (beta * beta)) with (beta ^ 4) by ring.
  rewrite (fdiv_ok _ (1.0 - beta ^ 4)) by lra. cbn [bind].
  assert (HM : 0 <= 2 * L2_prime / (1.0 - beta)).
  { apply Rmult_le_pos; [lra |]. left. apply Rinv_0_lt_compat. lra. }
  rewrite (fpow_rpow _ 1.1) by lra. cbn [bind].
  rewrite (fpow_rpow beta 1.3) by lra. cbn [bind].
  assert (Hr : 0 < 3700 / Re_D) by (apply Rdiv_lt_0_compat; lra).
  rewrite (fdiv_ok 3700 Re_D) by lra. cbn [bind].
  rewrite log10_ok by exact Hr. cbn [bind].
  rewrite (fdiv_ok (1e6 * beta) Re_D) by lra. cbn [bind].
  assert (Hc : 0 < 1e6 * beta / Re_D) by (apply Rdiv_lt_0_compat; lra).
  rewrite (fpow_rpow _ 0.7) by lra. cbn [bind].
  rewrite (fpow_rpow beta 3.5) by lra. cbn [bind].
  rewrite (fdiv_ok 1e6 Re_D) by lra. cbn [bind].
  assert (Hd : 0 < 1e6 / Re_D) by (apply Rdiv_lt_0_compat; lra).
  rewrite (fpow_rpow _ 0.3) by lra. cbn [bind].
  unfold RHG_value, RHG_C_inf_C_s, RHG_upstream, RHG_downstream,
    RHG_slope_factor, RHG_A, RHG_small_diameter.
  replace 19000.0 with 19000 by lra. replace 1.0 with 1 by lra.
  replace 0.0 with 0 by lra. replace 4700.0 with 4700 by lra.
  replace (- 1e1) with (- 10) by lra. replace (- 7.0) with (- 7) by lra.
  replace (beta ^ 4 * beta ^ 4) with (beta ^ 8) by ring.
  replace (beta * beta) with (beta ^ 2) by ring.
  destruct (Rlt_dec D 0.07112); reflexivity.
Qed.

(** C5.  The coefficient function selects the tap parameters by [taps]: for
    a pipe flow with [D], [rho], [mu], [m] positive and [0 < Do < D] it
    returns the value of the equation with [L1 = L2' = 0] for corner taps,
    with [L1 = 1] and [L2' = 0.47] for ['D'] and for ['D/2'] taps, and with
    [L1 = L2' = 0.0254/D] for flange taps.  For any other value of [taps],
    [None] included, it raises [Exception('Unsupported tap location')],
    whatever [Do] and [m] are and for every nonzero [D], [rho] and [mu]. *)
Theorem unsupported_taps_fail :
  forall (D Do rho mu m : R) (taps : option string),
    D <> 0 -> rho <> 0 -> mu <> 0 ->
    ~ In taps supported_taps ->
    (0 < D -> 0 < Do < D -> 0 < rho -> 0 < mu -> 0 < m ->
     let C := fun L1 L2_prime : R =>
       Ok (RHG_value D (Do / D) (Reynolds_D D rho mu m) L1 L2_prime) in
     C_Reader_Harris_Gallagher D (Some Do) rho mu m (Some "corner"%string)
       = C 0 0
     /\ C_Reader_Harris_Gallagher D (Some Do) rho mu m (Some "D"%string)
        = C 1 0.47
     /\ C_Reader_Harris_Gallagher D (Some Do) rho mu m (Some "D/2"%string)
        = C 1 0.47
     /\ C_Reader_Harris_Gallagher D (Some Do) rho mu m (Some "flange"%string)
        = C (0.0254 / D) (0.0254 / D))
    /\ C_Reader_Harris_Gallagher D (Some Do) rho mu m taps
       = Raise (Exception (Message "Unsupported tap location")).
Proof.
  intros D Do rho mu m taps HD Hrho Hmu Htaps. split.
  - intros HD0 HDo Hrho0 Hmu0 Hm0 C. unfold C.
    repeat split;
      apply C_Reader_Harris_Gallagher_value; try assumption.
    + unfold tap_parameters; cbn. f_equal. f_equal; lra.
    + unfold tap_parameters; cbn. f_equal. f_equal; lra.
    + unfold tap_parameters; cbn. f_equal. f_equal; lra.
    + apply flange_taps; lra.
  - assert (Hbad : tap_parameters D taps
                   = Raise (Exception (Message "Unsupported tap location"))).
    { unfold tap_parameters, eq_str.
      destruct taps as [t |]; [| reflexivity].
      repeat match goal with
      | |- context [String.eqb t ?c] =>
          destruct (String.eqb_spec t c) as [-> | _];
          [exfalso; apply Htaps; cbn; tauto |]
      end.
      reflexivity. }
    unfold C_Reader_Harris_Gallagher.
    pose proof (pipe_area_nonzero D rho HD Hrho) as HA.
    rewrite (fdiv_ok m) by exact HA.
    cbn [bind]. rewrite (fdiv_ok _ mu) by exact Hmu.
    cbn [bind need]. rewrite (fdiv_ok Do D) by exact HD.
    cbn [bind]. rewrite Hbad. reflexivity.
Qed.

Lemma unsupported_taps_fail_witness :
  (0.07391 <> 0 /\ 1.165 <> 0 /\ 1.85e-5 <> 0
   /\ ~ In (Some "invalid"%string) supported_taps)
  /\ C_Reader_Harris_Gallagher 0.07391 (Some 0.0222) 1.165 1.85e-5 0.12
       (Some "invalid"%string)
     = Raise (Exception (Message "Unsupported tap location")).
Proof.
  assert (H1 : 0.07391 <> 0) by lra.
  assert (H2 : 1.165 <> 0) by lra.
  assert (H3 : 1.85e-5 <> 0) by lra.
  assert (H4 : ~ In (Some "invalid"%string) supported_taps).
  { cbn. intros [H | [H | [H | [H | []]]]]; discriminate H. }
  split; [now repeat split |].
  exact (proj2 (unsupported_taps_fail 0.07391 0.0222 1.165 1.85e-5 0.12
                  (Some "invalid"%string) H1 H2 H3 H4)).
Defined.


(** ** Numerical enclosures *)

Lemma pi_bounds : 3.14159265358 < pi < 3.14159265360.
Proof.
  unfold pi.
  pose proof (PI_2_3_7_ineq 5) as [Hl Hu].
  unfold sum_f_R0, tg_alt, PI_2_3_7_tg, Ratan_seq in Hl, Hu.
  cbn [Nat.mul Nat.add pow INR] in Hl, Hu.
  split; lra.
Qed.

Lemma sqrt_bounds (x l u : R) :
  0 <= l -> 0 <= u -> l * l <= x <= u * u -> l <= sqrt x <= u.
Proof.
  intros Hl Hu [Hlx Hxu]. split.
  - rewrite <- (sqrt_square l Hl). apply sqrt_le_1; nra.
  - rewrite <- (sqrt_square u Hu). apply sqrt_le_1; nra.
Qed.

Lemma product_bounds (x y xl xu yl yu : R) :
  0 <= xl -> 0 <= yl -> xl <= x <= xu -> yl <= y <= yu ->
  xl * yl <= x * y <= xu * yu.
Proof. intros Hxl Hyl [H1 H2] [H3 H4]. split; nra. Qed.

Lemma quotient_bounds (x y xl xu yl yu : R) :
  0 <= xl -> 0 < yl -> xl <= x <= xu -> yl <= y <= yu ->
  xl / yu <= x / y <= xu / yl.
Proof.
  intros Hxl Hyl [H1 H2] [H3 H4].
  assert (Hi : / yu <= / y <= / yl).
  { split; apply Rinv_le_contravar; lra. }
  assert (Hiu : 0 < / yu) by (apply Rinv_0_lt_compat; lra).
  unfold Rdiv. apply product_bounds; try lra.
Qed.

(** ** The discharge equation *)

Lemma orifice_discharge_ok (D Do P1 P2 rho C eps : R) :
  D <> 0 -> 0 <= 2 * (P1 - P2) * rho -> (Do / D) ^ 4 < 1 ->
  orifice_discharge D (Some Do) (Some P1) (Some P2) rho C eps
  = Ok ((pi * Do ^ 2 / 4) * C * sqrt (2 * (P1 - P2) * rho)
        / sqrt (1 - (Do / D) ^ 4) * eps).
Proof.
  intros HD Hnum Hden. unfold orifice_discharge. cbn [need bind].
  rewrite (fdiv_ok Do D) by exact HD. cbn [bind].
  rewrite fsqrt_ok by exact Hnum. cbn [bind].
  rewrite fsqrt_ok by lra. cbn [bind].
  replace (1.0 - (Do / D) ^ 4) with (1 - (Do / D) ^ 4) by lra.
  assert (Hs : 0 < sqrt (1 - (Do / D) ^ 4)) by (apply sqrt_lt_R0; lra).
  rewrite fdiv_ok by lra. cbn [bind].
  replace (pi * Do * Do) with (pi * Do ^ 2) by ring. reflexivity.
Qed.

Lemma orifice_discharge_zero_diameter (Do P1 P2 rho C eps : R) :
  orifice_discharge 0 (Some Do) (Some P1) (Some P2) rho C eps
  = Raise ZeroDivisionError.
Proof.
  unfold orifice_discharge. cbn [need bind]. now rewrite fdiv_zero.
Qed.

(** With its arguments present the function raises nothing of its own: a
    failure can only be the division by zero of the float arithmetic. *)
Lemma orifice_discharge_only_arithmetic (D Do P1 P2 rho C eps : R) (e : exn) :
  orifice_discharge D (Some Do) (Some P1) (Some P2) rho C eps = Raise e ->
  e = ZeroDivisionError.
Proof.
  unfold orifice_discharge, fsqrt, fpow, fdiv. cbn [need bind].
  repeat match goal with
  | |- context [Req_dec_T ?a ?b] => destruct (Req_dec_T a b)
  | |- context [Rlt_dec ?a ?b] => destruct (Rlt_dec a b)
  | |- _ => progress cbn [bind]
  end;
  intros H; try discriminate H; injection H as <-; reflexivity.
Qed.

Lemma orifice_discharge_example_value :
  Rabs ((pi * 0.0222 ^ 2 / 4) * 0.5988 * sqrt (2 * (1e5 - 9.9e4) * 1.1646)
        / sqrt (1 - (0.0222 / 0.0739) ^ 4) * 0.9975
        - 0.01120390943807026)
  <= 1e-9 * 0.01120390943807026.
Proof.
  set (a := 2 * (1e5 - 9.9e4) * 1.1646).
  set (b := 1 - (0.0222 / 0.0739) ^ 4).
  assert (Hs1 : 48.2617861252 <= sqrt a <= 48.2617861253).
  { apply sqrt_bounds; unfold a; lra. }
  assert (Hs2 : 0.995919709563 <= sqrt b <= 0.995919709564).
  { apply sqrt_bounds; unfold b; lra. }
  pose proof pi_bounds as Hpi.
  assert (Hp : 3.14159265358 * 48.2617861252 <= pi * sqrt a
               <= 3.14159265360 * 48.2617861253).
  { apply product_bounds; lra. }
  assert (Hq : 3.14159265358 * 48.2617861252 / 0.995919709564
               <= pi * sqrt a / sqrt b
               <= 3.14159265360 * 48.2617861253 / 0.995919709563).
  { apply quotient_bounds; lra. }
  set (r := pi * sqrt a / sqrt b) in Hq.
  replace (pi * 0.0222 ^ 2 / 4 * 0.5988 * sqrt a / sqrt b * 0.9975)
    with (0.0222 ^ 2 / 4 * 0.5988 * 0.9975 * r)
    by (unfold r, Rdiv; lra).
  apply Rabs_le. split; lra.
Qed.

(** C6.  Where the float arithmetic is defined ([D] nonzero, a nonnegative
    [2 (P1 - P2) rho], [beta^4 < 1]) the function returns
    [(pi Do^2 / 4) C sqrt(2 (P1 - P2) rho) / sqrt(1 - (Do/D)^4) expansibility],
    with [expansibility = 1] when the argument is left out; it validates
    nothing and raises nothing of its own, the division by zero of the
    arithmetic being its only failure.  At [D = 0.0739], [Do = 0.0222],
    [P1 = 1e5], [P2 = 9.9e4], [rho = 1.1646], [C = 0.5988],
    [expansibility = 0.9975] the exact value of the formula is within a
    relative [1e-9] of [0.01120390943807026]. *)
Theorem orifice_discharge_formula :
  (forall D Do P1 P2 rho C eps : R,
      D <> 0 -> 0 <= 2 * (P1 - P2) * rho -> (Do / D) ^ 4 < 1 ->
      orifice_discharge D (Some Do) (Some P1) (Some P2) rho C eps
      = Ok ((pi * Do ^ 2 / 4) * C * sqrt (2 * (P1 - P2) * rho)
            / sqrt (1 - (Do / D) ^ 4) * eps)
      /\ orifice_discharge D (Some Do) (Some P1) (Some P2) rho C
           expansibility_default
         = Ok ((pi * Do ^ 2 / 4) * C * sqrt (2 * (P1 - P2) * rho)
               / sqrt (1 - (Do / D) ^ 4)))
  /\ (forall (D Do P1 P2 rho C eps : R) (e : exn),
        orifice_discharge D (Some Do) (Some P1) (Some P2) rho C eps = Raise e ->
        e = ZeroDivisionError)
  /\ exists v : R,
       orifice_discharge 0.0739 (Some 0.0222) (Some 1e5) (Some 9.9e4) 1.1646
         0.5988 0.9975 = Ok v
       /\ Rabs (v - 0.01120390943807026) <= 1e-9 * 0.01120390943807026.
Proof.
  split; [| split].
  - intros D Do P1 P2 rho C eps HD Hnum Hden. split.
    + now apply orifice_discharge_ok.
    + rewrite orifice_discharge_ok by assumption.
      unfold expansibility_default. f_equal. lra.
  - exact orifice_discharge_only_arithmetic.
  - eexists. split.
    + apply orifice_discharge_ok; lra.
    + exact orifice_discharge_example_value.
Qed.

Lemma orifice_discharge_formula_witness :
  (0.0739 <> 0 /\ 0 <= 2 * (1e5 - 9.9e4) * 1.1646
   /\ (0.0222 / 0.0739) ^ 4 < 1)
  /\ orifice_discharge 0.0739 (Some 0.0222) (Some 1e5) (Some 9.9e4) 1.1646
       0.5988 0.9975
     = Ok ((pi * 0.0222 ^ 2 / 4) * 0.5988 * sqrt (2 * (1e5 - 9.9e4) * 1.1646)
           / sqrt (1 - (0.0222 / 0.0739) ^ 4) * 0.9975).
Proof.
  assert (H1 : 0.0739 <> 0) by lra.
  assert (H2 : 0 <= 2 * (1e5 - 9.9e4) * 1.1646) by lra.
  assert (H3 : (0.0222 / 0.0739) ^ 4 < 1) by lra.
  split; [repeat split; assumption |].
  exact (proj1 (proj1 orifice_discharge_formula 0.0739 0.0222 1e5 9.9e4
                  1.1646 0.5988 0.9975 H1 H2 H3)).
Defined.

(** ** The wedge meter *)

Lemma INR_fact_S (n : nat) : INR (fact (S n)) = INR (S n) * INR (fact n).
Proof. rewrite fact_simpl. apply mult_INR. Qed.

Lemma INR_fact_0 : INR (fact 0) = 1.
Proof. reflexivity. Qed.

(** Unfolds a partial sum of the cosine series into a rational expression. *)
Ltac eval_cos_approx H :=
  unfold cos_approx, cos_term in H;
  cbn [sum_f_R0 Nat.mul Nat.add] in H;
  rewrite ?INR_fact_S, ?INR_fact_0 in H;
  cbn [INR pow] in H.

Lemma cos_below_acos : 0.4 < cos 1.15927948072.
Proof.
  pose proof (pre_cos_bound 1.15927948072 4 ltac:(lra) ltac:(lra)) as [Hl _].
  eval_cos_approx Hl. lra.
Qed.

Lemma cos_above_acos : cos 1.15927948073 < 0.4.
Proof.
  pose proof (pre_cos_bound 1.15927948073 4 ltac:(lra) ltac:(lra)) as [_ Hu].
  eval_cos_approx Hu. lra.
Qed.

Lemma acos_bounds : 1.15927948072 <= acos 0.4 <= 1.15927948073.
Proof.
  assert (Hdom : -1 <= 0.4 <= 1) by lra.
  pose proof (acos_bound 0.4) as [Ha0 HaPI].
  pose proof (cos_acos 0.4 Hdom) as Hcos.
  pose proof pi_bounds as Hpi. unfold pi in Hpi.
  split.
  - apply Rnot_lt_le. intros Hlt.
    pose proof (cos_decreasing_1 (acos 0.4) 1.15927948072
                  Ha0 HaPI ltac:(lra) ltac:(lra) Hlt) as Hd.
    pose proof cos_below_acos. lra.
  - apply Rnot_lt_le. intros Hlt.
    pose proof (cos_decreasing_1 1.15927948073 (acos 0.4)
                  ltac:(lra) ltac:(lra) Ha0 HaPI Hlt) as Hd.
    pose proof cos_above_acos. lra.
Qed.

Lemma C_wedge_meter_Miller_bands (D : R) (H : option R) (beta : R) :
  diameter_ratio_wedge_meter D H = Ok beta ->
  C_wedge_meter_Miller D H
  = Ok (if Rle_dec D (0.7 * 0.0254) then 0.7883 + 0.107 * (1 - beta * beta)
        else if Rle_dec D (1.4 * 0.0254) then
               0.6143 + 0.718 * (1 - beta * beta)
        else 0.5433 + 0.2453 * (1 - beta * beta)).
Proof.
  intros Hb. unfold C_wedge_meter_Miller, inch. rewrite Hb. cbn [bind].
  destruct (Rle_dec D (0.7 * 0.0254)); [reflexivity |].
  destruct (Rle_dec D (1.4 * 0.0254)); reflexivity.
Qed.

Lemma wedge_example_beta :
  diameter_ratio_wedge_meter 0.1524 (Some (0.3 * 0.1524))
  = Ok (sqrt (1 / pi * (acos 0.4 - 0.8 * sqrt 0.21))).
Proof.
  pose proof acos_bounds as Hac. pose proof pi_bounds as Hpi.
  assert (Hs : 0.458257569495 <= sqrt 0.21 <= 0.458257569496)
    by (apply sqrt_bounds; lra).
  unfold diameter_ratio_wedge_meter. cbn [need bind].
  rewrite fdiv_ok by lra. cbn [bind].
  rewrite py_acos_ok by lra. cbn [bind].
  rewrite fsqrt_ok by lra. cbn [bind].
  rewrite (fdiv_ok 1 pi) by lra. cbn [bind].
  replace (1.0 - 2.0 * (0.3 * 0.1524 / 0.1524)) with 0.4 by lra.
  replace (0.3 * 0.1524 / 0.1524 - 0.3 * 0.1524 / 0.1524 * (0.3 * 0.1524 / 0.1524))
    with 0.21 by lra.
  replace (2.0 * 0.4) with 0.8 by lra.
  apply fsqrt_ok.
  apply Rmult_le_pos; [| lra].
  left. apply Rdiv_lt_0_compat; lra.
Qed.

Lemma wedge_example_value :
  Rabs (0.5433 + 0.2453
                 * (1 - sqrt (1 / pi * (acos 0.4 - 0.8 * sqrt 0.21))
                        * sqrt (1 / pi * (acos 0.4 - 0.8 * sqrt 0.21)))
        - 0.7267069372687651) <= 1e-10.
Proof.
  pose proof acos_bounds as Hac. pose proof pi_bounds as Hpi.
  assert (Hs : 0.458257569495 <= sqrt 0.21 <= 0.458257569496)
    by (apply sqrt_bounds; lra).
  set (t4 := acos 0.4 - 0.8 * sqrt 0.21).
  assert (Ht4 : 1.15927948072 - 0.8 * 0.458257569496 <= t4
                <= 1.15927948073 - 0.8 * 0.458257569495)
    by (unfold t4; lra).
  assert (Hq : (1.15927948072 - 0.8 * 0.458257569496) / 3.14159265360
               <= t4 / pi
               <= (1.15927948073 - 0.8 * 0.458257569495) / 3.14159265358).
  { apply quotient_bounds; lra. }
  replace (1 / pi * t4) with (t4 / pi) by (unfold Rdiv; lra).
  rewrite sqrt_sqrt by lra.
  apply Rabs_le. split; lra.
Qed.

(** C8.  The function takes [beta] from [diameter_ratio_wedge_meter] (and
    fails as that function fails) and returns [0.7883 + 0.107 (1 - beta^2)]
    for [D <= 0.7 * 0.0254], [0.6143 + 0.718 (1 - beta^2)] for
    [0.7 * 0.0254 < D <= 1.4 * 0.0254] and [0.5433 + 0.2453 (1 - beta^2)] for
    [D > 1.4 * 0.0254], an inch being [0.0254] m.  At [D = 0.1524],
    [H = 0.3 * 0.1524] the exact value of the formula is within [1e-10] of
    [0.7267069372687651]. *)
Theorem C_wedge_meter_Miller_piecewise :
  inch = 0.0254
  /\ (forall (D : R) (H : option R) (beta : R),
        diameter_ratio_wedge_meter D H = Ok beta ->
        (D <= 0.7 * 0.0254 ->
         C_wedge_meter_Miller D H = Ok (0.7883 + 0.107 * (1 - beta ^ 2)))
        /\ (0.7 * 0.0254 < D <= 1.4 * 0.0254 ->
            C_wedge_meter_Miller D H = Ok (0.6143 + 0.718 * (1 - beta ^ 2)))
        /\ (1.4 * 0.0254 < D ->
            C_wedge_meter_Miller D H = Ok (0.5433 + 0.2453 * (1 - beta ^ 2))))
  /\ (forall (D : R) (H : option R) (e : exn),
        diameter_ratio_wedge_meter D H = Raise e ->
        C_wedge_meter_Miller D H = Raise e)
  /\ exists v : R,
       C_wedge_meter_Miller 0.1524 (Some (0.3 * 0.1524)) = Ok v
       /\ Rabs (v - 0.7267069372687651) <= 1e-10.
Proof.
  split; [reflexivity |]. split; [| split].
  - intros D H beta Hb.
    pose proof (C_wedge_meter_Miller_bands D H beta Hb) as HC.
    replace (beta ^ 2) with (beta * beta) by ring.
    repeat split; intros HD; rewrite HC.
    + destruct (Rle_dec D (0.7 * 0.0254)); [reflexivity | lra].
    + destruct (Rle_dec D (0.7 * 0.0254)); [lra |].
      destruct (Rle_dec D (1.4 * 0.0254)); [reflexivity | lra].
    + destruct (Rle_dec D (0.7 * 0.0254)); [lra |].
      destruct (Rle_dec D (1.4 * 0.0254)); [lra | reflexivity].
  - intros D H e He. unfold C_wedge_meter_Miller. now rewrite He.
  - eexists. split.
    + rewrite (C_wedge_meter_Miller_bands _ _ _ wedge_example_beta).
      destruct (Rle_dec 0.1524 (0.7 * 0.0254)); [lra |].
      destruct (Rle_dec 0.1524 (1.4 * 0.0254)); [lra | reflexivity].
    + exact wedge_example_value.
Qed.

Lemma C_wedge_meter_Miller_piecewise_witness :
  let beta := sqrt (1 / pi * (acos 0.4 - 0.8 * sqrt 0.21)) in
  (diameter_ratio_wedge_meter 0.1524 (Some (0.3 * 0.1524)) = Ok beta
   /\ 1.4 * 0.0254 < 0.1524)
  /\ C_wedge_meter_Miller 0.1524 (Some (0.3 * 0.1524))
     = Ok (0.5433 + 0.2453 * (1 - beta ^ 2)).
Proof.
  intros beta.
  assert (H1 : 1.4 * 0.0254 < 0.1524) by lra.
  split; [split; [exact wedge_example_beta | exact H1] |].
  exact (proj2 (proj2 (proj1 (proj2 C_wedge_meter_Miller_piecewise)
                         0.1524 (Some (0.3 * 0.1524)) beta
                         wedge_example_beta)) H1).
Defined.

(** * Further properties of the module *)

(** ** Primitives outside the real domain *)

Lemma half_not_integral : frac_part 0.5 <> 0.
Proof.
  intros H. destruct (fp_nat _ H) as [c Hc].
  destruct (Z_le_gt_dec c 0) as [Hle | Hgt].
  - apply IZR_le in Hle. lra.
  - assert (Hge : (1 <= c)%Z) by lia. apply IZR_le in Hge. lra.
Qed.

Lemma fsqrt_negative (x : R) : x < 0 -> fsqrt x = Complex.
Proof.
  intros Hx. unfold fsqrt, fpow.
  destruct (Req_dec_T 0.5 0) as [E | _]; [lra |].
  destruct (Rlt_dec 0 x) as [L | _]; [lra |].
  destruct (Req_dec_T x 0) as [E | _]; [lra |].
  destruct (Req_dec_T (frac_part 0.5) 0) as [E | _];
    [now apply half_not_integral in E | reflexivity].
Qed.

Lemma fpow_neg_half (x : R) : 0 < x -> fpow x (- 0.5) = Ok (/ sqrt x).
Proof.
  intros Hx. rewrite fpow_pos by exact Hx. f_equal.
  replace (- 0.5) with (- / 2) by lra.
  now rewrite Rpower_Ropp, Rpower_sqrt.
Qed.

(** ** The discharge equation at and beyond zero differential pressure *)

(** X1.  With equal pressures the discharge equation returns a zero flow;
    with the pressures exchanged, so that [2 (P1 - P2) rho] is negative, it
    returns no real number. *)
Theorem orifice_discharge_pressure_edges :
  forall D Do P1 P2 rho C eps : R,
    D <> 0 -> (Do / D) ^ 4 < 1 ->
    orifice_discharge D (Some Do) (Some P1) (Some P1) rho C eps = Ok 0
    /\ (2 * (P1 - P2) * rho < 0 ->
        orifice_discharge D (Some Do) (Some P1) (Some P2) rho C eps = Complex).
Proof.
  intros D Do P1 P2 rho C eps HD Hb. split.
  - rewrite orifice_discharge_ok by (try assumption; lra).
    f_equal. replace (2 * (P1 - P1) * rho) with 0 by ring.
    rewrite sqrt_0. unfold Rdiv. ring.
  - intros Hneg. unfold orifice_discharge. cbn [need bind].
    rewrite (fdiv_ok Do D) by exact HD. cbn [bind].
    now rewrite fsqrt_negative.
Qed.

Lemma orifice_discharge_pressure_edges_witness :
  (0.0739 <> 0 /\ (0.0222 / 0.0739) ^ 4 < 1
   /\ 2 * (9.9e4 - 1e5) * 1.1646 < 0)
  /\ orifice_discharge 0.0739 (Some 0.0222) (Some 9.9e4) (Some 9.9e4) 1.1646
       0.5988 0.9975 = Ok 0
  /\ orifice_discharge 0.0739 (Some 0.0222) (Some 9.9e4) (Some 1e5) 1.1646
       0.5988 0.9975 = Complex.
Proof.
  assert (H1 : 0.0739 <> 0) by lra.
  assert (H2 : (0.0222 / 0.0739) ^ 4 < 1) by lra.
  assert (H3 : 2 * (9.9e4 - 1e5) * 1.1646 < 0) by lra.
  split; [repeat split; assumption |].
  destruct (orifice_discharge_pressure_edges 0.0739 0.0222 9.9e4 1e5 1.1646
              0.5988 0.9975 H1 H2) as [Ha Hb].
  split; [exact Ha | exact (Hb H3)].
Defined.

(** ** Pressure drop of an orifice and the loss coefficient *)

(** The square root that [dP_orifice] and [discharge_coefficient_to_K] share
    exceeds [C beta^2]. *)
Lemma orifice_root_gt (beta C : R) :
  0 < beta < 1 -> 0 < C ->
  let X := 1.0 - beta * beta * (beta * beta) * (1.0 - C * C) in
  0 < X /\ 0 < C * (beta * beta) < sqrt X.
Proof.
  intros Hb HC X.
  assert (Hb2 : 0 < beta * beta < 1) by nra.
  assert (Hb4 : 0 < beta * beta * (beta * beta) < 1) by nra.
  assert (HX : 0 < X).
  { unfold X. 
    assert (0 <= beta * beta * (beta * beta) * (C * C)) by nra. nra. }
  split; [exact HX |]. split; [nra |].
  apply Rnot_le_lt. intros Hle.
  assert (Hs0 : 0 <= sqrt X) by apply sqrt_pos.
  assert (Hsq : sqrt X * sqrt X <= C * (beta * beta) * (C * (beta * beta)))
    by nra.
  rewrite sqrt_sqrt in Hsq by lra. unfold X in Hsq. nra.
Qed.

(** X2.  For [0 < Do/D < 1] and a positive discharge coefficient the
    non-recoverable pressure drop is a fixed fraction of the measured
    differential, strictly between none and all of it. *)
Theorem dP_orifice_fraction :
  forall D Do C : R,
    0 < Do / D < 1 -> 0 < C ->
    exists f : R,
      0 < f < 1
      /\ forall P1 P2 : R,
           dP_orifice D Do P1 P2 (Some C) = Ok (f * (P1 - P2))
           /\ (P2 < P1 -> 0 < f * (P1 - P2) < P1 - P2).
Proof.
  intros D Do C Hb HC.
  pose proof (ratio_pos_nonzero _ _ (proj1 Hb)) as HD.
  destruct (orifice_root_gt (Do / D) C Hb HC) as [HX [Hcb Hs]].
  set (X := 1.0 - Do / D * (Do / D) * (Do / D * (Do / D)) * (1.0 - C * C)) in *.
  set (cb := C * (Do / D * (Do / D))) in *.
  exists ((sqrt X - cb) / (sqrt X + cb)).
  assert (Hf : 0 < (sqrt X - cb) / (sqrt X + cb) < 1).
  { split.
    - apply Rdiv_lt_0_compat; lra.
    - apply Rmult_lt_reg_r with (sqrt X + cb); [lra |].
      unfold Rdiv. rewrite Rmult_assoc, Rinv_l by lra. lra. }
  split; [exact Hf |].
  intros P1 P2. split.
  - unfold dP_orifice. rewrite fdiv_ok by exact HD. cbn [bind need].
    fold X. rewrite !fsqrt_ok by lra. cbn [bind].
    fold cb. rewrite fdiv_ok by lra. reflexivity.
  - intros HP. nra.
Qed.

Lemma dP_orifice_fraction_witness :
  (0 < 0.05 / 0.07366 < 1 /\ 0 < 0.61512)
  /\ exists f : R,
       0 < f < 1
       /\ dP_orifice 0.07366 0.05 200000 183000 (Some 0.61512)
          = Ok (f * (200000 - 183000)).
Proof.
  assert (H1 : 0 < 0.05 / 0.07366 < 1) by lra.
  assert (H2 : 0 < 0.61512) by lra.
  split; [split; assumption |].
  destruct (dP_orifice_fraction 0.07366 0.05 0.61512 H1 H2) as [f [Hf Hall]].
  exists f. split; [exact Hf | exact (proj1 (Hall 200000 183000))].
Defined.

(** In exact arithmetic the relation between the pressure drop and the loss
    coefficient holds for every bore. *)
Lemma dP_orifice_from_K_exact :
  forall D Do C P1 P2 : R,
    0 < Do / D < 1 -> 0 < C ->
    exists K : R,
      discharge_coefficient_to_K D Do C = Ok K
      /\ 0 < K
      /\ dP_orifice D Do P1 P2 (Some C)
         = Ok (sqrt K / (sqrt K + 2) * (P1 - P2)).
Proof.
  intros D Do C P1 P2 Hb HC.
  pose proof (ratio_pos_nonzero _ _ (proj1 Hb)) as HD.
  destruct (orifice_root_gt (Do / D) C Hb HC) as [HX [Hcb Hs]].
  set (X := 1.0 - Do / D * (Do / D) * (Do / D * (Do / D)) * (1.0 - C * C)) in *.
  set (cb := C * (Do / D * (Do / D))) in *.
  set (q := sqrt X / cb).
  assert (Hq : 1 < q).
  { unfold q. apply Rmult_lt_reg_r with cb; [lra |].
    unfold Rdiv. rewrite Rmult_assoc, Rinv_l by lra. lra. }
  exists ((q - 1.0) ^ 2).
  split; [| split].
  - unfold discharge_coefficient_to_K. rewrite fdiv_ok by exact HD.
    cbn [bind]. fold X. rewrite fsqrt_ok by lra. cbn [bind].
    fold cb. rewrite fdiv_ok by lra. reflexivity.
  - apply pow_lt. lra.
  - unfold dP_orifice. rewrite fdiv_ok by exact HD. cbn [bind need].
    fold X. rewrite !fsqrt_ok by lra. cbn [bind].
    fold cb. rewrite fdiv_ok by lra. cbn [bind]. f_equal. f_equal.
    rewrite sqrt_pow2 by lra.
    replace (sqrt X) with (q * cb) by (unfold q; field; lra).
    replace 1.0 with 1 by lra.
    field. split; nra.
Qed.

(** X3.  Away from a fully open bore the pressure drop of [dP_orifice] is
    the loss coefficient of [discharge_coefficient_to_K] in disguise: for
    [0 < Do/D <= 0.99] and [0 < C <= 1], with [K] the loss coefficient of the
    same [D], [Do], [C], the drop is [sqrt K / (sqrt K + 2)] of the measured
    differential.  The bounds keep to where both formulas are well
    conditioned: as [Do/D] tends to one, or for a large [C], [K] tends to
    zero through a difference of nearly equal numbers. *)
Theorem dP_orifice_from_K :
  forall D Do C P1 P2 : R,
    0 < Do / D <= 0.99 -> 0 < C <= 1 ->
    exists K : R,
      discharge_coefficient_to_K D Do C = Ok K
      /\ 0 < K
      /\ dP_orifice D Do P1 P2 (Some C)
         = Ok (sqrt K / (sqrt K + 2) * (P1 - P2)).
Proof.
  intros D Do C P1 P2 Hb HC.
  apply dP_orifice_from_K_exact; lra.
Qed.

Lemma dP_orifice_from_K_witness :
  (0 < 0.05 / 0.07366 <= 0.99 /\ 0 < 0.61512 <= 1)
  /\ exists K : R,
       discharge_coefficient_to_K 0.07366 0.05 0.61512 = Ok K
       /\ dP_orifice 0.07366 0.05 200000 183000 (Some 0.61512)
          = Ok (sqrt K / (sqrt K + 2) * (200000 - 183000)).
Proof.
  assert (H1 : 0 < 0.05 / 0.07366 <= 0.99) by lra.
  assert (H2 : 0 < 0.61512 <= 1) by lra.
  split; [split; assumption |].
  destruct (dP_orifice_from_K 0.07366 0.05 0.61512 200000 183000 H1 H2)
    as [K [HK [_ HdP]]].
  exists K. split; assumption.
Defined.

(** In exact arithmetic the conversions are inverse in the other direction
    too, for every positive loss coefficient. *)
Lemma C_round_trip_exact :
  forall D Do K : R,
    0 < Do / D < 1 ->
    0 < K ->
    exists C : R,
      K_to_discharge_coefficient D Do K = Ok C
      /\ 0 < C
      /\ discharge_coefficient_to_K D Do C = Ok K.
Proof.
  intros D Do K Hb HK.
  pose proof (ratio_pos_nonzero _ _ (proj1 Hb)) as HD.
  set (beta := Do / D) in *.
  assert (Hb2 : 0 < beta * beta < 1) by nra.
  assert (Hb4 : 0 < beta * beta * (beta * beta) < 1) by nra.
  set (beta4 := beta * beta * (beta * beta)) in *.
  set (r := sqrt K).
  assert (Hr : 0 < r) by (apply sqrt_lt_R0; exact HK).
  assert (Hrr : r * r = K) by (apply sqrt_sqrt; lra).
  set (w := 2 * r + K).
  assert (Hw : 0 < w) by (unfold w; lra).
  assert (Hcommon : 2.0 * r * beta4 + K * beta4 = beta4 * w)
    by (unfold w; lra).
  assert (Hbw : 0 < beta4 * w) by (apply Rmult_lt_0_compat; lra).
  set (c2 := (1 - beta4) / (beta4 * w)).
  assert (Hc2 : 0 < c2) by (apply Rdiv_lt_0_compat; lra).
  assert (Hc2w : c2 * (beta4 * w) = 1 - beta4).
  { unfold c2, Rdiv. rewrite Rmult_assoc, Rinv_l by lra. lra. }
  set (C := sqrt c2).
  assert (HC : 0 < C) by (apply sqrt_lt_R0; exact Hc2).
  assert (HCC : C * C = c2) by (apply sqrt_sqrt; lra).
  exists C. split; [| split; [exact HC |]].
  - unfold K_to_discharge_coefficient. rewrite fdiv_ok by exact HD.
    cbn [bind]. fold beta beta4.
    rewrite fsqrt_ok by lra. cbn [bind]. fold r.
    rewrite Hcommon. rewrite !fdiv_ok by lra. cbn [bind].
    replace (- beta4 / (beta4 * w) + 1.0 / (beta4 * w)) with c2
      by (unfold c2, Rdiv; lra).
    apply fsqrt_ok. lra.
  - unfold discharge_coefficient_to_K. rewrite fdiv_ok by exact HD.
    cbn [bind]. fold beta beta4.
    set (X := 1.0 - beta4 * (1.0 - C * C)).
    assert (HX : X = (r + 1) * (C * (beta * beta))
                     * ((r + 1) * (C * (beta * beta)))).
    { replace ((r + 1) * (C * (beta * beta)) * ((r + 1) * (C * (beta * beta))))
        with ((r * r + 2 * r + 1) * ((C * C) * beta4))
        by (unfold beta4; ring).
      rewrite Hrr, HCC.
      replace ((K + 2 * r + 1) * (c2 * beta4))
        with (c2 * (beta4 * w) + c2 * beta4) by (unfold w; ring).
      rewrite Hc2w. unfold X. rewrite HCC. lra. }
    assert (Hy : 0 < (r + 1) * (C * (beta * beta))).
    { apply Rmult_lt_0_compat; [lra |]. apply Rmult_lt_0_compat; lra. }
    assert (Hs : sqrt X = (r + 1) * (C * (beta * beta))).
    { apply sqrt_lem_1; [rewrite HX; nra | lra | now rewrite <- HX]. }
    rewrite fsqrt_ok by (rewrite HX; nra). cbn [bind].
    rewrite fdiv_ok by nra. cbn [bind]. f_equal.
    rewrite Hs. replace 1.0 with 1 by lra.
    replace ((r + 1) * (C * (beta * beta)) / (C * (beta * beta)) - 1)
      with r by (field; nra).
    rewrite <- Hrr. ring.
Qed.

(** X4.  The conversions are inverse in the other direction too: for
    [0 < Do/D <= 0.99] and a loss coefficient [K >= 0.01], converting to a
    discharge coefficient and back returns [K].  The bounds keep to where
    the way back is well conditioned: it recovers [sqrt K] as a difference
    from one, which loses a small [K] to rounding. *)
Theorem C_round_trip :
  forall D Do K : R,
    0 < Do / D <= 0.99 ->
    0.01 <= K ->
    exists C : R,
      K_to_discharge_coefficient D Do K = Ok C
      /\ 0 < C
      /\ discharge_coefficient_to_K D Do C = Ok K.
Proof.
  intros D Do K Hb HK.
  apply C_round_trip_exact; lra.
Qed.

Lemma C_round_trip_witness :
  (0 < 0.05 / 0.07366 <= 0.99 /\ 0.01 <= 5.2314291729754)
  /\ exists C : R,
       K_to_discharge_coefficient 0.07366 0.05 5.2314291729754 = Ok C
       /\ 0 < C
       /\ discharge_coefficient_to_K 0.07366 0.05 C = Ok 5.2314291729754.
Proof.
  assert (H1 : 0 < 0.05 / 0.07366 <= 0.99) by lra.
  assert (H2 : 0.01 <= 5.2314291729754) by lra.
  split; [split; assumption |].
  exact (C_round_trip 0.07366 0.05 5.2314291729754 H1 H2).
Defined.

(** ** Velocity of approach and flow coefficient *)

Lemma minus_half_not_integral : frac_part (- 0.5) <> 0.
Proof.
  intros H. destruct (fp_nat _ H) as [c Hc].
  destruct (Z_le_gt_dec c (-1)) as [Hle | Hgt].
  - apply IZR_le in Hle. lra.
  - assert (Hge : (0 <= c)%Z) by lia. apply IZR_le in Hge. lra.
Qed.

Lemma fpow_neg_half_zero : fpow 0 (- 0.5) = Raise ZeroDivisionError.
Proof.
  unfold fpow.
  destruct (Req_dec_T (- 0.5) 0) as [E | _]; [lra |].
  destruct (Rlt_dec 0 0) as [L | _]; [lra |].
  destruct (Req_dec_T 0 0) as [_ | N]; [| now elim N].
  destruct (Rlt_dec (- 0.5) 0) as [_ | N]; [reflexivity | lra].
Qed.

Lemma fpow_neg_half_negative (x : R) : x < 0 -> fpow x (- 0.5) = Complex.
Proof.
  intros Hx. unfold fpow.
  destruct (Req_dec_T (- 0.5) 0) as [E | _]; [lra |].
  destruct (Rlt_dec 0 x) as [L | _]; [lra |].
  destruct (Req_dec_T x 0) as [E | _]; [lra |].
  destruct (Req_dec_T (frac_part (- 0.5)) 0) as [E | _];
    [now apply minus_half_not_integral in E | reflexivity].
Qed.

(** X5.  For a nonzero [D]: while [(Do/D)^4 < 1] the velocity of approach
    factor is [1 / sqrt(1 - (Do/D)^4)], at least [1], and the flow
    coefficient is the discharge coefficient times that factor; at
    [(Do/D)^4 = 1] both functions raise [ZeroDivisionError], and beyond it
    neither returns a real number. *)
Theorem velocity_of_approach_and_flow_coefficient :
  forall D Do C : R,
    D <> 0 ->
    ((Do / D) ^ 4 < 1 ->
     exists E : R,
       velocity_of_approach_factor D Do = Ok E
       /\ E = / sqrt (1 - (Do / D) ^ 4)
       /\ 1 <= E
       /\ flow_coefficient D Do C = Ok (C * E))
    /\ ((Do / D) ^ 4 = 1 ->
        velocity_of_approach_factor D Do = Raise ZeroDivisionError
        /\ flow_coefficient D Do C = Raise ZeroDivisionError)
    /\ (1 < (Do / D) ^ 4 ->
        velocity_of_approach_factor D Do = Complex
        /\ flow_coefficient D Do C = Complex).
Proof.
  intros D Do C HD.
  unfold velocity_of_approach_factor, flow_coefficient.
  rewrite !fdiv_ok by exact HD. cbn [bind].
  replace (1.0 - (Do / D) ^ 4) with (1 - (Do / D) ^ 4) by lra.
  split; [| split].
  - intros Hb.
    assert (Hb0 : 0 <= (Do / D) ^ 4).
    { replace ((Do / D) ^ 4) with ((Do / D) ^ 2 * (Do / D) ^ 2) by ring.
      apply Rmult_le_pos; apply pow2_ge_0. }
    exists (/ sqrt (1 - (Do / D) ^ 4)).
    rewrite fpow_neg_half by lra. cbn [bind].
    repeat split.
    assert (Hs : 0 < sqrt (1 - (Do / D) ^ 4)) by (apply sqrt_lt_R0; lra).
    assert (Hs1 : sqrt (1 - (Do / D) ^ 4) <= sqrt 1)
      by (apply sqrt_le_1; lra).
    rewrite sqrt_1 in Hs1.
    apply Rmult_le_reg_r with (sqrt (1 - (Do / D) ^ 4)); [exact Hs |].
    rewrite Rinv_l by lra. lra.
  - intros Hb. rewrite Hb. replace (1 - 1) with 0 by ring.
    rewrite fpow_neg_half_zero. split; reflexivity.
  - intros Hb. rewrite fpow_neg_half_negative by lra. split; reflexivity.
Qed.

Lemma velocity_of_approach_and_flow_coefficient_witness :
  (0.0739 <> 0 /\ (0.0222 / 0.0739) ^ 4 < 1)
  /\ exists E : R,
       velocity_of_approach_factor 0.0739 0.0222 = Ok E
       /\ 1 <= E
       /\ flow_coefficient 0.0739 0.0222 0.5988 = Ok (0.5988 * E).
Proof.
  assert (H1 : 0.0739 <> 0) by lra.
  assert (H2 : (0.0222 / 0.0739) ^ 4 < 1) by lra.
  split; [split; assumption |].
  destruct (proj1 (velocity_of_approach_and_flow_coefficient 0.0739 0.0222
                     0.5988 H1) H2) as [E [HE [_ [H1E HK]]]].
  exists E. repeat split; assumption.
Defined.

(** X6.  The discharge equation is the bore area times the flow coefficient
    times [sqrt(2 (P1 - P2) rho)] times the expansibility. *)
Theorem orifice_discharge_by_flow_coefficient :
  forall D Do P1 P2 rho C eps : R,
    D <> 0 -> 0 <= 2 * (P1 - P2) * rho -> (Do / D) ^ 4 < 1 ->
    exists Kf : R,
      flow_coefficient D Do C = Ok Kf
      /\ orifice_discharge D (Some Do) (Some P1) (Some P2) rho C eps
         = Ok (pi * Do ^ 2 / 4 * Kf * sqrt (2 * (P1 - P2) * rho) * eps).
Proof.
  intros D Do P1 P2 rho C eps HD Hnum Hb.
  assert (Hs : 0 < sqrt (1 - (Do / D) ^ 4)) by (apply sqrt_lt_R0; lra).
  exists (C * / sqrt (1 - (Do / D) ^ 4)). split.
  - unfold flow_coefficient. rewrite fdiv_ok by exact HD. cbn [bind].
    replace (1.0 - (Do / D) ^ 4) with (1 - (Do / D) ^ 4) by lra.
    rewrite fpow_neg_half by lra. reflexivity.
  - rewrite orifice_discharge_ok by assumption. f_equal.
    unfold Rdiv. ring.
Qed.

Lemma orifice_discharge_by_flow_coefficient_witness :
  (0.0739 <> 0 /\ 0 <= 2 * (1e5 - 9.9e4) * 1.1646
   /\ (0.0222 / 0.0739) ^ 4 < 1)
  /\ exists Kf : R,
       flow_coefficient 0.0739 0.0222 0.5988 = Ok Kf
       /\ orifice_discharge 0.0739 (Some 0.0222) (Some 1e5) (Some 9.9e4)
            1.1646 0.5988 0.9975
          = Ok (pi * 0.0222 ^ 2 / 4 * Kf * sqrt (2 * (1e5 - 9.9e4) * 1.1646)
                * 0.9975).
Proof.
  assert (H1 : 0.0739 <> 0) by lra.
  assert (H2 : 0 <= 2 * (1e5 - 9.9e4) * 1.1646) by lra.
  assert (H3 : (0.0222 / 0.0739) ^ 4 < 1) by lra.
  split; [repeat split; assumption |].
  exact (orifice_discharge_by_flow_coefficient 0.0739 0.0222 1e5 9.9e4 1.1646
           0.5988 0.9975 H1 H2 H3).
Defined.

(** ** The 1989 expansibility *)

Lemma ratio_bounds (x y l u : R) :
  0 < y -> l * y <= x <= u * y -> l <= x / y <= u.
Proof.
  intros Hy [Hl Hu]. split.
  - apply Rmult_le_reg_r with y; [exact Hy |].
    unfold Rdiv. rewrite Rmult_assoc, Rinv_l by lra. lra.
  - apply Rmult_le_reg_r with y; [exact Hy |].
    unfold Rdiv. rewrite Rmult_assoc, Rinv_l by lra. lra.
Qed.

(** X7.  On [0 < Do/D < 1], [k >= 1], [P1 > 0] and [0.75 P1 <= P2 <= P1] the
    1989 expansibility is returned and lies in [[0.81, 1]]; it is [1] when
    [P2 = P1]. *)
Theorem orifice_expansibility_1989_range :
  forall D Do P1 P2 k : R,
    0 < Do / D < 1 ->
    1 <= k ->
    0 < P1 ->
    0.75 * P1 <= P2 <= P1 ->
    exists eps : R,
      orifice_expansibility_1989 D (Some Do) (Some P1) (Some P2) k = Ok eps
      /\ 0.81 <= eps <= 1
      /\ (P2 = P1 -> eps = 1).
Proof.
  intros D Do P1 P2 k Hb Hk HP1 HP2.
  pose proof (ratio_pos_nonzero _ _ (proj1 Hb)) as HD.
  pose proof (pow4_unit _ Hb) as Hb4.
  set (c := 0.41 + 0.35 * (Do / D) ^ 4).
  assert (Hc : 0.41 < c < 0.76) by (unfold c; lra).
  assert (HkP : 0 < k * P1) by (apply Rmult_lt_0_compat; lra).
  assert (Hq : 0 <= c * (P1 - P2) / (k * P1) <= 0.19).
  { apply ratio_bounds; [exact HkP |]. split; nra. }
  exists (1.0 - c * (P1 - P2) / (k * P1)).
  split; [| split].
  - unfold orifice_expansibility_1989. cbn [need bind].
    rewrite (fdiv_ok Do D) by exact HD. cbn [bind].
    fold c. rewrite fdiv_ok by lra. reflexivity.
  - lra.
  - intros ->. replace (c * (P1 - P1) / (k * P1)) with 0
      by (unfold Rdiv; ring). lra.
Qed.

Lemma orifice_expansibility_1989_range_witness :
  (0 < 0.0222 / 0.0739 < 1 /\ 1 <= 1.4 /\ 0 < 1e5
   /\ 0.75 * 1e5 <= 9.9e4 <= 1e5)
  /\ exists eps : R,
       orifice_expansibility_1989 0.0739 (Some 0.0222) (Some 1e5) (Some 9.9e4)
         1.4 = Ok eps
       /\ 0.81 <= eps <= 1.
Proof.
  assert (H1 : 0 < 0.0222 / 0.0739 < 1) by lra.
  assert (H2 : 1 <= 1.4) by lra.
  assert (H3 : 0 < 1e5) by lra.
  assert (H4 : 0.75 * 1e5 <= 9.9e4 <= 1e5) by lra.
  split; [repeat split; lra |].
  destruct (orifice_expansibility_1989_range 0.0739 0.0222 1e5 9.9e4 1.4
              H1 H2 H3 H4) as [eps [He [Hr _]]].
  exists eps. split; assumption.
Defined.

(** ** The cone meter *)

(** X8.  For a nonzero [D] and a cone no wider than the pipe the cone-meter
    diameter ratio is returned, lies in [[0, 1]] and is the complement of
    the blocked ratio: [beta^2 + (Dc/D)^2 = 1]; for a cone wider than the
    pipe there is no real result. *)
Theorem diameter_ratio_cone_meter_complement :
  forall D Dc : R,
    D <> 0 ->
    ((Dc / D) ^ 2 <= 1 ->
     exists beta : R,
       diameter_ratio_cone_meter D (Some Dc) = Ok beta
       /\ 0 <= beta <= 1
       /\ beta ^ 2 + (Dc / D) ^ 2 = 1)
    /\ (1 < (Dc / D) ^ 2 ->
        diameter_ratio_cone_meter D (Some Dc) = Complex).
Proof.
  intros D Dc HD. unfold diameter_ratio_cone_meter. cbn [need bind].
  rewrite fdiv_ok by exact HD. cbn [bind].
  replace (1.0 - Dc / D * (Dc / D)) with (1 - (Dc / D) ^ 2) by lra.
  pose proof (pow2_ge_0 (Dc / D)) as Hsq.
  split.
  - intros Hle. exists (sqrt (1 - (Dc / D) ^ 2)).
    split; [apply fsqrt_ok; lra |]. split.
    + split; [apply sqrt_pos |].
      assert (H1 : sqrt (1 - (Dc / D) ^ 2) <= sqrt 1)
        by (apply sqrt_le_1; lra).
      now rewrite sqrt_1 in H1.
    + replace (sqrt (1 - (Dc / D) ^ 2) ^ 2)
        with (sqrt (1 - (Dc / D) ^ 2) * sqrt (1 - (Dc / D) ^ 2)) by ring.
      rewrite sqrt_sqrt by lra. ring.
  - intros Hgt. apply fsqrt_negative. lra.
Qed.

Lemma diameter_ratio_cone_meter_complement_witness :
  (1 <> 0 /\ (0.7 / 1) ^ 2 <= 1)
  /\ exists beta : R,
       diameter_ratio_cone_meter 1 (Some 0.7) = Ok beta
       /\ beta ^ 2 + (0.7 / 1) ^ 2 = 1.
Proof.
  assert (H1 : 1 <> 0) by lra.
  assert (H2 : (0.7 / 1) ^ 2 <= 1) by lra.
  split; [split; assumption |].
  destruct (proj1 (diameter_ratio_cone_meter_complement 1 0.7 H1) H2)
    as [beta [Hb [_ Hc]]].
  exists beta. split; assumption.
Defined.

Lemma cone_beta_ok (D Dc : R) :
  D <> 0 -> (Dc / D) ^ 2 <= 1 ->
  diameter_ratio_cone_meter D (Some Dc) = Ok (sqrt (1 - (Dc / D) ^ 2))
  /\ 0 <= sqrt (1 - (Dc / D) ^ 2) <= 1.
Proof.
  intros HD Hle. pose proof (pow2_ge_0 (Dc / D)) as Hsq. split.
  - unfold diameter_ratio_cone_meter. cbn [need bind].
    rewrite fdiv_ok by exact HD. cbn [bind].
    replace (1.0 - Dc / D * (Dc / D)) with (1 - (Dc / D) ^ 2) by lra.
    apply fsqrt_ok. lra.
  - split; [apply sqrt_pos |].
    assert (H1 : sqrt (1 - (Dc / D) ^ 2) <= sqrt 1) by (apply sqrt_le_1; lra).
    now rewrite sqrt_1 in H1.
Qed.

Lemma pow4_unit_closed (b : R) : 0 <= b <= 1 -> 0 <= b ^ 4 <= 1.
Proof.
  intros [H0 H1]. assert (H2 : 0 <= b * b <= 1) by nra.
  replace (b ^ 4) with ((b * b) * (b * b)) by ring. nra.
Qed.

(** X9.  For a nonzero [D], a cone no wider than the pipe, [k >= 1],
    [P1 > 0] and [0.75 P1 <= P2 <= P1] the cone-meter expansibility is
    returned and lies in [[0.66, 1]]; it is [1] when [P2 = P1]. *)
Theorem cone_meter_expansibility_range :
  forall D Dc P1 P2 k : R,
    D <> 0 ->
    (Dc / D) ^ 2 <= 1 ->
    1 <= k ->
    0 < P1 ->
    0.75 * P1 <= P2 <= P1 ->
    exists eps : R,
      cone_meter_expansibility_Stewart D (Some Dc) (Some P1) (Some P2) k
        = Ok eps
      /\ 0.66 <= eps <= 1
      /\ (P2 = P1 -> eps = 1).
Proof.
  intros D Dc P1 P2 k HD Hle Hk HP1 HP2.
  destruct (cone_beta_ok D Dc HD Hle) as [Hbeta Hb].
  set (beta := sqrt (1 - (Dc / D) ^ 2)) in *.
  pose proof (pow4_unit_closed beta Hb) as Hb4.
  set (c := 0.649 + 0.696 * beta ^ 4).
  assert (Hc : 0.649 <= c <= 1.345) by (unfold c; lra).
  assert (HkP : 0 < k * P1) by (apply Rmult_lt_0_compat; lra).
  assert (Hq : 0 <= c * (P1 - P2) / (k * P1) <= 0.34).
  { apply ratio_bounds; [exact HkP |]. split; nra. }
  exists (1.0 - c * (P1 - P2) / (k * P1)).
  split; [| split].
  - unfold cone_meter_expansibility_Stewart. cbn [need bind].
    rewrite Hbeta. cbn [bind]. fold c.
    rewrite fdiv_ok by lra. reflexivity.
  - lra.
  - intros ->. replace (c * (P1 - P1) / (k * P1)) with 0
      by (unfold Rdiv; ring). lra.
Qed.

Lemma cone_meter_expansibility_range_witness :
  (1 <> 0 /\ (0.9 / 1) ^ 2 <= 1 /\ 1 <= 1.2 /\ 0 < 1e6
   /\ 0.75 * 1e6 <= 8.5e5 <= 1e6)
  /\ exists eps : R,
       cone_meter_expansibility_Stewart 1 (Some 0.9) (Some 1e6) (Some 8.5e5)
         1.2 = Ok eps
       /\ 0.66 <= eps <= 1.
Proof.
  assert (H1 : 1 <> 0) by lra.
  assert (H2 : (0.9 / 1) ^ 2 <= 1) by lra.
  assert (H3 : 1 <= 1.2) by lra.
  assert (H4 : 0 < 1e6) by lra.
  assert (H5 : 0.75 * 1e6 <= 8.5e5 <= 1e6) by lra.
  split; [repeat split; lra |].
  destruct (cone_meter_expansibility_range 1 0.9 1e6 8.5e5 1.2 H1 H2 H3 H4 H5)
    as [eps [He [Hr _]]].
  exists eps. split; assumption.
Defined.

(** X10.  For a nonzero [D], a cone no wider than the pipe and [P2 <= P1]
    the cone-meter pressure drop is returned and lies between [0.277] and
    [1.09] times the measured differential.  It can exceed the differential
    itself: it does for every cone that leaves [(Dc/D)^2 >= 0.9878], the
    cone as wide as the pipe among them, where it is [1.09] times the
    differential. *)
Theorem dP_cone_meter_bounds :
  forall D Dc P1 P2 : R,
    D <> 0 ->
    (Dc / D) ^ 2 <= 1 ->
    P2 <= P1 ->
    exists dw : R,
      dP_cone_meter D Dc P1 P2 = Ok dw
      /\ 0.277 * (P1 - P2) <= dw <= 1.09 * (P1 - P2)
      /\ (0.9878 <= (Dc / D) ^ 2 -> P2 < P1 -> P1 - P2 < dw)
      /\ (Dc = D -> dw = 1.09 * (P1 - P2)).
Proof.
  intros D Dc P1 P2 HD Hle HP.
  destruct (cone_beta_ok D Dc HD Hle) as [Hbeta Hb].
  assert (Hbb : sqrt (1 - (Dc / D) ^ 2) * sqrt (1 - (Dc / D) ^ 2)
                = 1 - (Dc / D) ^ 2) by (apply sqrt_sqrt; lra).
  assert (Hfull : Dc = D -> sqrt (1 - (Dc / D) ^ 2) = 0).
  { intros ->. replace (1 - (D / D) ^ 2) with 0 by (field; exact HD).
    apply sqrt_0. }
  set (beta := sqrt (1 - (Dc / D) ^ 2)) in *.
  exists ((1.09 - 0.813 * beta) * (P1 - P2)). split; [| split; [| split]].
  - unfold dP_cone_meter. rewrite Hbeta. reflexivity.
  - split; nra.
  - intros Hwide Hlt.
    assert (Hsmall : beta < 0.1106) by nra.
    nra.
  - intros E. rewrite (Hfull E). lra.
Qed.

Lemma dP_cone_meter_bounds_witness :
  (1 <> 0 /\ (0.7 / 1) ^ 2 <= 1 /\ 9.5e5 <= 1e6)
  /\ exists dw : R,
       dP_cone_meter 1 0.7 1e6 9.5e5 = Ok dw
       /\ 0.277 * (1e6 - 9.5e5) <= dw <= 1.09 * (1e6 - 9.5e5).
Proof.
  assert (H1 : 1 <> 0) by lra.
  assert (H2 : (0.7 / 1) ^ 2 <= 1) by lra.
  assert (H3 : 9.5e5 <= 1e6) by lra.
  split; [repeat split; assumption |].
  destruct (dP_cone_meter_bounds 1 0.7 1e6 9.5e5 H1 H2 H3)
    as [dw [Hdw [Hr _]]].
  exists dw. split; assumption.
Defined.

(** ** The venturi tube loss ratio *)

(** An interpolant through increasing sample points stays within any bounds
    that hold for the sample values. *)
Lemma interp_from_bounded (x lo hi : R) (pts : list (R * R)) :
  Forall (fun p => lo <= snd p <= hi) pts ->
  forall x0 y0,
    increasing (x0 :: map fst pts) ->
    x0 <= x ->
    lo <= y0 <= hi ->
    lo <= interp_from x x0 y0 pts <= hi.
Proof.
  induction 1 as [| [x1 y1] rest Hy1 _ IH]; intros x0 y0 Hinc Hx Hy0;
    [exact Hy0 |].
  cbn [interp_from]. cbn [snd] in Hy1.
  assert (Hx01 : x0 < x1) by (apply (increasing_head_lt _ _ Hinc); now left).
  destruct (Rlt_dec x x1) as [L | N].
  - set (t := (x - x0) / (x1 - x0)).
    assert (Ht : 0 <= t <= 1) by (apply ratio_bounds; lra).
    replace ((y1 - y0) / (x1 - x0) * (x - x0) + y0) with (y0 + t * (y1 - y0))
      by (unfold t; field; lra).
    split; nra.
  - apply IH; [exact (increasing_tail _ _ Hinc) | lra | exact Hy1].
Qed.

Lemma interp_bounded (x lo hi x0 y0 : R) (xp fp : list R) :
  length xp = length fp ->
  increasing (x0 :: xp) ->
  Forall (fun y => lo <= y <= hi) (y0 :: fp) ->
  exists v : R, interp x (x0 :: xp) (y0 :: fp) = Ok v /\ lo <= v <= hi.
Proof.
  intros Hlen Hinc Hall. rewrite interp_cons by exact Hlen.
  inversion Hall as [| ? ? Hy0 Hfp]; subst.
  eexists. split; [reflexivity |].
  destruct (Rlt_dec x x0) as [L | N]; [exact Hy0 |].
  apply interp_from_bounded.
  - clear - Hlen Hfp. revert fp Hlen Hfp.
    induction xp as [| a xp IH]; intros [| b fp] Hlen Hfp;
      try discriminate Hlen; [constructor |].
    inversion Hfp; subst. cbn [combine]. constructor; [assumption |].
    apply IH; [now injection Hlen | assumption].
  - now rewrite map_fst_combine.
  - lra.
  - exact Hy0.
Qed.

Lemma venturi_high_bounded (beta : R) :
  exists v : R,
    interp beta venturi_tube_betas venturi_tube_dP_high = Ok v
    /\ 0.087648 <= v <= 0.164534.
Proof.
  unfold venturi_tube_betas at 1, venturi_tube_dP_high.
  apply interp_bounded; [reflexivity | exact venturi_tube_betas_increasing |].
  repeat (constructor; [lra |]). constructor.
Qed.

Lemma venturi_low_bounded (beta : R) :
  exists v : R,
    interp beta venturi_tube_betas venturi_tube_dP_low = Ok v
    /\ 0.039896 <= v <= 0.089232.
Proof.
  unfold venturi_tube_betas at 1, venturi_tube_dP_low.
  apply interp_bounded; [reflexivity | exact venturi_tube_betas_increasing |].
  repeat (constructor; [lra |]). constructor.
Qed.

(** X11.  For every nonzero [D] and every [Do] the venturi-tube pressure
    drop is returned, and for [P2 <= P1] it lies between [0.039896] and
    [0.164534] times the measured differential, the extreme entries of the
    two loss tables. *)
Theorem dP_venturi_tube_bounds :
  forall D Do P1 P2 : R,
    D <> 0 ->
    P2 <= P1 ->
    exists dw : R,
      dP_venturi_tube D Do P1 P2 = Ok dw
      /\ 0.039896 * (P1 - P2) <= dw <= 0.164534 * (P1 - P2).
Proof.
  intros D Do P1 P2 HD HP.
  destruct (venturi_high_bounded (Do / D)) as [e65 [E65 H65]].
  destruct (venturi_low_bounded (Do / D)) as [e500 [E500 H500]].
  assert (HDs : exists eps,
             interp D D_bound_venturi_tube [e65; e500] = Ok eps
             /\ 0.039896 <= eps <= 0.164534).
  { unfold D_bound_venturi_tube. apply interp_bounded.
    - reflexivity.
    - cbn. lra.
    - repeat (constructor; [lra |]). constructor. }
  destruct HDs as [eps [Eeps Heps]].
  exists (eps * (P1 - P2)). split.
  - unfold dP_venturi_tube. rewrite fdiv_ok by exact HD. cbn [bind].
    rewrite E65, E500. cbn [bind]. rewrite Eeps. reflexivity.
  - split; nra.
Qed.

Lemma dP_venturi_tube_bounds_witness :
  (0.07366 <> 0 /\ 183000 <= 200000)
  /\ exists dw : R,
       dP_venturi_tube 0.07366 0.05 200000 183000 = Ok dw
       /\ 0.039896 * (200000 - 183000) <= dw <= 0.164534 * (200000 - 183000).
Proof.
  assert (H1 : 0.07366 <> 0) by lra.
  assert (H2 : 183000 <= 200000) by lra.
  split; [split; assumption |].
  exact (dP_venturi_tube_bounds 0.07366 0.05 200000 183000 H1 H2).
Defined.

(** ** The wedge meter as a circular segment *)

Lemma sin_cos_product_diff (a b : R) :
  sin b * cos b - sin a * cos a = sin (b - a) * cos (a + b).
Proof.
  rewrite sin_minus, cos_plus.
  pose proof (sin2_cos2 a) as Ha. pose proof (sin2_cos2 b) as Hb.
  unfold Rsqr in Ha, Hb.
  replace ((sin b * cos a - cos b * sin a) * (cos a * cos b - sin a * sin b))
    with (sin b * cos b * (sin a * sin a + cos a * cos a)
          - sin a * cos a * (sin b * sin b + cos b * cos b)) by ring.
  rewrite Ha, Hb. ring.
Qed.

(** [theta - sin theta cos theta], twice the area of the unit-circle segment
    of half-angle [theta], grows with [theta] on [[0, PI]]. *)
Lemma segment_area_increasing (a b : R) :
  0 <= a -> a < b -> b <= PI ->
  a - sin a * cos a < b - sin b * cos b.
Proof.
  intros Ha Hab Hb.
  pose proof (sin_cos_product_diff a b) as Hd.
  assert (Hdelta : 0 < b - a <= PI) by lra.
  pose proof (sin_lt_x (b - a) (proj1 Hdelta)) as Hsin.
  assert (Hs0 : 0 <= sin (b - a)) by (apply sin_ge_0; lra).
  pose proof (COS_bound (a + b)) as [_ Hc].
  assert (Hprod : sin (b - a) * cos (a + b) <= sin (b - a)) by nra.
  lra.
Qed.

Lemma segment_area_range (a : R) :
  0 <= a <= PI -> 0 <= a - sin a * cos a <= PI.
Proof.
  intros [H0 H1]. pose proof PI_RGT_0 as Hpi. split.
  - destruct H0 as [H0 | <-].
    + pose proof (segment_area_increasing 0 a (Rle_refl 0) H0 H1) as H.
      rewrite sin_0 in H. lra.
    + rewrite sin_0. lra.
  - destruct H1 as [H1 | ->].
    + pose proof (segment_area_increasing a PI H0 H1 (Rle_refl PI)) as H.
      rewrite sin_PI in H. lra.
    + rewrite sin_PI. lra.
Qed.

Lemma acos_decreasing (x y : R) :
  -1 <= x -> x < y -> y <= 1 -> acos y < acos x.
Proof.
  intros Hx Hxy Hy. apply Rnot_le_lt. intros Hle.
  pose proof (acos_bound x) as [Hx0 HxP].
  pose proof (acos_bound y) as [Hy0 HyP].
  pose proof (cos_decr_1 (acos x) (acos y) Hx0 HxP Hy0 HyP Hle) as Hc.
  rewrite !cos_acos in Hc by lra. lra.
Qed.

(** The value of [diameter_ratio_wedge_meter] in terms of the half-angle
    [theta = acos(1 - 2 H/D)] of the segment. *)
Lemma wedge_beta_ok (D H : R) :
  D <> 0 -> 0 <= H / D <= 1 ->
  let theta := acos (1 - 2 * (H / D)) in
  diameter_ratio_wedge_meter D (Some H)
  = Ok (sqrt ((theta - sin theta * cos theta) / PI))
  /\ 0 <= theta <= PI.
Proof.
  intros HD Hh theta.
  set (h := H / D) in *.
  assert (Ht0 : -1 <= 1 - 2 * h <= 1) by lra.
  pose proof (acos_bound (1 - 2 * h)) as Hth. fold theta in Hth.
  pose proof (cos_acos (1 - 2 * h) Ht0) as Hcos. fold theta in Hcos.
  pose proof (sin_acos (1 - 2 * h) Ht0) as Hsin. fold theta in Hsin.
  unfold Rsqr in Hsin.
  assert (Hrad : 0 <= 1 - (1 - 2 * h) * (1 - 2 * h)) by nra.
  assert (Hs3 : sqrt (h - h * h) = sin theta / 2).
  { apply sqrt_lem_1.
    - nra.
    - rewrite Hsin. pose proof (sqrt_pos (1 - (1 - 2 * h) * (1 - 2 * h))). lra.
    - rewrite Hsin.
      replace (sqrt (1 - (1 - 2 * h) * (1 - 2 * h)) / 2
               * (sqrt (1 - (1 - 2 * h) * (1 - 2 * h)) / 2))
        with (sqrt (1 - (1 - 2 * h) * (1 - 2 * h))
              * sqrt (1 - (1 - 2 * h) * (1 - 2 * h)) / 4) by field.
      rewrite sqrt_sqrt by exact Hrad. field. }
  pose proof (segment_area_range theta Hth) as [Ha0 _].
  pose proof pi_pos as Hpi. unfold pi in Hpi.
  split; [| exact Hth].
  unfold diameter_ratio_wedge_meter. cbn [need bind].
  rewrite fdiv_ok by exact HD. cbn [bind]. fold h.
  replace (1.0 - 2.0 * h) with (1 - 2 * h) by lra.
  rewrite py_acos_ok by exact Ht0. cbn [bind]. fold theta.
  rewrite fsqrt_ok by nra. cbn [bind].
  rewrite (fdiv_ok 1 pi) by (unfold pi; lra). cbn [bind].
  rewrite Hs3.
  replace (1 / pi * (theta - 2.0 * (1 - 2 * h) * (sin theta / 2)))
    with ((theta - sin theta * cos theta) / PI)
    by (rewrite Hcos; unfold pi, Rdiv; lra).
  apply fsqrt_ok.
  apply Rmult_le_pos; [exact Ha0 |]. left. now apply Rinv_0_lt_compat.
Qed.

Lemma py_acos_outside (x : R) : x < -1 \/ 1 < x -> py_acos x = Raise ValueError.
Proof.
  intros Hx. unfold py_acos.
  destruct (Rle_dec (-1) x) as [H1 | _]; [| reflexivity].
  destruct (Rle_dec x 1) as [H2 | _]; [lra | reflexivity].
Qed.

Lemma acos_minus_1 : acos (-1) = PI.
Proof.
  unfold acos. destruct (Rle_dec (-1) (-1)) as [_ | N]; [reflexivity | lra].
Qed.

(** In exact arithmetic the wedge diameter ratio exists exactly for a height
    between none and all of the diameter. *)
Lemma wedge_meter_domain_exact :
  forall D H : R,
    D <> 0 ->
    (0 <= H / D <= 1 ->
     exists beta C : R,
       diameter_ratio_wedge_meter D (Some H) = Ok beta
       /\ 0 <= beta <= 1
       /\ (H = 0 -> beta = 0)
       /\ (H = D -> beta = 1)
       /\ C_wedge_meter_Miller D (Some H) = Ok C
       /\ 0.5433 <= C <= 1.3323)
    /\ (H / D < 0 \/ 1 < H / D ->
        diameter_ratio_wedge_meter D (Some H) = Raise ValueError
        /\ C_wedge_meter_Miller D (Some H) = Raise ValueError).
Proof.
  intros D H HD. split.
  - intros Hh.
    destruct (wedge_beta_ok D H HD Hh) as [Hbeta Hth].
    set (theta := acos (1 - 2 * (H / D))) in *.
    pose proof (segment_area_range theta Hth) as Ha.
    pose proof PI_RGT_0 as Hpi.
    set (a := (theta - sin theta * cos theta) / PI) in *.
    assert (Ha01 : 0 <= a <= 1) by (apply ratio_bounds; lra).
    assert (Hb : 0 <= sqrt a <= 1).
    { split; [apply sqrt_pos |].
      assert (H1 : sqrt a <= sqrt 1) by (apply sqrt_le_1; lra).
      now rewrite sqrt_1 in H1. }
    assert (Hbb : sqrt a * sqrt a = a) by (apply sqrt_sqrt; lra).
    exists (sqrt a).
    pose proof (C_wedge_meter_Miller_bands D (Some H) (sqrt a) Hbeta) as HC.
    eexists. split; [exact Hbeta |]. split; [exact Hb |].
    split; [| split; [| split; [exact HC |]]].
    + intros ->. unfold a, theta.
      replace (1 - 2 * (0 / D)) with 1 by (unfold Rdiv; ring).
      rewrite acos_1, sin_0.
      replace ((0 - 0 * cos 0) / PI) with 0 by (unfold Rdiv; ring).
      apply sqrt_0.
    + intros ->. unfold a, theta.
      replace (1 - 2 * (D / D)) with (-1) by (field; exact HD).
      rewrite acos_minus_1, sin_PI.
      replace ((PI - 0 * cos PI) / PI) with 1 by (field; lra).
      apply sqrt_1.
    + rewrite Hbb.
      destruct (Rle_dec D (0.7 * 0.0254)); [lra |].
      destruct (Rle_dec D (1.4 * 0.0254)); lra.
  - intros Hout.
    assert (Hd : diameter_ratio_wedge_meter D (Some H) = Raise ValueError).
    { unfold diameter_ratio_wedge_meter. cbn [need bind].
      rewrite fdiv_ok by exact HD. cbn [bind].
      rewrite py_acos_outside by (destruct Hout; [right | left]; lra).
      reflexivity. }
    split; [exact Hd |].
    unfold C_wedge_meter_Miller. now rewrite Hd.
Qed.


(** In exact arithmetic the wedge diameter ratio grows strictly with [H/D]
    over the whole of [[0, 1]]. *)
Lemma wedge_meter_monotone_exact :
  forall D H1 H2 : R,
    D <> 0 ->
    0 <= H1 / D ->
    H1 / D < H2 / D ->
    H2 / D <= 1 ->
    exists beta1 beta2 C1 C2 : R,
      diameter_ratio_wedge_meter D (Some H1) = Ok beta1
      /\ diameter_ratio_wedge_meter D (Some H2) = Ok beta2
      /\ beta1 < beta2
      /\ C_wedge_meter_Miller D (Some H1) = Ok C1
      /\ C_wedge_meter_Miller D (Some H2) = Ok C2
      /\ C2 < C1.
Proof.
  intros D H1 H2 HD Hlo Hlt Hhi.
  destruct (wedge_beta_ok D H1 HD ltac:(lra)) as [Hb1 Hth1].
  destruct (wedge_beta_ok D H2 HD ltac:(lra)) as [Hb2 Hth2].
  set (th1 := acos (1 - 2 * (H1 / D))) in *.
  set (th2 := acos (1 - 2 * (H2 / D))) in *.
  assert (Hth : th1 < th2) by (apply acos_decreasing; lra).
  pose proof (segment_area_increasing th1 th2 (proj1 Hth1) Hth (proj2 Hth2))
    as Harea.
  pose proof (segment_area_range th1 Hth1) as Ha1.
  pose proof PI_RGT_0 as Hpi.
  set (a1 := (th1 - sin th1 * cos th1) / PI) in *.
  set (a2 := (th2 - sin th2 * cos th2) / PI) in *.
  assert (Ha10 : 0 <= a1) by (apply ratio_bounds with (u := 1); lra).
  assert (Ha12 : a1 < a2).
  { unfold a1, a2, Rdiv. apply Rmult_lt_compat_r; [| exact Harea].
    now apply Rinv_0_lt_compat. }
  assert (Hs : sqrt a1 < sqrt a2) by (apply sqrt_lt_1; lra).
  assert (Hs1 : sqrt a1 * sqrt a1 = a1) by (apply sqrt_sqrt; lra).
  assert (Hs2 : sqrt a2 * sqrt a2 = a2) by (apply sqrt_sqrt; lra).
  pose proof (C_wedge_meter_Miller_bands D (Some H1) (sqrt a1) Hb1) as HC1.
  pose proof (C_wedge_meter_Miller_bands D (Some H2) (sqrt a2) Hb2) as HC2.
  exists (sqrt a1), (sqrt a2). eexists. eexists.
  split; [exact Hb1 |]. split; [exact Hb2 |]. split; [exact Hs |].
  split; [exact HC1 |]. split; [exact HC2 |].
  rewrite Hs1, Hs2.
  destruct (Rle_dec D (0.7 * 0.0254)); [lra |].
  destruct (Rle_dec D (1.4 * 0.0254)); lra.
Qed.


(** X13.  For a nonzero [D] the wedge diameter ratio grows strictly with
    [H/D] between [0.001] and [0.999], and within one band of pipe sizes the
    Miller coefficient falls as it grows.  (Closer to the ends the segment
    area is a difference of nearly equal numbers, which the program loses to
    rounding.) *)
Theorem wedge_meter_monotone :
  forall D H1 H2 : R,
    D <> 0 ->
    0.001 <= H1 / D ->
    H1 / D < H2 / D ->
    H2 / D <= 0.999 ->
    exists beta1 beta2 C1 C2 : R,
      diameter_ratio_wedge_meter D (Some H1) = Ok beta1
      /\ diameter_ratio_wedge_meter D (Some H2) = Ok beta2
      /\ beta1 < beta2
      /\ C_wedge_meter_Miller D (Some H1) = Ok C1
      /\ C_wedge_meter_Miller D (Some H2) = Ok C2
      /\ C2 < C1.
Proof.
  intros D H1 H2 HD Hlo Hlt Hhi.
  apply wedge_meter_monotone_exact; [exact HD | lra | exact Hlt | lra].
Qed.

Lemma wedge_meter_monotone_witness :
  (0.2027 <> 0 /\ 0.001 <= 0.0608 / 0.2027
   /\ 0.0608 / 0.2027 < 0.1 / 0.2027 /\ 0.1 / 0.2027 <= 0.999)
  /\ exists beta1 beta2 : R,
       diameter_ratio_wedge_meter 0.2027 (Some 0.0608) = Ok beta1
       /\ diameter_ratio_wedge_meter 0.2027 (Some 0.1) = Ok beta2
       /\ beta1 < beta2.
Proof.
  assert (H1 : 0.2027 <> 0) by lra.
  assert (H2 : 0.001 <= 0.0608 / 0.2027) by lra.
  assert (H3 : 0.0608 / 0.2027 < 0.1 / 0.2027) by lra.
  assert (H4 : 0.1 / 0.2027 <= 0.999) by lra.
  split; [repeat split; assumption |].
  destruct (wedge_meter_monotone 0.2027 0.0608 0.1 H1 H2 H3 H4)
    as [b1 [b2 [_ [_ [Hb1 [Hb2 [Hlt _]]]]]]].
  exists b1, b2. repeat split; assumption.
Defined.

(** X12.  For a nonzero [D]: for [0.001 <= H/D <= 0.999] the wedge diameter
    ratio is returned and lies strictly between [0] and [1], and the Miller
    coefficient is returned with it, between [0.5433] and [1.3323]; the
    ratio is [0] at [H = 0] and [1] at [H = D]; for [H/D] above [1] both
    functions raise the [ValueError] of [acos], and for [H/D] below [0]
    neither returns a number. *)
Theorem wedge_meter_domain :
  forall D H : R,
    D <> 0 ->
    (0.001 <= H / D <= 0.999 ->
     exists beta C : R,
       diameter_ratio_wedge_meter D (Some H) = Ok beta
       /\ 0 < beta < 1
       /\ C_wedge_meter_Miller D (Some H) = Ok C
       /\ 0.5433 <= C <= 1.3323)
    /\ diameter_ratio_wedge_meter D (Some 0) = Ok 0
    /\ diameter_ratio_wedge_meter D (Some D) = Ok 1
    /\ (1 < H / D ->
        diameter_ratio_wedge_meter D (Some H) = Raise ValueError
        /\ C_wedge_meter_Miller D (Some H) = Raise ValueError)
    /\ (H / D < 0 ->
        forall v : R,
          diameter_ratio_wedge_meter D (Some H) <> Ok v
          /\ C_wedge_meter_Miller D (Some H) <> Ok v).
Proof.
  intros D H HD.
  assert (H0D : 0 / D = 0) by (unfold Rdiv; ring).
  assert (HDD : D / D = 1) by (field; exact HD).
  assert (Hzero : diameter_ratio_wedge_meter D (Some 0) = Ok 0).
  { destruct (proj1 (wedge_meter_domain_exact D 0 HD) ltac:(lra))
      as [b [C [Hb [_ [Hb0 _]]]]].
    now rewrite Hb, (Hb0 eq_refl). }
  assert (Hone : diameter_ratio_wedge_meter D (Some D) = Ok 1).
  { destruct (proj1 (wedge_meter_domain_exact D D HD) ltac:(lra))
      as [b [C [Hb [_ [_ [Hb1 _]]]]]].
    now rewrite Hb, (Hb1 eq_refl). }
  split; [| split; [exact Hzero | split; [exact Hone | split]]].
  - intros Hh.
    destruct (proj1 (wedge_meter_domain_exact D H HD) ltac:(lra))
      as [b [C [Hb [_ [_ [_ [HC HCr]]]]]]].
    exists b, C. split; [exact Hb |]. split; [| split; assumption].
    destruct (wedge_meter_monotone_exact D 0 H HD ltac:(lra) ltac:(lra)
                ltac:(lra)) as [b1 [b2 [_ [_ [E1 [E2 [Hlt _]]]]]]].
    destruct (wedge_meter_monotone_exact D H D HD ltac:(lra) ltac:(lra)
                ltac:(lra)) as [b3 [b4 [_ [_ [E3 [E4 [Hlt' _]]]]]]].
    rewrite Hzero in E1. rewrite Hb in E2, E3. rewrite Hone in E4.
    injection E1 as <-. injection E2 as <-. injection E3 as <-.
    injection E4 as <-. lra.
  - intros Hout.
    exact (proj2 (wedge_meter_domain_exact D H HD) (or_intror Hout)).
  - intros Hout v.
    destruct (proj2 (wedge_meter_domain_exact D H HD) (or_introl Hout))
      as [E1 E2].
    rewrite E1, E2. split; discriminate.
Qed.

Lemma wedge_meter_domain_witness :
  (0.2027 <> 0 /\ 0.001 <= 0.0608 / 0.2027 <= 0.999)
  /\ exists beta C : R,
       diameter_ratio_wedge_meter 0.2027 (Some 0.0608) = Ok beta
       /\ 0 < beta < 1
       /\ C_wedge_meter_Miller 0.2027 (Some 0.0608) = Ok C
       /\ 0.5433 <= C <= 1.3323.
Proof.
  assert (H1 : 0.2027 <> 0) by lra.
  assert (H2 : 0.001 <= 0.0608 / 0.2027 <= 0.999) by lra.
  split; [split; assumption |].
  exact (proj1 (wedge_meter_domain 0.2027 0.0608 H1) H2).
Defined.

(** ** The pipe Reynolds number *)

Lemma Reynolds_rho_irrelevant {A : Type} (D rho rho' mu m : R)
    (k : R -> result A) :
  rho <> 0 -> rho' <> 0 ->
  (v <- fdiv m (pi / 4 * D * D * rho) ;;
   Re_D <- fdiv (rho * v * D) mu ;; k Re_D)
  = (v <- fdiv m (pi / 4 * D * D * rho') ;;
     Re_D <- fdiv (rho' * v * D) mu ;; k Re_D).
Proof.
  intros Hr Hr'.
  destruct (Req_dec_T D 0) as [-> | HD].
  - replace (pi / 4 * 0 * 0 * rho) with 0 by ring.
    replace (pi / 4 * 0 * 0 * rho') with 0 by ring.
    now rewrite fdiv_zero.
  - pose proof (pipe_area_nonzero D rho HD Hr) as HA.
    pose proof (pipe_area_nonzero D rho' HD Hr') as HA'.
    rewrite !(fdiv_ok m) by assumption. cbn [bind].
    destruct (Req_dec_T mu 0) as [-> | Hmu].
    + now rewrite !fdiv_zero.
    + rewrite !(fdiv_ok _ mu) by exact Hmu. cbn [bind]. f_equal.
      pose proof pi_pos. field. repeat split; lra.
Qed.

Lemma pipe_Reynolds_value (D rho mu m : R) :
  D <> 0 -> rho <> 0 -> mu <> 0 ->
  pipe_Reynolds D rho mu m = Ok (4 * m / (pi * D * mu)).
Proof.
  intros HD Hr Hmu. unfold pipe_Reynolds.
  rewrite (fdiv_ok m) by (apply pipe_area_nonzero; assumption). cbn [bind].
  rewrite fdiv_ok by exact Hmu. f_equal.
  pose proof pi_pos. field. repeat split; lra.
Qed.

Lemma pipe_Reynolds_rho_irrelevant (D rho rho' mu m : R) :
  rho <> 0 -> rho' <> 0 ->
  pipe_Reynolds D rho mu m = pipe_Reynolds D rho' mu m.
Proof.
  intros Hr Hr'. unfold pipe_Reynolds.
  rewrite <- (bind_ret (v <- fdiv m (pi / 4 * D * D * rho) ;;
                        fdiv (rho * v * D) mu)).
  rewrite <- (bind_ret (v <- fdiv m (pi / 4 * D * D * rho') ;;
                        fdiv (rho' * v * D) mu)).
  pose proof (Reynolds_rho_irrelevant D rho rho' mu m (fun x => Ok x) Hr Hr')
    as H.
  destruct (fdiv m (pi / 4 * D * D * rho)) as [v | e |];
    destruct (fdiv m (pi / 4 * D * D * rho')) as [v' | e' |];
    cbn [bind] in *; exact H.
Qed.

(** X14.  The Reynolds number the coefficient functions compute is
    [4 m / (pi D mu)]: the density cancels, so for any two nonzero densities
    the Reader-Harris/Gallagher, long radius nozzle and ISA 1932 nozzle
    coefficients are the same, failures included. *)
Theorem discharge_coefficients_ignore_density :
  forall (D : R) (Do : option R) (rho rho' mu m : R) (taps : option string),
    rho <> 0 -> rho' <> 0 ->
    C_Reader_Harris_Gallagher D Do rho mu m taps
      = C_Reader_Harris_Gallagher D Do rho' mu m taps
    /\ C_long_radius_nozzle D Do rho mu m = C_long_radius_nozzle D Do rho' mu m
    /\ C_ISA_1932_nozzle D Do rho mu m = C_ISA_1932_nozzle D Do rho' mu m
    /\ (D <> 0 -> mu <> 0 ->
        pipe_Reynolds D rho mu m = Ok (4 * m / (pi * D * mu))).
Proof.
  intros D Do rho rho' mu m taps Hr Hr'.
  split; [| split; [| split]].
  - unfold C_Reader_Harris_Gallagher.
    apply Reynolds_rho_irrelevant; assumption.
  - unfold C_long_radius_nozzle.
    now rewrite (pipe_Reynolds_rho_irrelevant D rho rho').
  - unfold C_ISA_1932_nozzle.
    now rewrite (pipe_Reynolds_rho_irrelevant D rho rho').
  - intros HD Hmu. now apply pipe_Reynolds_value.
Qed.

Lemma discharge_coefficients_ignore_density_witness :
  (1.165 <> 0 /\ 999.1 <> 0)
  /\ C_Reader_Harris_Gallagher 0.07391 (Some 0.0222) 1.165 1.85e-5 0.12
       (Some "flange"%string)
     = C_Reader_Harris_Gallagher 0.07391 (Some 0.0222) 999.1 1.85e-5 0.12
         (Some "flange"%string).
Proof.
  assert (H1 : 1.165 <> 0) by lra.
  assert (H2 : 999.1 <> 0) by lra.
  split; [split; assumption |].
  exact (proj1 (discharge_coefficients_ignore_density 0.07391 (Some 0.0222)
                  1.165 999.1 1.85e-5 0.12 (Some "flange"%string) H1 H2)).
Defined.

(** ** The nozzle expansibility at its singular points *)

Lemma fpow_one_base (y : R) : fpow 1 y = Ok 1.
Proof.
  rewrite fpow_pos by lra. now rewrite Rpower_one_base.
Qed.

Lemma frac_part_two : frac_part 2 = 0.
Proof.
  unfold frac_part.
  rewrite <- (Int_part_spec 2 2) by (split; lra). lra.
Qed.

(** [x ** 2.0] is defined for every base. *)
Lemma fpow_two (x : R) : exists p : R, fpow x 2 = Ok p.
Proof.
  unfold fpow.
  destruct (Req_dec_T 2 0) as [E | _]; [lra |].
  destruct (Rlt_dec 0 x); [eexists; reflexivity |].
  destruct (Req_dec_T x 0).
  - destruct (Rlt_dec 2 0); [lra | eexists; reflexivity].
  - rewrite frac_part_two.
    destruct (Req_dec_T 0 0) as [_ | N]; [eexists; reflexivity | now elim N].
Qed.

Ltac fdiv_cases y :=
  let E := fresh "E" in
  let N := fresh "N" in
  destruct (Req_dec_T y 0) as [E | N];
  [ rewrite E; rewrite fdiv_zero; reflexivity
  | rewrite (fdiv_ok _ y N); cbn [bind] ].

Lemma nozzle_expansibility_singular_lemma :
  forall D Do P1 k : R,
    nozzle_expansibility D (Some Do) (Some P1) (Some P1) k
      = Raise ZeroDivisionError
    /\ forall P2 : R,
         nozzle_expansibility D (Some Do) (Some P1) (Some P2) 1
         = Raise ZeroDivisionError.
Proof.
  intros D Do P1 k. split; [| intros P2].
  - unfold nozzle_expansibility. cbn [need bind].
    fdiv_cases D. fdiv_cases P1.
    replace (P1 / P1) with 1 by (field; assumption).
    fdiv_cases k. rewrite !fpow_one_base. cbn [bind].
    destruct (Req_dec_T (k - 1.0) 0) as [Ek | Nk].
    { rewrite Ek, fdiv_zero. reflexivity. }
    rewrite (fdiv_ok _ (k - 1.0) Nk). cbn [bind].
    set (b4 := Do / D * (Do / D) * (Do / D * (Do / D))).
    destruct (Req_dec_T (1.0 - b4 * 1) 0) as [Eb | Nb].
    { rewrite Eb, fdiv_zero. reflexivity. }
    rewrite (fdiv_ok _ (1.0 - b4 * 1) Nb). cbn [bind].
    rewrite (fdiv_ok (k - 1.0) k) by assumption. cbn [bind].
    rewrite fpow_one_base. cbn [bind].
    replace (1.0 - 1) with 0 by lra.
    now rewrite fdiv_zero.
  - unfold nozzle_expansibility. cbn [need bind].
    fdiv_cases D. fdiv_cases P1.
    rewrite (fdiv_ok 2.0 1) by lra. cbn [bind].
    replace (2.0 / 1) with 2 by lra.
    destruct (fpow_two (P2 / P1)) as [p Hp]. rewrite Hp. cbn [bind].
    replace (1 - 1.0) with 0 by lra.
    now rewrite fdiv_zero.
Qed.

(** X15.  The nozzle expansibility has no value at zero differential
    pressure nor at an isentropic exponent of one: with [P2 = P1], and with
    [k = 1], it raises [ZeroDivisionError] whatever the other arguments
    are. *)
Theorem nozzle_expansibility_singular :
  forall D Do P1 P2 k : R,
    nozzle_expansibility D (Some Do) (Some P1) (Some P1) k
      = Raise ZeroDivisionError
    /\ nozzle_expansibility D (Some Do) (Some P1) (Some P2) 1
       = Raise ZeroDivisionError.
Proof.
  intros D Do P1 P2 k. split.
  - exact (proj1 (nozzle_expansibility_singular_lemma D Do P1 k)).
  - exact (proj2 (nozzle_expansibility_singular_lemma D Do P1 k) P2).
Qed.

(** ** Meter-type tags and tap locations in the dispatch *)

Lemma helper_unknown_meter_type (D : R) (D2 : option R) (m : R)
    (P1 P2 : option R) (rho mu k : R) (t : string) (taps : option string) :
  ~ In t meter_types ->
  _differential_pressure_C_epsilon D D2 m P1 P2 rho mu k t taps
  = Raise UnboundLocalError.
Proof.
  intros Ht. unfold _differential_pressure_C_epsilon.
  repeat match goal with
  | |- context [String.eqb t ?c] =>
      destruct (String.eqb_spec t c) as [-> | _];
      [exfalso; apply Ht; cbn; tauto |]
  end.
  reflexivity.
Qed.

(** X16.  A meter-type tag that is not one of the nine -- the correctly
    spelled ["venturi nozzle"] among them -- is not rejected as such: both
    dispatchers fall through to an [UnboundLocalError], and so does the
    residual of the solver at every trial point. *)
Theorem unknown_meter_type_unbound :
  forall (D : R) (D2 : option R) (m d2 p1 p2 : R) (P1 P2 C : option R)
         (rho mu k : R) (t : string) (taps : option string),
    ~ In t meter_types ->
    _differential_pressure_C_epsilon D D2 m P1 P2 rho mu k t taps
      = Raise UnboundLocalError
    /\ to_solve D D2 m P1 P2 rho mu k t taps = Raise UnboundLocalError
    /\ differential_pressure_meter_dP D d2 p1 p2 C t = Raise UnboundLocalError.
Proof.
  intros D D2 m d2 p1 p2 P1 P2 C rho mu k t taps Ht.
  pose proof (helper_unknown_meter_type D D2 m P1 P2 rho mu k t taps Ht) as Hh.
  split; [exact Hh |]. split.
  - unfold to_solve. now rewrite Hh.
  - now apply dP_unknown_meter_type.
Qed.

Lemma unknown_meter_type_unbound_witness :
  ~ In "venturi nozzle"%string meter_types
  /\ to_solve 0.07366 (Some 0.05) 2.81 (Some 200000) (Some 183000) 999.1
       0.0011 1.33 "venturi nozzle" None = Raise UnboundLocalError
  /\ differential_pressure_meter_dP 0.07366 0.05 200000 183000 None
       "venturi nozzle" = Raise UnboundLocalError.
Proof.
  assert (H : ~ In "venturi nozzle"%string meter_types).
  { cbn. intros [E | [E | [E | [E | [E | [E | [E | [E | [E | []]]]]]]]]];
      discriminate E. }
  split; [exact H |].
  destruct (unknown_meter_type_unbound 0.07366 (Some 0.05) 2.81 0.05 200000
              183000 (Some 200000) (Some 183000) None 999.1 0.0011 1.33
              "venturi nozzle" None H) as [_ [Ht Hd]].
  split; assumption.
Defined.

Lemma RHG_rejects_taps (D Do rho mu m : R) (taps : option string) :
  D <> 0 -> rho <> 0 -> mu <> 0 ->
  ~ In taps supported_taps ->
  C_Reader_Harris_Gallagher D (Some Do) rho mu m taps
  = Raise (Exception (Message "Unsupported tap location")).
Proof.
  intros HD Hrho Hmu Htaps.
  assert (Hbad : tap_parameters D taps
                 = Raise (Exception (Message "Unsupported tap location"))).
  { unfold tap_parameters, eq_str.
    destruct taps as [t |]; [| reflexivity].
    repeat match goal with
    | |- context [String.eqb t ?c] =>
        destruct (String.eqb_spec t c) as [-> | _];
        [exfalso; apply Htaps; cbn; tauto |]
    end.
    reflexivity. }
  unfold C_Reader_Harris_Gallagher.
  rewrite (fdiv_ok m) by (apply pipe_area_nonzero; assumption).
  cbn [bind]. rewrite (fdiv_ok _ mu) by exact Hmu.
  cbn [bind need]. rewrite (fdiv_ok Do D) by exact HD.
  cbn [bind]. now rewrite Hbad.
Qed.

Lemma helper_ignores_taps (D : R) (D2 : option R) (m : R) (P1 P2 : option R)
    (rho mu k : R) (t : string) (taps taps' : option string) :
  t <> ISO_5167_ORIFICE ->
  _differential_pressure_C_epsilon D D2 m P1 P2 rho mu k t taps
  = _differential_pressure_C_epsilon D D2 m P1 P2 rho mu k t taps'.
Proof.
  intros Ht. unfold _differential_pressure_C_epsilon.
  destruct (String.eqb_spec t ISO_5167_ORIFICE) as [E | _];
    [contradiction | reflexivity].
Qed.

(** X17.  The tap location matters to the solver for the ISO 5167 orifice
    only.  For that meter type and nonzero [D], [rho], [mu] a [taps] outside
    the four supported values -- the solver's own default [None] is one --
    makes the residual raise [Exception('Unsupported tap location')] at
    every trial point; for every other meter type the residual is the same
    for all values of [taps]. *)
Theorem solver_taps_dependence :
  forall (D D2 m : R) (P1 P2 : option R) (rho mu k : R)
         (taps : option string),
    D <> 0 -> rho <> 0 -> mu <> 0 ->
    ~ In taps supported_taps ->
    to_solve D (Some D2) m P1 P2 rho mu k ISO_5167_ORIFICE taps
      = Raise (Exception (Message "Unsupported tap location"))
    /\ forall (t : string) (d2 : option R) (taps' : option string),
         t <> ISO_5167_ORIFICE ->
         to_solve D d2 m P1 P2 rho mu k t taps
         = to_solve D d2 m P1 P2 rho mu k t taps'.
Proof.
  intros D D2 m P1 P2 rho mu k taps HD Hrho Hmu Htaps. split.
  - unfold to_solve, _differential_pressure_C_epsilon.
    cbn [String.eqb Ascii.eqb Bool.eqb ISO_5167_ORIFICE].
    now rewrite RHG_rejects_taps.
  - intros t d2 taps' Ht. unfold to_solve.
    now rewrite (helper_ignores_taps D d2 m P1 P2 rho mu k t taps taps').
Qed.

Lemma solver_taps_dependence_witness :
  (0.07366 <> 0 /\ 999.1 <> 0 /\ 0.0011 <> 0 /\ ~ In None supported_taps)
  /\ to_solve 0.07366 (Some 0.05) 2.81 (Some 200000) (Some 183000) 999.1
       0.0011 1.33 ISO_5167_ORIFICE None
     = Raise (Exception (Message "Unsupported tap location")).
Proof.
  assert (H1 : 0.07366 <> 0) by lra.
  assert (H2 : 999.1 <> 0) by lra.
  assert (H3 : 0.0011 <> 0) by lra.
  assert (H4 : ~ In None supported_taps).
  { cbn. intros [E | [E | [E | [E | []]]]]; discriminate E. }
  split; [repeat split; assumption |].
  exact (proj1 (solver_taps_dependence 0.07366 0.05 2.81 (Some 200000)
                  (Some 183000) 999.1 0.0011 1.33 None H1 H2 H3 H4)).
Defined.

(** ** The orifice solver and the unified solver *)

Lemma RHG_to_solve_is_to_solve (D Do P1 P2 rho mu k : R)
    (taps : option string) (m : R) :
  RHG_to_solve D Do P1 P2 rho mu k taps m
  = to_solve D (Some Do) m (Some P1) (Some P2) rho mu k ISO_5167_ORIFICE taps.
Proof.
  unfold RHG_to_solve, to_solve, _differential_pressure_C_epsilon.
  cbn [String.eqb Ascii.eqb Bool.eqb ISO_5167_ORIFICE].
  destruct (C_Reader_Harris_Gallagher D (Some Do) rho mu m taps)
    as [C | e |]; cbn [bind]; try reflexivity.
  destruct (orifice_expansibility D (Some Do) (Some P1) (Some P2) k)
    as [eps | e |]; cbn [bind]; try reflexivity.
  now rewrite orifice_discharge_swap.
Qed.

(** X18.  Given the same tap location, [Reader_Harris_Gallagher_discharge]
    is the unified solver asked for the mass flow of an ISO 5167 orifice:
    both hand the same residual to the same root finder with the same
    starting point [2.81], whatever the root finders are.  With [taps] left
    out the two calls differ, for the defaults do: the orifice function then
    is the solver called with [taps='corner'], for which the coefficient of
    a pipe flow exists, whereas the solver's own default [None] is no tap
    location and makes its residual raise
    [Exception('Unsupported tap location')] at every trial point. *)
Theorem Reader_Harris_Gallagher_discharge_is_solver :
  forall (newton : (R -> result R) -> R -> result R)
         (brenth : (R -> result R) -> R -> R -> result R)
         (D Do P1 P2 rho mu k : R),
    (forall taps : option string,
       Reader_Harris_Gallagher_discharge newton D Do P1 P2 rho mu k taps
       = differential_pressure_meter_solver newton brenth D rho mu k (Some Do)
           (Some P1) (Some P2) None ISO_5167_ORIFICE taps
       /\ forall m : R,
            RHG_to_solve D Do P1 P2 rho mu k taps m
            = to_solve D (Some Do) m (Some P1) (Some P2) rho mu k
                ISO_5167_ORIFICE taps)
    /\ Reader_Harris_Gallagher_discharge newton D Do P1 P2 rho mu k
         taps_default_orifice
       = differential_pressure_meter_solver newton brenth D rho mu k (Some Do)
           (Some P1) (Some P2) None ISO_5167_ORIFICE (Some "corner"%string)
    /\ (D <> 0 -> rho <> 0 -> mu <> 0 ->
        forall m : R,
          to_solve D (Some Do) m (Some P1) (Some P2) rho mu k
            ISO_5167_ORIFICE taps_default_solver
          = Raise (Exception (Message "Unsupported tap location")))
    /\ (0 < D -> 0 < Do < D -> 0 < rho -> 0 < mu ->
        forall m : R,
          0 < m ->
          C_Reader_Harris_Gallagher D (Some Do) rho mu m taps_default_orifice
          = Ok (RHG_value D (Do / D) (Reynolds_D D rho mu m) 0 0)).
Proof.
  intros newton brenth D Do P1 P2 rho mu k.
  assert (Hsame : forall taps : option string,
    Reader_Harris_Gallagher_discharge newton D Do P1 P2 rho mu k taps
    = differential_pressure_meter_solver newton brenth D rho mu k (Some Do)
        (Some P1) (Some P2) None ISO_5167_ORIFICE taps).
  { intros taps.
    unfold Reader_Harris_Gallagher_discharge,
      differential_pressure_meter_solver.
    f_equal. apply functional_extensionality. intros m.
    apply RHG_to_solve_is_to_solve. }
  split; [| split; [| split]].
  - intros taps. split; [apply Hsame |].
    intros m. apply RHG_to_solve_is_to_solve.
  - apply Hsame.
  - intros HD Hrho Hmu m.
    unfold to_solve, _differential_pressure_C_epsilon.
    cbn [String.eqb Ascii.eqb Bool.eqb ISO_5167_ORIFICE].
    rewrite RHG_rejects_taps; try assumption; [reflexivity |].
    unfold taps_default_solver. cbn.
    intros [E | [E | [E | [E | []]]]]; discriminate E.
  - intros HD HDo Hrho Hmu m Hm.
    apply C_Reader_Harris_Gallagher_value; try assumption.
    unfold taps_default_orifice, tap_parameters; cbn.
    f_equal. f_equal; lra.
Qed.

(** ** Pressure-drop dispatch and the discharge coefficient argument *)

(** X19.  The pressure-drop dispatcher uses its argument [C] for the three
    orifice-formula meter types only: left at its default [None] it makes
    them raise [TypeError] (for a nonzero [D]), while the venturi tubes and
    the cone meter return the same result for every [C]. *)
Theorem dP_dispatch_coefficient_argument :
  forall (D D2 P1 P2 : R) (C C' : option R),
    D <> 0 ->
    differential_pressure_meter_dP D D2 P1 P2 None ISO_5167_ORIFICE
      = Raise TypeError
    /\ differential_pressure_meter_dP D D2 P1 P2 None LONG_RADIUS_NOZZLE
       = Raise TypeError
    /\ differential_pressure_meter_dP D D2 P1 P2 None ISA_1932_NOZZLE
       = Raise TypeError
    /\ forall t : string,
         In t [AS_CAST_VENTURI_TUBE; MACHINED_CONVERGENT_VENTURI_TUBE;
               ROUGH_WELDED_CONVERGENT_VENTURI_TUBE; CONE_METER] ->
         differential_pressure_meter_dP D D2 P1 P2 C t
         = differential_pressure_meter_dP D D2 P1 P2 C' t.
Proof.
  intros D D2 P1 P2 C C' HD.
  assert (Hnone : dP_orifice D D2 P1 P2 None = Raise TypeError).
  { unfold dP_orifice. rewrite fdiv_ok by exact HD. reflexivity. }
  unfold differential_pressure_meter_dP.
  cbn [String.eqb Ascii.eqb Bool.eqb ISO_5167_ORIFICE LONG_RADIUS_NOZZLE
       ISA_1932_NOZZLE].
  rewrite Hnone. repeat split.
  intros t [<- | [<- | [<- | [<- | []]]]]; reflexivity.
Qed.

Lemma dP_dispatch_coefficient_argument_witness :
  0.07366 <> 0
  /\ differential_pressure_meter_dP 0.07366 0.05 200000 183000 None
       ISO_5167_ORIFICE = Raise TypeError.
Proof.
  assert (H1 : 0.07366 <> 0) by lra.
  split; [exact H1 |].
  exact (proj1 (dP_dispatch_coefficient_argument 0.07366 0.05 200000 183000
                  None None H1)).
Defined.

(** ** The wet-gas venturi tube *)

Lemma Rpower_pos (x y : R) : 0 < Rpower x y.
Proof. unfold Rpower. apply exp_pos. Qed.

Lemma exp_neg_lt_1 (x : R) : x < 0 -> exp x < 1.
Proof. intros Hx. rewrite <- exp_0. now apply exp_increasing. Qed.



(** ** Nozzle coefficients *)

Lemma Rpower_lt_1 (x y : R) : 0 < x < 1 -> 0 < y -> Rpower x y < 1.
Proof.
  intros [Hx0 Hx1] Hy. unfold Rpower. apply exp_neg_lt_1.
  assert (Hln : ln x < 0) by (rewrite <- ln_1; now apply ln_increasing).
  nra.
Qed.

(** X21.  For [0 < Do < D] the venturi nozzle coefficient is returned and
    lies strictly between [0.7878] and [0.9858]; for positive [rho], [mu]
    and [m] as well, the long radius nozzle coefficient is returned and is
    below its limit [0.9965] for an infinite Reynolds number. *)
Theorem nozzle_coefficient_bounds :
  forall D Do rho mu m : R,
    0 < D -> 0 < Do < D ->
    (exists C : R,
       C_venturi_nozzle D (Some Do) = Ok C /\ 0.7878 < C < 0.9858)
    /\ (0 < rho -> 0 < mu -> 0 < m ->
        exists C : R,
          C_long_radius_nozzle D (Some Do) rho mu m = Ok C
          /\ C = 0.9965 - 0.00653 * sqrt (Do / D)
                          * sqrt (1e6 / (4 * m / (pi * D * mu)))
          /\ C < 0.9965).
Proof.
  intros D Do rho mu m HD [HDo0 HDo1].
  assert (Hb : 0 < Do / D < 1).
  { split; [apply Rdiv_lt_0_compat; lra |].
    apply Rmult_lt_reg_r with D; [exact HD |].
    unfold Rdiv. rewrite Rmult_assoc, Rinv_l by lra. lra. }
  split.
  - exists (0.9858 - 0.198 * Rpower (Do / D) 4.5). split.
    + unfold C_venturi_nozzle. cbn [need bind].
      rewrite fdiv_ok by lra. cbn [bind].
      rewrite fpow_pos by lra. reflexivity.
    + pose proof (Rpower_pos (Do / D) 4.5).
      pose proof (Rpower_lt_1 (Do / D) 4.5 Hb ltac:(lra)). lra.
  - intros Hrho Hmu Hm. pose proof pi_pos as Hpi.
    assert (HRe : 0 < 4 * m / (pi * D * mu)).
    { apply Rdiv_lt_0_compat; [lra |].
      apply Rmult_lt_0_compat; [| exact Hmu].
      apply Rmult_lt_0_compat; lra. }
    assert (Hr : 0 < 1e6 / (4 * m / (pi * D * mu)))
      by (apply Rdiv_lt_0_compat; lra).
    eexists. split; [| split; [reflexivity |]].
    + unfold C_long_radius_nozzle.
      rewrite pipe_Reynolds_value by lra. cbn [bind need].
      rewrite (fdiv_ok Do D) by lra. cbn [bind].
      rewrite fsqrt_ok by lra. cbn [bind].
      rewrite fdiv_ok by lra. cbn [bind].
      rewrite fsqrt_ok by lra. reflexivity.
    + assert (0 < sqrt (Do / D)) by (apply sqrt_lt_R0; lra).
      assert (0 < sqrt (1e6 / (4 * m / (pi * D * mu))))
        by (apply sqrt_lt_R0; lra).
      nra.
Qed.

Lemma nozzle_coefficient_bounds_witness :
  (0 < 0.07366 /\ 0 < 0.05 < 0.07366)
  /\ exists C : R,
       C_venturi_nozzle 0.07366 (Some 0.05) = Ok C /\ 0.7878 < C < 0.9858.
Proof.
  assert (H1 : 0 < 0.07366) by lra.
  assert (H2 : 0 < 0.05 < 0.07366) by lra.
  split; [split; assumption |].
  exact (proj1 (nozzle_coefficient_bounds 0.07366 0.05 1.2 1.8e-5 1.1 H1 H2)).
Defined.

(** ** The residual at zero differential pressure *)

(** X22.  For the long radius, ISA 1932 and venturi nozzles and the three
    venturi tubes the helper asks [nozzle_expansibility] first, so with
    [P2 = P1] the helper and the residual of the solver raise
    [ZeroDivisionError], whatever the other arguments are. *)
Theorem residual_singular_at_equal_pressures :
  forall (D D2 m P rho mu k : R) (taps : option string) (t : string),
    In t [LONG_RADIUS_NOZZLE; ISA_1932_NOZZLE; VENTURI_NOZZLE;
          AS_CAST_VENTURI_TUBE; MACHINED_CONVERGENT_VENTURI_TUBE;
          ROUGH_WELDED_CONVERGENT_VENTURI_TUBE] ->
    _differential_pressure_C_epsilon D (Some D2) m (Some P) (Some P) rho mu k
      t taps = Raise ZeroDivisionError
    /\ to_solve D (Some D2) m (Some P) (Some P) rho mu k t taps
       = Raise ZeroDivisionError.
Proof.
  intros D D2 m P rho mu k taps t Ht.
  pose proof (proj1 (nozzle_expansibility_singular_lemma D D2 P k)) as Hn.
  assert (Hh : _differential_pressure_C_epsilon D (Some D2) m (Some P)
                 (Some P) rho mu k t taps = Raise ZeroDivisionError).
  { unfold _differential_pressure_C_epsilon.
    destruct Ht as [<- | [<- | [<- | [<- | [<- | [<- | []]]]]]];
      cbn [String.eqb Ascii.eqb Bool.eqb ISO_5167_ORIFICE LONG_RADIUS_NOZZLE
           ISA_1932_NOZZLE VENTURI_NOZZLE AS_CAST_VENTURI_TUBE
           MACHINED_CONVERGENT_VENTURI_TUBE
           ROUGH_WELDED_CONVERGENT_VENTURI_TUBE];
      now rewrite Hn. }
  split; [exact Hh |]. unfold to_solve. now rewrite Hh.
Qed.

Lemma residual_singular_at_equal_pressures_witness :
  In LONG_RADIUS_NOZZLE
     [LONG_RADIUS_NOZZLE; ISA_1932_NOZZLE; VENTURI_NOZZLE;
      AS_CAST_VENTURI_TUBE; MACHINED_CONVERGENT_VENTURI_TUBE;
      ROUGH_WELDED_CONVERGENT_VENTURI_TUBE]
  /\ to_solve 0.07366 (Some 0.05) 2.81 (Some 200000) (Some 200000) 999.1
       0.0011 1.33 LONG_RADIUS_NOZZLE None = Raise ZeroDivisionError.
Proof.
  assert (H : In LONG_RADIUS_NOZZLE
                [LONG_RADIUS_NOZZLE; ISA_1932_NOZZLE; VENTURI_NOZZLE;
                 AS_CAST_VENTURI_TUBE; MACHINED_CONVERGENT_VENTURI_TUBE;
                 ROUGH_WELDED_CONVERGENT_VENTURI_TUBE]) by (left; reflexivity).
  split; [exact H |].
  exact (proj2 (residual_singular_at_equal_pressures 0.07366 0.05 2.81 200000
                  999.1 0.0011 1.33 None LONG_RADIUS_NOZZLE H)).
Defined.

(** ** The coefficient conversions in binary64 arithmetic *)

Lemma to_R_finite (x : PrimFloat.float) (s : bool) (m : positive) (e : Z) :
  FloatOps.Prim2SF x = SpecFloat.S754_finite s m e ->
  Binary64.to_R x = IZR (if s then Z.neg m else Z.pos m) * powerRZ 2 e.
Proof. intros H. unfold Binary64.to_R. now rewrite H. Qed.

(** Replaces every [Binary64.to_R x] of the goal, [x] a literal, by the
    dyadic fraction it stands for. *)
Ltac eval_to_R :=
  repeat match goal with
  | |- context [Binary64.to_R ?x] =>
      let v := eval vm_compute in (FloatOps.Prim2SF x) in
      lazymatch v with
      | SpecFloat.S754_finite ?s ?m ?e =>
          rewrite (to_R_finite x s m e) by (vm_compute; reflexivity)
      end
  end;
  cbn [powerRZ];
  repeat match goal with
  | |- context [Pos.to_nat ?p] =>
      let n := eval vm_compute in (Pos.to_nat p) in
      change (Pos.to_nat p) with n
  end.

Module Binary64Properties.

Import PrimFloat.
Set Warnings "-inexact-float".

(** C3, the numerical tolerance.  At [D = 1], [Do = 0.9999999999],
    [C = 0.61512], inside the domain of the claim, the program computes the
    loss coefficient [2.7939618471563345e-19] and from it the discharge
    coefficient [0.6151200445603856], which exceeds [C] by more than
    [1e-9] of [C]. *)
Theorem K_round_trip_misses_tolerance :
  (0 < Binary64.to_R 0.9999999999 / Binary64.to_R 1 < 1
   /\ 0 < Binary64.to_R 0.61512 < 1)
  /\ Binary64.discharge_coefficient_to_K 1 0.9999999999 0.61512
     = Ok 2.7939618471563345e-19%float
  /\ Binary64.K_to_discharge_coefficient 1 0.9999999999
       2.7939618471563345e-19
     = Ok 0.6151200445603856%float
  /\ 1e-9 * Binary64.to_R 0.61512
     < Binary64.to_R 0.6151200445603856 - Binary64.to_R 0.61512.
Proof.
  split; [| split; [vm_compute; reflexivity |
                    split; [vm_compute; reflexivity |]]];
    eval_to_R; repeat split; lra.
Qed.

(** At the documented input [D = 0.07366], [Do = 0.05], [C = 0.61512] the
    program's round trip stays within [1e-9] of [C]. *)
Lemma K_round_trip_documented_example :
  Binary64.discharge_coefficient_to_K 0.07366 0.05 0.61512
  = Ok 5.2314291729753997%float
  /\ Binary64.K_to_discharge_coefficient 0.07366 0.05 5.2314291729753997
     = Ok 0.61512000000000011%float
  /\ Rabs (Binary64.to_R 0.61512000000000011 - Binary64.to_R 0.61512)
     < 1e-9 * Binary64.to_R 0.61512.
Proof.
  split; [vm_compute; reflexivity | split; [vm_compute; reflexivity |]].
  eval_to_R. apply Rabs_def1; lra.
Qed.

End Binary64Properties.
